(** * gosnowflake: the connection's statement-execution protocol

    A shallow embedding of [connection.go] (type [snowflakeConn] and its
    methods) together with the facts the specification states about it.

    Conventions of the embedding:
    - Go's [int64]/[uint64] are [Z] with the wrap-around written out
      ([wrap_int64], [wrap_uint64]);
    - a Go pointer [*T] is [option T], [None] being [nil]; dereferencing
      [nil] and indexing out of range are the two run-time panics the code
      can raise, and both are outcomes of the embedding ([Panic]);
    - a Go [error] is [option error], [None] being [nil];
    - a Go [map] is a [gmap]; a map that may be [nil] is an [option] of one;
    - the connection is mutated in place: methods are computations in a
      state monad over the connection and the trace of calls made to the
      external collaborators (transport, heartbeat, chunk downloader);
    - one goroutine uses the connection: calls follow one another.

    The file has four parts: the model of the code, the vocabulary of the
    statements, test doubles with scenarios, and the properties, each
    followed at the end by its run on a scenario. *)

From Stdlib Require Import ZArith Lia Ascii String.
From stdpp Require Import base option list sorting strings gmap fin_maps pretty.

Local Open Scope string_scope.
Local Open Scope Z_scope.
Local Open Scope list_scope.

(** ** Machine integers *)

Definition maxUint64 : Z := 2 ^ 64 - 1.
Definition maxInt64 : Z := 2 ^ 63 - 1.
Definition minInt64 : Z := - 2 ^ 63.

Definition wrap_uint64 (z : Z) : Z := z mod 2 ^ 64.
Definition wrap_int64 (z : Z) : Z := (z + 2 ^ 63) mod 2 ^ 64 - 2 ^ 63.

Definition in_int64 (z : Z) : Prop := minInt64 <= z <= maxInt64.
Definition in_uint64 (z : Z) : Prop := 0 <= z <= maxUint64.

(** ** Panics and outcomes *)

Inductive panic :=
| NilDereference      (* invalid memory address or nil pointer dereference *)
| IndexOutOfRange.    (* index out of range *)

Inductive outcome (A : Type) :=
| Ret (a : A)
| Panic (p : panic).
Arguments Ret {A} a.
Arguments Panic {A} p.

#[global] Instance outcome_ret : MRet outcome := fun A a => Ret a.
#[global] Instance outcome_bind : MBind outcome := fun A B f m =>
  match m with
  | Ret a => f a
  | Panic p => Panic p
  end.

(** [*p] for a pointer [p]. *)
Definition deref {A} (p : option A) : outcome A :=
  match p with
  | Some a => Ret a
  | None => Panic NilDereference
  end.

(** [l[i]] for a slice [l]. *)
Definition index {A} (l : list A) (i : nat) : outcome A :=
  match l !! i with
  | Some a => Ret a
  | None => Panic IndexOutOfRange
  end.

(** ** The parts of package [strconv], [strings] and [fmt] the code calls *)

Inductive numErr := ErrSyntax | ErrRange.

Definition digit_value (c : ascii) : option Z :=
  let n := Z.of_nat (nat_of_ascii c) in
  if (48 <=? n) && (n <=? 57) then Some (n - 48) else None.

(** The digit loop of [strconv.ParseUint(s, 10, 64)]. *)
Fixpoint ParseUint_digits (n : Z) (s : string) : Z + numErr :=
  match s with
  | EmptyString => inl n
  | String c r =>
      match digit_value c with
      | None => inr ErrSyntax
      | Some d =>
          if maxUint64 / 10 + 1 <=? n then inr ErrRange
          else
            let n1 := n * 10 + d in
            if maxUint64 <? n1 then inr ErrRange
            else ParseUint_digits n1 r
      end
  end.

Definition ParseUint (s : string) : Z + numErr :=
  match s with
  | EmptyString => inr ErrSyntax
  | _ => ParseUint_digits 0 s
  end.

(** [strconv.ParseInt(s, 10, 64)]: an optional sign, then decimal digits,
    the value within [int64]. *)
Definition ParseInt (s : string) : Z + numErr :=
  match s with
  | EmptyString => inr ErrSyntax
  | String c r =>
      let neg := Ascii.eqb c "-" in
      let s1 := if Ascii.eqb c "+" || neg then r else s in
      match ParseUint s1 with
      | inr e => inr e
      | inl un =>
          let cutoff := 2 ^ 63 in
          if negb neg && (cutoff <=? un) then inr ErrRange
          else if neg && (cutoff <? un) then inr ErrRange
          else inl (if neg then - un else un)
      end
  end.

(** [strconv.Atoi(s)] is [ParseInt(s, 10, 0)] on a 64-bit platform. *)
Definition Atoi (s : string) : Z + numErr := ParseInt s.

Definition FormatInt (v : Z) : string := pretty v.
Definition Itoa (i : Z) : string := pretty i.
Definition FormatBool (b : bool) : string := if b then "true" else "false".

(** [strings.Split(s, ",")]. *)
Fixpoint Split_comma (s : string) : list string :=
  match s with
  | EmptyString => [EmptyString]
  | String c r =>
      if Ascii.eqb c "," then EmptyString :: Split_comma r
      else
        match Split_comma r with
        | [] => [String c EmptyString]
        | w :: ws => String c w :: ws
        end
  end.

(** ** Constants of [connection.go] *)

Definition statementTypeIDMulti : Z := 0x1000.

Definition statementTypeIDDml : Z := 0x3000.
Definition statementTypeIDInsert : Z := statementTypeIDDml + 0x100.
Definition statementTypeIDUpdate : Z := statementTypeIDDml + 0x200.
Definition statementTypeIDDelete : Z := statementTypeIDDml + 0x300.
Definition statementTypeIDMerge : Z := statementTypeIDDml + 0x400.
Definition statementTypeIDMultiTableInsert : Z := statementTypeIDDml + 0x500.

Definition statementTypeIDDdl : Z := 0x6000.
Definition statementTypeIDCreate : Z := statementTypeIDDdl + 0x101.
Definition statementTypeIDComment : Z := statementTypeIDDdl + 0x200.
Definition statementTypeIDDrop : Z := statementTypeIDDdl + 0x300.
Definition statementTypeIDAlter : Z := statementTypeIDDdl + 0x401.

Definition sessionClientSessionKeepAlive : string := "client_session_keep_alive".
Definition sessionClientValidateDefaultParameters : string :=
  "CLIENT_VALIDATE_DEFAULT_PARAMETERS".
Definition serviceName : string := "service_name".

Definition multiStmtMarker : string := "multiple statement execution".

(** ** Dynamic values: Go's [interface{}] as the code inspects it *)

#[local] Unset Elimination Schemes.
Inductive iface :=
| INil
| IInt (v : Z)
| IInt64 (v : Z)
| IFloat64 (bits : Z)        (* the IEEE-754 binary64 bit pattern *)
| IBool (b : bool)
| IString (s : string)
| ISlice (elems : list iface)
| IOther (descr : string).
#[local] Set Elimination Schemes.

(** ** Request-scoped options (the context keys of the package) *)

Inductive paramKey :=
| MultiStatementCount
| AsyncMode
| QueryIDChan
| ResumeQueryID
| IsInternal.

Definition paramKey_string (k : paramKey) : string :=
  match k with
  | MultiStatementCount => "MULTI_STATEMENT_COUNT"
  | AsyncMode => "ASYNC_MODE_QUERY"
  | QueryIDChan => "QUERY_ID_CHAN"
  | ResumeQueryID => "RESUME_QUERY_ID"
  | IsInternal => "INTERNAL_QUERY"
  end.

#[global] Instance paramKey_eq_dec : EqDecision paramKey.
Proof. solve_decision. Defined.

(** [ctx.Value(k)]; [INil] when the key is absent. *)
Definition Context : Type := paramKey -> iface.

Definition context_TODO : Context := fun _ => INil.

Definition context_WithValue (ctx : Context) (k : paramKey) (v : iface) : Context :=
  fun k' => if decide (k' = k) then v else ctx k'.

(** ** Errors *)

Record SnowflakeError := mkSnowflakeError {
  Number : Z;
  err_SQLState : string;
  err_Message : string;
  err_QueryID : string
}.

Inductive error :=
| ErrBadConn                                          (* driver.ErrBadConn *)
| ErrSkip                                             (* driver.ErrSkip *)
| ErrSnowflake (e : SnowflakeError)                   (* *SnowflakeError *)
| ErrNum (fn : string) (num : string) (e : numErr)    (* *strconv.NumError *)
| ErrCast (val : iface)                               (* fmt.Errorf("failed to cast val ...") *)
| ErrExternal (msg : string).                         (* raised by a collaborator *)

(** ** Wire request *)

Record execBindParameter := mkBind {
  bp_Type : string;
  bp_Value : iface
}.

Record execRequest := mkRequest {
  SQLText : string;
  AsyncExec : bool;
  SequenceID : Z;
  req_IsInternal : bool;
  req_Parameters : option (gmap string iface);
  Bindings : option (gmap string execBindParameter)
}.

Record NamedValue := mkNamedValue {
  arg_Name : string;
  Ordinal : Z;
  Value : iface
}.

(** ** Wire response (the fields [connection.go] reads) *)

Record execResponseRowType := mkRowType {
  Name : string;
  rt_Type : string
}.

Record nameValueParameter := mkParam {
  param_Name : string;
  param_Value : iface
}.

Record execResponseChunk := mkChunk {
  URL : string;
  RowCount : Z
}.

Record execResponseData := mkData {
  Parameters : list nameValueParameter;
  RowType : list execResponseRowType;
  RowSet : list (list (option string));      (* [][]*string *)
  RowSetBase64 : string;
  Total : Z;
  SQLState : string;
  QueryID : string;
  FinalDatabaseName : string;
  FinalSchemaName : string;
  FinalWarehouseName : string;
  FinalRoleName : string;
  StatementTypeID : Z;
  Chunks : list execResponseChunk;
  Qrmk : string;
  ChunkHeaders : gmap string string;
  QueryResultFormat : string;
  ResultIDs : string;
  ResultTypes : string
}.

Record execResponse := mkResponse {
  Data : execResponseData;
  Message : string;
  Code : string;
  Success : bool
}.

(** ** Calls made to the collaborators, in the order they are made *)

Inductive Event :=
| EvPostQuery (req : execRequest) (headers : gmap string string) (body : string)
| EvGet (resultPath : string) (headers : gmap string string)
| EvCloseSession
| EvHeartBeatStart
| EvHeartBeatStop
| EvDownloaderStart.

(** ** Session, transport and connection *)

Record Config := mkConfig {
  Database : string;
  Schema : string;
  Warehouse : string;
  Role : string;
  Params : gmap string string                (* map[string]*string, no nil entries *)
}.

Inductive heartbeat := mkHeartbeat.

(** The transport's function fields are injectable strategies; what they
    answer may depend on the calls made so far, which they receive. *)
Record snowflakeRestful := mkRestful {
  Token : string;
  RequestTimeout : Z;
  HeartBeat : option heartbeat;
  FuncPostQuery :
    list Event -> gmap string string -> string -> option execResponse * option error;
  FuncGet :
    list Event -> string -> gmap string string -> option string * option error;
  FuncCloseSession : list Event -> option error
}.

Record snowflakeConn := mkConn {
  cfg : option Config;
  rest : option snowflakeRestful;
  SequenceCounter : Z;
  sc_QueryID : string;
  sc_SQLState : string
}.

Record World := mkWorld {
  conn : snowflakeConn;
  trace : list Event
}.

(** ** Results handed to the caller *)

Inductive Result :=
| snowflakeResult (affectedRows : Z) (insertID : Z) (queryID : string)
| ResultNoRows.                                       (* driver.ResultNoRows *)

Record TxOptions := mkTxOptions {
  Isolation : Z;
  ReadOnly : bool
}.

Definition LevelDefault : Z := 0.

(** The handles keep a pointer to the connection; there is one connection
    in a [World], so the pointer carries no data here. *)
Inductive snowflakeTx := mkTx.

Record snowflakeStmt := mkStmt {
  stmt_query : string
}.

Record rowSetType := mkRowSet {
  rs_RowType : list execResponseRowType;
  JSON : list (list (option string));
  rs_RowSetBase64 : string
}.

#[local] Unset Elimination Schemes.
Inductive snowflakeChunkDownloader := mkDownloader {
  CurrentChunk_len : nat;
  ChunkMetas : list execResponseChunk;
  cd_Total : Z;
  TotalRowIndex : Z;
  CellCount : nat;
  cd_Qrmk : string;
  cd_QueryResultFormat : string;
  ChunkHeader : gmap string string;
  cd_RowSet : rowSetType;
  NextDownloader : option snowflakeChunkDownloader
}.
#[local] Set Elimination Schemes.

Record snowflakeRows := mkRows {
  rows_RowType : list execResponseRowType;
  ChunkDownloader : snowflakeChunkDownloader;
  rows_queryID : string
}.

(** ** The state monad of the methods

    A method runs from a world and either returns or panics; what it did
    to the connection and which calls it made before a panic remain. *)

Inductive result (A : Type) :=
| Done (a : A) (w : World)
| Panicked (p : panic) (w : World).
Arguments Done {A} a w.
Arguments Panicked {A} p w.

Definition world_of {A} (r : result A) : World :=
  match r with
  | Done _ w => w
  | Panicked _ w => w
  end.

Definition Go (A : Type) : Type := World -> result A.

#[global] Instance Go_ret : MRet Go := fun A a w => Done a w.
#[global] Instance Go_bind : MBind Go := fun A B f m w =>
  match m w with
  | Done a w' => f a w'
  | Panicked p w' => Panicked p w'
  end.

Definition lift {A} (o : outcome A) : Go A := fun w =>
  match o with
  | Ret a => Done a w
  | Panic p => Panicked p w
  end.

Definition get_conn : Go snowflakeConn := fun w => Done (conn w) w.
Definition put_conn (sc : snowflakeConn) : Go unit := fun w =>
  Done tt {| conn := sc; trace := trace w |}.
Definition get_trace : Go (list Event) := fun w => Done (trace w) w.
Definition emit (e : Event) : Go unit := fun w =>
  Done tt {| conn := conn w; trace := trace w ++ [e] |}.

(** [sc.cfg.f] and [sc.rest.f] start by dereferencing the pointer. *)
Definition sc_cfg : Go Config := sc ← get_conn; lift (deref (cfg sc)).
Definition sc_rest : Go snowflakeRestful := sc ← get_conn; lift (deref (rest sc)).

Definition put_cfg (c : Config) : Go unit :=
  sc ← get_conn;
  put_conn {| cfg := Some c; rest := rest sc; SequenceCounter := SequenceCounter sc;
              sc_QueryID := sc_QueryID sc; sc_SQLState := sc_SQLState sc |}.

(** ** What the rest of the package and the libraries provide

    [connection.go] calls converters, encoders and constants that are
    declared in other files of the package or in Go's libraries. They are
    parameters of the development. *)

Class Externals := {
  (* package strings, package strconv *)
  strings_ToLower : string -> string;
  FormatFloat : Z -> string;              (* FormatFloat(v, 'g', -1, 64) *)
  (* the bind-value converters of the package *)
  goTypeToSnowflake : iface -> string -> string;
  dataTypeMode : iface -> string * option error;
  arrayToString : iface -> string * iface;
  valueToString : iface -> string -> iface * option error;
  (* package encoding/json *)
  json_Marshal : execRequest -> string * option error;
  json_Decode : string -> option execResponse * option error;
  (* error numbers, SQL states and messages *)
  ErrNoReadOnlyTransaction : Z;
  ErrNoDefaultTransactionIsolationLevel : Z;
  SQLStateFeatureNotSupported : string;
  errMsgNoReadOnlyTransaction : string;
  errMsgNoDefaultTransactionIsolationLevel : string;
  (* header names and values *)
  headerContentTypeApplicationJSON : string;
  headerAcceptTypeApplicationSnowflake : string;
  userAgent : string;
  headerAuthorizationKey : string;
  headerSnowflakeToken : string -> string    (* Sprintf(headerSnowflakeToken, token) *)
}.

(** ** [connection.go] *)

Section Connection.
Context `{E : Externals}.

(** isDml returns true if the statement type code is in the range of DML. *)
Definition isDml (v : Z) : bool :=
  (statementTypeIDDml <=? v) && (v <=? statementTypeIDMultiTableInsert).

(** isMultiStmt returns true if the statement type code is of type
    multistatement. [&&] evaluates its right operand, and with it
    [data.RowType[0]], only when the left one holds. *)
Definition isMultiStmt (data : execResponseData) : outcome bool :=
  if StatementTypeID data =? statementTypeIDMulti then
    c ← index (RowType data) 0;
    mret (String.eqb (Name c) multiStmtMarker)
  else mret false.

(** [atomic.AddUint64(&sc.SequenceCounter, delta)] *)
Definition atomic_AddUint64_SequenceCounter (delta : Z) : Go Z :=
  sc ← get_conn;
  let n := wrap_uint64 (SequenceCounter sc + delta) in
  put_conn {| cfg := cfg sc; rest := rest sc; SequenceCounter := n;
              sc_QueryID := sc_QueryID sc; sc_SQLState := sc_SQLState sc |};;
  mret n.

(** The loop of [exec] over the bind values: [tsmode] is the timestamp
    mode, [idx] the next free slot, [m] the bind map built so far. *)
Fixpoint exec_bindings (bindings : list NamedValue) (tsmode : string) (idx : Z)
    (m : gmap string execBindParameter) : gmap string execBindParameter + error :=
  match bindings with
  | [] => inl m
  | b :: bindings' =>
      let t := goTypeToSnowflake (Value b) tsmode in
      if String.eqb t "CHANGE_TYPE" then
        match dataTypeMode (Value b) with
        | (_, Some err) => inr err
        | (tsmode', None) => exec_bindings bindings' tsmode' idx m
        end
      else if String.eqb t "ARRAY" then
        let '(t', v1) := arrayToString (Value b) in
        exec_bindings bindings' tsmode (idx + 1) (<[Itoa idx := mkBind t' v1]> m)
      else
        match valueToString (Value b) tsmode with
        | (_, Some err) => inr err
        | (v1, None) =>
            exec_bindings bindings' tsmode (idx + 1) (<[Itoa idx := mkBind t v1]> m)
        end
  end.

Definition exec_headers (c : Config) : gmap string string :=
  let headers : gmap string string :=
    <["User-Agent" := userAgent]>
      (<["accept" := headerAcceptTypeApplicationSnowflake]>
         (<["Content-Type" := headerContentTypeApplicationJSON]> ∅)) in
  match Params c !! serviceName with
  | Some v => <["X-Snowflake-Service" := v]> headers
  | None => headers
  end.

Definition paramValueString (v : iface) : string :=
  match v with
  | IInt64 vv => FormatInt vv
  | IFloat64 vv => FormatFloat vv
  | IBool vv => FormatBool vv
  | IString vv => vv
  | _ => ""
  end.

Fixpoint populateSessionParameters (parameters : list nameValueParameter) : Go unit :=
  match parameters with
  | [] => mret tt
  | param :: parameters' =>
      let v := paramValueString (param_Value param) in
      c ← sc_cfg;
      put_cfg {| Database := Database c; Schema := Schema c; Role := Role c;
                 Warehouse := Warehouse c;
                 Params := <[strings_ToLower (param_Name param) := v]> (Params c) |};;
      populateSessionParameters parameters'
  end.

(** [sc.rest.FuncPostQuery(...)]: the call is recorded, the transport answers. *)
Definition PostQuery (req : execRequest) (headers : gmap string string) (jsonBody : string)
  : Go (option execResponse * option error) :=
  r ← sc_rest;
  tr ← get_trace;
  emit (EvPostQuery req headers jsonBody);;
  mret (FuncPostQuery r tr headers jsonBody).

(** [req.Parameters]: set when the context carries a statement count. *)
Definition exec_parameters (ctx : Context) : option (gmap string iface) :=
  match ctx MultiStatementCount with
  | INil => None
  | key => Some {[ paramKey_string MultiStatementCount := key ]}
  end.

(** [req.Bindings]: nil unless [len(bindings) > 0]. *)
Definition exec_bind (bindings : list NamedValue)
  : option (gmap string execBindParameter) + error :=
  match bindings with
  | [] => inl None
  | _ =>
      match exec_bindings bindings "TIMESTAMP_NTZ" 1 ∅ with
      | inl m => inl (Some m)
      | inr err => inr err
      end
  end.

(** The part of [exec] that follows the transport's answer. *)
Definition exec_response (data : option execResponse) (err : option error)
  : Go (option execResponse * option error) :=
  match err with
  | Some _ => mret (data, err)
  | None =>
      d ← lift (deref data);
      let parsed := if String.eqb (Code d) "" then inl (-1) else Atoi (Code d) in
      match parsed with
      | inr e => mret (data, Some (ErrNum "Atoi" (Code d) e))
      | inl code =>
          if negb (Success d) then
            mret (None, Some (ErrSnowflake
              {| Number := code; err_SQLState := SQLState (Data d);
                 err_Message := Message d;
                 err_QueryID := QueryID (Data d) |}))
          else
            c ← sc_cfg;
            put_cfg {| Database := FinalDatabaseName (Data d);
                       Schema := FinalSchemaName (Data d);
                       Role := FinalRoleName (Data d);
                       Warehouse := FinalWarehouseName (Data d);
                       Params := Params c |};;
            sc ← get_conn;
            put_conn {| cfg := cfg sc; rest := rest sc;
                        SequenceCounter := SequenceCounter sc;
                        sc_QueryID := QueryID (Data d);
                        sc_SQLState := SQLState (Data d) |};;
            populateSessionParameters (Parameters (Data d));;
            mret (data, None)
      end
  end.

Definition exec (ctx : Context) (query : string) (noResult isInternal : bool)
    (bindings : list NamedValue) : Go (option execResponse * option error) :=
  counter ← atomic_AddUint64_SequenceCounter 1;
  let params := exec_parameters ctx in
  match exec_bind bindings with
  | inr err => mret (None, Some err)
  | inl bs =>
      let req :=
        {| SQLText := query; AsyncExec := noResult; req_IsInternal := isInternal;
           SequenceID := counter; req_Parameters := params; Bindings := bs |} in
      c ← sc_cfg;
      let headers := exec_headers c in
      match json_Marshal req with
      | (_, Some err) => mret (None, Some err)
      | (jsonBody, None) =>
          '(data, err) ← PostQuery req headers jsonBody;
          exec_response data err
      end
  end.

Definition put_rest (r : snowflakeRestful) : Go unit :=
  sc ← get_conn;
  put_conn {| cfg := cfg sc; rest := Some r; SequenceCounter := SequenceCounter sc;
              sc_QueryID := sc_QueryID sc; sc_SQLState := sc_SQLState sc |}.

Definition isInternal (ctx : Context) : bool * option error :=
  match ctx IsInternal with
  | INil => (false, None)
  | IBool boolVal => (boolVal, None)
  | val => (false, Some (ErrCast val))
  end.

Definition isAsyncMode (ctx : Context) : bool * option error :=
  match ctx AsyncMode with
  | INil => (false, None)
  | IBool boolVal => (boolVal, None)
  | val => (false, Some (ErrCast val))
  end.

(** [for i, n := 0, len(data.RowType); i < n; i++]: [fuel] is [n - i]. *)
Fixpoint updateRows_from (data : execResponseData) (fuel : nat) (i : nat) (count : Z)
  : outcome (Z * option error) :=
  match fuel with
  | O => mret (count, None)
  | S fuel' =>
      row ← index (RowSet data) 0;
      cell ← index row i;
      s ← deref cell;
      match ParseInt s with
      | inr e => mret (-1, Some (ErrNum "ParseInt" s e))
      | inl v => updateRows_from data fuel' (S i) (wrap_int64 (count + v))
      end
  end.

Definition updateRows (data : execResponseData) : outcome (Z * option error) :=
  updateRows_from data (length (RowType data)) 0 0.

Record childResult := mkChild {
  child_id : string;
  child_typ : string
}.

(** [for i, id := range queryIDs { res[i] = childResult{id, resultTypes[i]} }] *)
Fixpoint getChildResults_from (queryIDs : list string) (i : nat) (resultTypes : list string)
  : outcome (list childResult) :=
  match queryIDs with
  | [] => mret []
  | id :: queryIDs' =>
      t ← index resultTypes i;
      res ← getChildResults_from queryIDs' (S i) resultTypes;
      mret (mkChild id t :: res)
  end.

Definition getChildResults (IDs types : string) : outcome (list childResult) :=
  if String.eqb IDs "" then mret []
  else getChildResults_from (Split_comma IDs) 0 (Split_comma types).

(** The request id, the request guid and the client start time added to
    the URL are fresh per call; the transport is handed the result path. *)
Definition getQueryResult (ctx : Context) (resultPath : string)
  : Go (option execResponse * option error) :=
  c ← sc_cfg;
  let headers := exec_headers c in
  r ← sc_rest;
  let headers :=
    if String.eqb (Token r) "" then headers
    else <[headerAuthorizationKey := headerSnowflakeToken (Token r)]> headers in
  tr ← get_trace;
  emit (EvGet resultPath headers);;
  match FuncGet r tr resultPath headers with
  | (_, Some err) => mret (None, Some err)
  | (res, None) =>
      body ← lift (deref res);
      match json_Decode body with
      | (_, Some err) => mret (None, Some err)
      | (respd, None) => mret (respd, None)
      end
  end.

(** The block both [ExecContext] and [QueryContext] run when [exec] fails:
    [code, err := strconv.Atoi(data.Code)] declares a new [err]; past its
    check that [err] is nil, and [Message: err.Error()] calls a method of
    the nil interface. *)
Definition exec_failed {A} (data : option execResponse) (err : error)
  : Go (option A * option error) :=
  match data with
  | Some d =>
      match Atoi (Code d) with
      | inr e => mret (None, Some (ErrNum "Atoi" (Code d) e))
      | inl code => lift (Panic NilDereference)
      end
  | None => mret (None, Some err)
  end.

Definition resultPath_of (child : childResult) : string :=
  "/queries/" +:+ child_id child +:+ "/result".

(** The branch of [ExecContext] for a DML response. *)
Definition ExecContext_dml (data : execResponseData) : Go (option Result * option error) :=
  '(updatedRows, err) ← lift (updateRows data);
  match err with
  | Some e => mret (None, Some e)
  | None =>
      sc ← get_conn;
      mret (Some (snowflakeResult updatedRows (-1) (sc_QueryID sc)), None)
  end.

(** The loop of [ExecContext] over the children of a multi-statement
    response, and the result built after it. *)
Fixpoint ExecContext_children (ctx : Context) (childResults : list childResult)
    (updatedRows : Z) : Go (option Result * option error) :=
  match childResults with
  | [] =>
      sc ← get_conn;
      mret (Some (snowflakeResult updatedRows (-1) (sc_QueryID sc)), None)
  | child :: childResults' =>
      '(childData, err) ← getQueryResult ctx (resultPath_of child);
      match err with
      | Some _ =>
          (* code, err := strconv.Atoi(childData.Code), before the nil check *)
          cd ← lift (deref childData);
          match Atoi (Code cd) with
          | inr e => mret (None, Some (ErrNum "Atoi" (Code cd) e))
          | inl code => lift (Panic NilDereference)        (* err.Error() on nil *)
          end
      | None =>
          cd ← lift (deref childData);
          if isDml (StatementTypeID (Data cd)) then
            '(count, err) ← lift (updateRows (Data cd));
            match err with
            | Some _ =>
                match Atoi (Code cd) with
                | inr e => mret (None, Some (ErrNum "Atoi" (Code cd) e))
                | inl code => lift (Panic NilDereference)  (* err.Error() on nil *)
                end
            | None =>
                ExecContext_children ctx childResults' (wrap_int64 (updatedRows + count))
            end
          else ExecContext_children ctx childResults' updatedRows
      end
  end.

Definition ExecContext_multi (ctx : Context) (data : execResponseData)
  : Go (option Result * option error) :=
  childResults ← lift (getChildResults (ResultIDs data) (ResultTypes data));
  ExecContext_children ctx childResults 0.

(** The classification of a successful response by [ExecContext]. *)
Definition ExecContext_dispatch (ctx : Context) (data : execResponseData)
  : Go (option Result * option error) :=
  if isDml (StatementTypeID data) then ExecContext_dml data
  else
    multi ← lift (isMultiStmt data);
    if multi : bool then ExecContext_multi ctx data
    else mret (Some ResultNoRows, None).

Definition ExecContext (ctx : Context) (query : string) (args : list NamedValue)
  : Go (option Result * option error) :=
  sc ← get_conn;
  match rest sc with
  | None => mret (None, Some ErrBadConn)
  | Some _ =>
      match isInternal ctx with
      | (_, Some err) => mret (None, Some err)
      | (internal, None) =>
          match isAsyncMode ctx with
          | (_, Some err) => mret (None, Some err)
          | (noResult, None) =>
              '(data, err) ← exec ctx query noResult internal args;
              match err with
              | Some e => exec_failed data e
              | None =>
                  d ← lift (deref data);
                  ExecContext_dispatch ctx (Data d)
              end
          end
      end
  end.

Definition populateChunkDownloader (data : execResponseData) : snowflakeChunkDownloader :=
  {| CurrentChunk_len := length (RowSet data);
     ChunkMetas := Chunks data;
     cd_Total := Total data;
     TotalRowIndex := -1;
     CellCount := length (RowType data);
     cd_Qrmk := Qrmk data;
     cd_QueryResultFormat := QueryResultFormat data;
     ChunkHeader := ChunkHeaders data;
     cd_RowSet := {| rs_RowType := RowType data; JSON := RowSet data;
                     rs_RowSetBase64 := RowSetBase64 data |};
     NextDownloader := None |}.

(** [d.NextDownloader = next] *)
Definition set_NextDownloader (d : snowflakeChunkDownloader)
    (next : option snowflakeChunkDownloader) : snowflakeChunkDownloader :=
  {| CurrentChunk_len := CurrentChunk_len d; ChunkMetas := ChunkMetas d;
     cd_Total := cd_Total d; TotalRowIndex := TotalRowIndex d;
     CellCount := CellCount d; cd_Qrmk := cd_Qrmk d;
     cd_QueryResultFormat := cd_QueryResultFormat d; ChunkHeader := ChunkHeader d;
     cd_RowSet := cd_RowSet d; NextDownloader := next |}.

(** The downloaders of the children, each linked to the next through
    [NextDownloader]: what the writes through [nextChunkDownloader] build. *)
Fixpoint link_downloaders (d : snowflakeChunkDownloader)
    (ds : list snowflakeChunkDownloader) : snowflakeChunkDownloader :=
  match ds with
  | [] => d
  | d' :: ds' => set_NextDownloader d (Some (link_downloaders d' ds'))
  end.

(** The loop of [QueryContext] over the children: the downloaders of the
    children visited so far are [acc], in order. *)
Fixpoint QueryContext_children (ctx : Context) (childResults : list childResult)
    (acc : list snowflakeChunkDownloader)
  : Go (list snowflakeChunkDownloader + error) :=
  match childResults with
  | [] => mret (inl acc)
  | child :: childResults' =>
      '(childData, err) ← getQueryResult ctx (resultPath_of child);
      match err with
      | Some e =>
          match childData with
          | Some cd =>
              match Atoi (Code cd) with
              | inr ne => mret (inr (ErrNum "Atoi" (Code cd) ne))
              | inl code => lift (Panic NilDereference)    (* err.Error() on nil *)
              end
          | None => mret (inr e)
          end
      | None =>
          cd ← lift (deref childData);
          QueryContext_children ctx childResults'
            (acc ++ [populateChunkDownloader (Data cd)])
      end
  end.

(** Modelled from the spec: the chunk downloader's [start] is not part of
    [connection.go]; section 4.4 has it move the cursor from Created to
    Started. The call is recorded. *)
Definition ChunkDownloader_start (d : snowflakeChunkDownloader) : Go unit :=
  emit EvDownloaderStart.

Definition QueryContext (ctx : Context) (query : string) (args : list NamedValue)
  : Go (option snowflakeRows * option error) :=
  sc ← get_conn;
  match rest sc with
  | None => mret (None, Some ErrBadConn)
  | Some _ =>
      match isInternal ctx with
      | (_, Some err) => mret (None, Some err)
      | (internal, None) =>
          match isAsyncMode ctx with
          | (_, Some err) => mret (None, Some err)
          | (noResult, None) =>
              '(data, err) ← exec ctx query noResult internal args;
              match err with
              | Some e => exec_failed data e
              | None =>
                  d ← lift (deref data);
                  sc ← get_conn;
                  let parent := populateChunkDownloader (Data d) in
                  multi ← lift (isMultiStmt (Data d));
                  children ←
                    (if multi : bool then
                       childResults ← lift (getChildResults (ResultIDs (Data d))
                                              (ResultTypes (Data d)));
                       QueryContext_children ctx childResults []
                     else mret (inl []));
                  match children with
                  | inr err => mret (None, Some err)
                  | inl ds =>
                      let downloader :=
                        match ds with
                        | [] => parent
                        | first :: ds' => link_downloaders first ds'
                        end in
                      ChunkDownloader_start downloader;;
                      mret (Some {| rows_RowType := RowType (Data d);
                                    ChunkDownloader := downloader;
                                    rows_queryID := sc_QueryID sc |}, None)
                  end
              end
          end
      end
  end.

Definition BeginTx (ctx : Context) (opts : TxOptions)
  : Go (option snowflakeTx * option error) :=
  if ReadOnly opts then
    mret (None, Some (ErrSnowflake
      {| Number := ErrNoReadOnlyTransaction;
         err_SQLState := SQLStateFeatureNotSupported;
         err_Message := errMsgNoReadOnlyTransaction;
         err_QueryID := "" |}))
  else if negb (Isolation opts =? LevelDefault) then
    mret (None, Some (ErrSnowflake
      {| Number := ErrNoDefaultTransactionIsolationLevel;
         err_SQLState := SQLStateFeatureNotSupported;
         err_Message := errMsgNoDefaultTransactionIsolationLevel;
         err_QueryID := "" |}))
  else
    sc ← get_conn;
    match rest sc with
    | None => mret (None, Some ErrBadConn)
    | Some _ =>
        '(_, err) ← exec ctx "BEGIN" false false [];
        match err with
        | Some e => mret (None, Some e)
        | None => mret (Some mkTx, None)
        end
    end.

Definition Begin : Go (option snowflakeTx * option error) :=
  BeginTx context_TODO {| Isolation := 0; ReadOnly := false |}.

Definition cleanup : Go unit :=
  sc ← get_conn;
  put_conn {| cfg := None; rest := None; SequenceCounter := SequenceCounter sc;
              sc_QueryID := sc_QueryID sc; sc_SQLState := sc_SQLState sc |}.

Definition isClientSessionKeepAliveEnabled : Go bool :=
  c ← sc_cfg;
  match Params c !! sessionClientSessionKeepAlive with
  | None => mret false
  | Some v => mret (String.eqb v "true")
  end.

(** Modelled from the spec: the heartbeat task is not part of
    [connection.go]; section 4.6 has it started when the session enables
    keep-alive and stopped on [Close]. Both calls are recorded; stopping
    signals the task through the receiver, so a nil receiver is
    dereferenced. *)
Definition heartbeat_start (hb : option heartbeat) : Go unit :=
  lift (deref hb);; emit EvHeartBeatStart.

Definition heartbeat_stop (hb : option heartbeat) : Go unit :=
  lift (deref hb);; emit EvHeartBeatStop.

Definition startHeartBeat : Go unit :=
  enabled ← isClientSessionKeepAliveEnabled;
  if negb enabled then mret tt
  else
    r ← sc_rest;
    put_rest {| Token := Token r; RequestTimeout := RequestTimeout r;
                HeartBeat := Some mkHeartbeat;
                FuncPostQuery := FuncPostQuery r; FuncGet := FuncGet r;
                FuncCloseSession := FuncCloseSession r |};;
    r ← sc_rest;
    heartbeat_start (HeartBeat r).

Definition stopHeartBeat : Go unit :=
  enabled ← isClientSessionKeepAliveEnabled;
  if negb enabled then mret tt
  else
    r ← sc_rest;
    heartbeat_stop (HeartBeat r).

(** [Close] logs the error of the session-close call and drops it. *)
Definition Close : Go (option error) :=
  stopHeartBeat;;
  r ← sc_rest;
  tr ← get_trace;
  emit EvCloseSession;;
  let err := FuncCloseSession r tr in
  cleanup;;
  mret None.

Definition PrepareContext (ctx : Context) (query : string)
  : Go (option snowflakeStmt * option error) :=
  sc ← get_conn;
  match rest sc with
  | None => mret (None, Some ErrBadConn)
  | Some _ => mret (Some {| stmt_query := query |}, None)
  end.

Definition Prepare (query : string) : Go (option snowflakeStmt * option error) :=
  PrepareContext context_TODO query.

Definition Ping (ctx : Context) : Go (option error) :=
  sc ← get_conn;
  match rest sc with
  | None => mret (Some ErrBadConn)
  | Some _ =>
      match isInternal ctx with
      | (_, Some err) => mret (Some err)
      | (internal, None) =>
          match isAsyncMode ctx with
          | (_, Some err) => mret (Some err)
          | (noResult, None) =>
              '(_, err) ← exec ctx "SELECT 1" noResult internal [];
              mret err
          end
      end
  end.

End Connection.

(** ** The context constructors of the package *)

Definition WithMultiStatement (ctx : Context) (num : Z) : Context * option error :=
  (context_WithValue ctx MultiStatementCount (IInt num), None).

Definition WithAsyncMode (ctx : Context) : Context * option error :=
  (context_WithValue ctx AsyncMode (IBool true), None).

Definition WithInternal (ctx : Context) : Context * option error :=
  (context_WithValue ctx IsInternal (IBool true), None).

(** ** [statement.go]: the methods of [snowflakeStmt]

    A statement keeps a pointer to its connection and the query text; its
    methods hand the query to the connection. *)

Section Statement.
Context `{E : Externals}.

Definition Stmt_Close (stmt : snowflakeStmt) : Go (option error) := mret None.

(** Go Snowflake doesn't know the number of binding parameters. *)
Definition Stmt_NumInput (stmt : snowflakeStmt) : Z := -1.

Definition Stmt_ExecContext (stmt : snowflakeStmt) (ctx : Context)
    (args : list NamedValue) : Go (option Result * option error) :=
  ExecContext ctx (stmt_query stmt) args.

Definition Stmt_QueryContext (stmt : snowflakeStmt) (ctx : Context)
    (args : list NamedValue) : Go (option snowflakeRows * option error) :=
  QueryContext ctx (stmt_query stmt) args.

End Statement.

(** ** The array converter of the bind values

    [exec] hands an array to [arrayToString] and stores the tag and the
    value it returns. The function belongs to converter.go, which is not
    among the sources. *)

(** Modelled from the spec: [arrayToString] (converter.go) is missing.
    Sections 3 and 4.1 of the specification have an array "serialized as
    a delimited string with a distinct type tag", "a single bind entry
    with an array type tag and a delimited string value": the tag is the
    array tag and the value the texts of the elements, in order, joined by
    a delimiter. The specification fixes neither the delimiter nor the
    text of an element; both are parameters. *)
Definition arrayToString_spec (delimiter : string) (elementText : iface -> string)
    (elems : list iface) : string * iface :=
  ("ARRAY", IString (String.concat delimiter (elementText <$> elems))).

(** Modelled from the spec: the converters of [E], with the array
    converter of the specification on arrays. *)
Definition with_arrayToString_spec (E : Externals) (delimiter : string)
    (elementText : iface -> string) : Externals :=
  {| strings_ToLower := @strings_ToLower E;
     FormatFloat := @FormatFloat E;
     goTypeToSnowflake := @goTypeToSnowflake E;
     dataTypeMode := @dataTypeMode E;
     arrayToString := fun v =>
       match v with
       | ISlice elems => arrayToString_spec delimiter elementText elems
       | _ => @arrayToString E v
       end;
     valueToString := @valueToString E;
     json_Marshal := @json_Marshal E;
     json_Decode := @json_Decode E;
     ErrNoReadOnlyTransaction := @ErrNoReadOnlyTransaction E;
     ErrNoDefaultTransactionIsolationLevel := @ErrNoDefaultTransactionIsolationLevel E;
     SQLStateFeatureNotSupported := @SQLStateFeatureNotSupported E;
     errMsgNoReadOnlyTransaction := @errMsgNoReadOnlyTransaction E;
     errMsgNoDefaultTransactionIsolationLevel := @errMsgNoDefaultTransactionIsolationLevel E;
     headerContentTypeApplicationJSON := @headerContentTypeApplicationJSON E;
     headerAcceptTypeApplicationSnowflake := @headerAcceptTypeApplicationSnowflake E;
     userAgent := @userAgent E;
     headerAuthorizationKey := @headerAuthorizationKey E;
     headerSnowflakeToken := @headerSnowflakeToken E |}.

(** Modelled from the spec: the encoding of an ordered list of bind
    values in the words of section 4.1. [encodes_spec delimiter
    elementText bindings tsmode entries] when [entries] are the bind
    entries of [bindings], in input order, under the timestamp mode
    [tsmode]: a value that signals a mode resolution gives no entry and
    sets the mode for the values after it; an array gives one entry, with
    the array tag and the texts of its elements joined by the delimiter;
    any other value gives one entry, with its own tag and its text under
    the current mode. *)
Inductive encodes_spec `{E : Externals} (delimiter : string) (elementText : iface -> string)
  : list NamedValue -> string -> list execBindParameter -> Prop :=
| encodes_spec_nil tsmode :
    encodes_spec delimiter elementText [] tsmode []
| encodes_spec_signal b bindings tsmode tsmode' entries :
    goTypeToSnowflake (Value b) tsmode = "CHANGE_TYPE" ->
    dataTypeMode (Value b) = (tsmode', None) ->
    encodes_spec delimiter elementText bindings tsmode' entries ->
    encodes_spec delimiter elementText (b :: bindings) tsmode entries
| encodes_spec_array b bindings tsmode elems entries :
    goTypeToSnowflake (Value b) tsmode = "ARRAY" ->
    Value b = ISlice elems ->
    encodes_spec delimiter elementText bindings tsmode entries ->
    encodes_spec delimiter elementText (b :: bindings) tsmode
      (mkBind "ARRAY" (IString (String.concat delimiter (elementText <$> elems)))
         :: entries)
| encodes_spec_value b bindings tsmode v1 entries :
    goTypeToSnowflake (Value b) tsmode <> "CHANGE_TYPE" ->
    goTypeToSnowflake (Value b) tsmode <> "ARRAY" ->
    valueToString (Value b) tsmode = (v1, None) ->
    encodes_spec delimiter elementText bindings tsmode entries ->
    encodes_spec delimiter elementText (b :: bindings) tsmode
      (mkBind (goTypeToSnowflake (Value b) tsmode) v1 :: entries).

(** ** Vocabulary of the statements *)

Definition sum_list (vs : list Z) : Z := foldr Z.add 0 vs.

(** Cell [i] of the first row of the row set holds the text of the integer [v]. *)
Definition cell_value (data : execResponseData) (i : nat) (v : Z) : Prop :=
  exists row s,
    RowSet data !! 0%nat = Some row /\ row !! i = Some (Some s) /\ ParseInt s = inl v.

(** The connection after [exec] has taken its sequence number. *)
Definition conn_next (sc : snowflakeConn) : snowflakeConn :=
  {| cfg := cfg sc; rest := rest sc;
     SequenceCounter := wrap_uint64 (SequenceCounter sc + 1);
     sc_QueryID := sc_QueryID sc; sc_SQLState := sc_SQLState sc |}.

(** [exec], called in the world [w], issues its request and the transport
    answers [(data, err)]; [w1] is the world at that point: the sequence
    number taken, the request recorded. *)
Definition exec_receives `{E : Externals} (ctx : Context) (query : string)
    (noResult isInternal : bool) (bindings : list NamedValue) (w : World)
    (data : option execResponse) (err : option error) (w1 : World) : Prop :=
  exists c r bs jsonBody,
    let req :=
      {| SQLText := query; AsyncExec := noResult; req_IsInternal := isInternal;
         SequenceID := wrap_uint64 (SequenceCounter (conn w) + 1);
         req_Parameters := exec_parameters ctx; Bindings := bs |} in
    cfg (conn w) = Some c /\
    rest (conn w) = Some r /\
    exec_bind bindings = inl bs /\
    json_Marshal req = (jsonBody, None) /\
    FuncPostQuery r (trace w) (exec_headers c) jsonBody = (data, err) /\
    w1 = {| conn := conn_next (conn w);
            trace := trace w ++ [EvPostQuery req (exec_headers c) jsonBody] |}.

(** The parameter map after the returned parameters have been merged in. *)
Definition merge_parameters `{E : Externals} (parameters : list nameValueParameter)
    (m : gmap string string) : gmap string string :=
  fold_left (fun m param =>
               <[strings_ToLower (param_Name param) := paramValueString (param_Value param)]> m)
    parameters m.

(** The world once [exec] has accepted the response [d]: [c] is the
    session configuration and [w1] the world when the answer arrived. *)
Definition world_after_success `{E : Externals} (c : Config) (d : execResponse) (w1 : World)
  : World :=
  {| conn := {| cfg := Some {| Database := FinalDatabaseName (Data d);
                               Schema := FinalSchemaName (Data d);
                               Warehouse := FinalWarehouseName (Data d);
                               Role := FinalRoleName (Data d);
                               Params := merge_parameters (Parameters (Data d)) (Params c) |};
                rest := rest (conn w1);
                SequenceCounter := SequenceCounter (conn w1);
                sc_QueryID := QueryID (Data d);
                sc_SQLState := SQLState (Data d) |};
     trace := trace w1 |}.

(** The status code of a response is usable: empty, or the text of an integer. *)
Definition code_accepted (d : execResponse) : Prop :=
  Code d = "" \/ exists n, Atoi (Code d) = inl n.

(** The session has keep-alive enabled. *)
Definition keepalive_enabled (c : Config) : bool :=
  match Params c !! sessionClientSessionKeepAlive with
  | Some v => String.eqb v "true"
  | None => false
  end.

(** The connection once closed: no session, no transport. *)
Definition conn_closed (sc : snowflakeConn) : snowflakeConn :=
  {| cfg := None; rest := None; SequenceCounter := SequenceCounter sc;
     sc_QueryID := sc_QueryID sc; sc_SQLState := sc_SQLState sc |}.

(** The error of a rejected transaction option. *)
Definition feature_not_supported `{E : Externals} (number : Z) (message : string) : error :=
  ErrSnowflake {| Number := number; err_SQLState := SQLStateFeatureNotSupported;
                  err_Message := message; err_QueryID := "" |}.

(** A call of [exec], and a sequence of calls on one connection. *)
Record execCall := mkCall {
  call_ctx : Context;
  call_query : string;
  call_noResult : bool;
  call_isInternal : bool;
  call_bindings : list NamedValue
}.

(** The sequence number of an issued request. *)
Definition posted_id (e : Event) : option Z :=
  match e with
  | EvPostQuery req _ _ => Some (SequenceID req)
  | _ => None
  end.

Definition posted_ids (tr : list Event) : list Z := omap posted_id tr.

(** The calls run one after the other, each from the world the previous
    one left (also when it panicked and the caller recovered); the result
    lists, call by call, the events the call added to the trace. *)
Fixpoint exec_calls `{E : Externals} (calls : list execCall) (w : World)
  : list (list Event) * World :=
  match calls with
  | [] => ([], w)
  | call :: calls' =>
      let w1 := world_of (exec (call_ctx call) (call_query call) (call_noResult call)
                            (call_isInternal call) (call_bindings call) w) in
      let '(evss, w2) := exec_calls calls' w1 in
      (drop (length (trace w)) (trace w1) :: evss, w2)
  end.

(** The encoding of an ordered list of bind values, as the specification
    words it: [encodes bindings tsmode entries] when [entries] are the bind
    entries of [bindings], in input order, under the timestamp mode
    [tsmode]. A value that signals a mode resolution gives no entry and
    sets the mode for the values after it; an array gives one entry, with
    the tag and the text of the array converter; any other value gives
    one entry, with its own tag and its text under the current mode. *)
Inductive encodes `{E : Externals}
  : list NamedValue -> string -> list execBindParameter -> Prop :=
| encodes_nil tsmode :
    encodes [] tsmode []
| encodes_signal b bindings tsmode tsmode' entries :
    goTypeToSnowflake (Value b) tsmode = "CHANGE_TYPE" ->
    dataTypeMode (Value b) = (tsmode', None) ->
    encodes bindings tsmode' entries ->
    encodes (b :: bindings) tsmode entries
| encodes_array b bindings tsmode t v1 entries :
    goTypeToSnowflake (Value b) tsmode = "ARRAY" ->
    arrayToString (Value b) = (t, v1) ->
    encodes bindings tsmode entries ->
    encodes (b :: bindings) tsmode (mkBind t v1 :: entries)
| encodes_value b bindings tsmode v1 entries :
    goTypeToSnowflake (Value b) tsmode <> "CHANGE_TYPE" ->
    goTypeToSnowflake (Value b) tsmode <> "ARRAY" ->
    valueToString (Value b) tsmode = (v1, None) ->
    encodes bindings tsmode entries ->
    encodes (b :: bindings) tsmode
      (mkBind (goTypeToSnowflake (Value b) tsmode) v1 :: entries).

(** ** Further vocabulary *)

(** The headers [getQueryResult] sends: those of [exec], and the
    authorization header once the transport holds a token. *)
Definition getQueryResult_headers `{E : Externals} (c : Config) (r : snowflakeRestful)
  : gmap string string :=
  if String.eqb (Token r) "" then exec_headers c
  else <[headerAuthorizationKey := headerSnowflakeToken (Token r)]> (exec_headers c).

(** The transport serves the result at [resultPath], whenever asked, with
    a body that decodes to the response [cd]. *)
Definition serves `{E : Externals} (r : snowflakeRestful) (resultPath : string)
    (cd : execResponse) : Prop :=
  forall tr headers, exists body,
    FuncGet r tr resultPath headers = (Some body, None) /\
    json_Decode body = (Some cd, None).

(** The rows a child result adds to the affected-row count: none unless
    its statement type is DML, else the [int64] sum of the integers of its
    first row. *)
Definition child_rows (cd : execResponse) (n : Z) : Prop :=
  (isDml (StatementTypeID (Data cd)) = false /\ n = 0) \/
  (isDml (StatementTypeID (Data cd)) = true /\
   exists vs : list Z,
     length vs = length (RowType (Data cd)) /\
     (forall (i : nat) v, vs !! i = Some v -> cell_value (Data cd) i v) /\
     n = wrap_int64 (sum_list vs)).

(** The events of fetching the results of [children], in order. *)
Definition fetches `{E : Externals} (c : Config) (r : snowflakeRestful)
    (children : list childResult) : list Event :=
  (fun child => EvGet (resultPath_of child) (getQueryResult_headers c r)) <$> children.

(** The row sets met when following [NextDownloader] from a downloader. *)
Fixpoint chain_rowsets (d : snowflakeChunkDownloader) : list rowSetType :=
  cd_RowSet d ::
  match NextDownloader d with
  | Some d' => chain_rowsets d'
  | None => []
  end.

(** The session fields of a connection: what [exec] may update on success. *)
Definition session_of (sc : snowflakeConn) : option Config * string * string :=
  (cfg sc, sc_QueryID sc, sc_SQLState sc).

(** The connection is still open in [w'] if it was in [w]: the transport
    is the same and the configuration has not been dropped. *)
Definition stays_open (w w' : World) : Prop :=
  rest (conn w') = rest (conn w) /\
  (is_Some (cfg (conn w)) -> is_Some (cfg (conn w'))).

(** The transport fails on [resultPath] with the error [e], whenever asked. *)
Definition refuses (r : snowflakeRestful) (resultPath : string) (e : error) : Prop :=
  forall tr headers, exists res, FuncGet r tr resultPath headers = (res, Some e).

(** The row set a downloader is given for a response. *)
Definition rowset_of (cd : execResponse) : rowSetType :=
  {| rs_RowType := RowType (Data cd); JSON := RowSet (Data cd);
     rs_RowSetBase64 := RowSetBase64 (Data cd) |}.

(** ** Test doubles

    Stand-ins for the collaborators, used to run the methods on concrete
    inputs. *)

Module Doubles.

Definition lower_ascii (c : ascii) : ascii :=
  let n := nat_of_ascii c in
  if (65 <=? n)%nat && (n <=? 90)%nat then ascii_of_nat (n + 32) else c.

Fixpoint ToLower (s : string) : string :=
  match s with
  | EmptyString => EmptyString
  | String c r => String (lower_ascii c) (ToLower r)
  end.

Definition goType (v : iface) (tsmode : string) : string :=
  match v with
  | IInt _ | IInt64 _ => "FIXED"
  | IFloat64 _ => "REAL"
  | IBool _ => "BOOLEAN"
  | ISlice _ => "ARRAY"
  | IOther _ => "CHANGE_TYPE"
  | _ => "TEXT"
  end.

Definition typeMode (v : iface) : string * option error :=
  match v with
  | IOther mode => (mode, None)
  | _ => ("", Some (ErrExternal "unsupported type"))
  end.

Definition toText (v : iface) (tsmode : string) : iface * option error :=
  match v with
  | IInt i | IInt64 i => (IString (FormatInt i), None)
  | IBool b => (IString (FormatBool b), None)
  | IString s => (IString s, None)
  | INil => (INil, None)
  | _ => (INil, Some (ErrExternal "unsupported type"))
  end.

Definition arrayText (v : iface) : string * iface :=
  match v with
  | ISlice elems =>
      ("ARRAY", IString (String.concat "," (map (fun e =>
                   match toText e "" with
                   | (IString s, _) => s
                   | _ => ""
                   end) elems)))
  | _ => ("", INil)
  end.

(** A child result body decodes to a DML response reporting the number
    written in the body; the body ["null"] decodes to a nil response. *)
Definition child_response (n : string) : execResponse :=
  {| Data := {| Parameters := []; RowType := [mkRowType "number of rows inserted" "fixed"];
                RowSet := [[Some n]]; RowSetBase64 := ""; Total := 1;
                SQLState := "00000"; QueryID := "child";
                FinalDatabaseName := "DB"; FinalSchemaName := "PUBLIC";
                FinalWarehouseName := "WH"; FinalRoleName := "SYSADMIN";
                StatementTypeID := statementTypeIDInsert;
                Chunks := []; Qrmk := ""; ChunkHeaders := ∅;
                QueryResultFormat := "json"; ResultIDs := ""; ResultTypes := "" |};
     Message := ""; Code := ""; Success := true |}.

Definition decode (body : string) : option execResponse * option error :=
  if String.eqb body "null" then (None, None)
  else if String.eqb body "" then (None, Some (ErrExternal "EOF"))
  else (Some (child_response body), None).

#[export] Instance ext : Externals := {|
  strings_ToLower := ToLower;
  FormatFloat := fun bits => "0x" +:+ pretty bits;
  goTypeToSnowflake := goType;
  dataTypeMode := typeMode;
  arrayToString := arrayText;
  valueToString := toText;
  json_Marshal := fun req => (SQLText req, None);
  json_Decode := decode;
  ErrNoReadOnlyTransaction := 263101;
  ErrNoDefaultTransactionIsolationLevel := 263102;
  SQLStateFeatureNotSupported := "0A000";
  errMsgNoReadOnlyTransaction := "no readonly mode is supported";
  errMsgNoDefaultTransactionIsolationLevel := "no default isolation transaction level is supported";
  headerContentTypeApplicationJSON := "application/json";
  headerAcceptTypeApplicationSnowflake := "application/snowflake";
  userAgent := "Go";
  headerAuthorizationKey := "Authorization";
  headerSnowflakeToken := fun token => "Snowflake Token=" +:+ token
|}.

Definition data0 : execResponseData :=
  {| Parameters := []; RowType := []; RowSet := []; RowSetBase64 := ""; Total := 0;
     SQLState := "00000"; QueryID := "q-1";
     FinalDatabaseName := "DB"; FinalSchemaName := "PUBLIC";
     FinalWarehouseName := "WH"; FinalRoleName := "SYSADMIN";
     StatementTypeID := statementTypeIDCreate;
     Chunks := []; Qrmk := ""; ChunkHeaders := ∅;
     QueryResultFormat := "json"; ResultIDs := ""; ResultTypes := "" |}.

Definition with_rows (tid : Z) (cols : list string) (rows : list (list (option string)))
    (data : execResponseData) : execResponseData :=
  {| Parameters := Parameters data;
     RowType := map (fun n => mkRowType n "fixed") cols;
     RowSet := rows; RowSetBase64 := RowSetBase64 data;
     Total := Z.of_nat (length rows);
     SQLState := SQLState data; QueryID := QueryID data;
     FinalDatabaseName := FinalDatabaseName data;
     FinalSchemaName := FinalSchemaName data;
     FinalWarehouseName := FinalWarehouseName data;
     FinalRoleName := FinalRoleName data;
     StatementTypeID := tid;
     Chunks := Chunks data; Qrmk := Qrmk data; ChunkHeaders := ChunkHeaders data;
     QueryResultFormat := QueryResultFormat data;
     ResultIDs := ResultIDs data; ResultTypes := ResultTypes data |}.

Definition with_children (ids types : string) (data : execResponseData)
  : execResponseData :=
  {| Parameters := Parameters data; RowType := RowType data;
     RowSet := RowSet data; RowSetBase64 := RowSetBase64 data; Total := Total data;
     SQLState := SQLState data; QueryID := QueryID data;
     FinalDatabaseName := FinalDatabaseName data;
     FinalSchemaName := FinalSchemaName data;
     FinalWarehouseName := FinalWarehouseName data;
     FinalRoleName := FinalRoleName data;
     StatementTypeID := StatementTypeID data;
     Chunks := Chunks data; Qrmk := Qrmk data; ChunkHeaders := ChunkHeaders data;
     QueryResultFormat := QueryResultFormat data;
     ResultIDs := ids; ResultTypes := types |}.

Definition with_parameters (ps : list nameValueParameter) (data : execResponseData)
  : execResponseData :=
  {| Parameters := ps; RowType := RowType data;
     RowSet := RowSet data; RowSetBase64 := RowSetBase64 data; Total := Total data;
     SQLState := SQLState data; QueryID := QueryID data;
     FinalDatabaseName := FinalDatabaseName data;
     FinalSchemaName := FinalSchemaName data;
     FinalWarehouseName := FinalWarehouseName data;
     FinalRoleName := FinalRoleName data;
     StatementTypeID := StatementTypeID data;
     Chunks := Chunks data; Qrmk := Qrmk data; ChunkHeaders := ChunkHeaders data;
     QueryResultFormat := QueryResultFormat data;
     ResultIDs := ResultIDs data; ResultTypes := ResultTypes data |}.

Definition ok (data : execResponseData) : execResponse :=
  {| Data := data; Message := ""; Code := ""; Success := true |}.

(** A transport that answers every query with [resp], every child fetch
    with [get], and the session close with [close]. *)
Definition transport (resp : option execResponse * option error)
    (get : string -> option string * option error) (close : option error)
  : snowflakeRestful :=
  {| Token := "token"; RequestTimeout := 60; HeartBeat := None;
     FuncPostQuery := fun _ _ _ => resp;
     FuncGet := fun _ path _ => get path;
     FuncCloseSession := fun _ => close |}.

Definition cfg0 : Config :=
  {| Database := "DB0"; Schema := "S0"; Warehouse := "W0"; Role := "R0"; Params := ∅ |}.

Definition open_world (r : snowflakeRestful) : World :=
  {| conn := {| cfg := Some cfg0; rest := Some r; SequenceCounter := 0;
                sc_QueryID := ""; sc_SQLState := "" |};
     trace := [] |}.

Definition no_children (path : string) : option string * option error :=
  (None, Some (ErrExternal "no such result")).

End Doubles.

(** ** Scenarios: concrete connections and server answers *)

Module Scenario.
Import Doubles.

(** A response with the multi-statement identifier and an empty schema. *)
Definition resp_empty_multi : execResponse :=
  ok (with_rows statementTypeIDMulti [] [] data0).
Definition w_empty_multi : World :=
  open_world (transport (Some resp_empty_multi, None) no_children None).

(** Scenario A: an INSERT whose response reports the row ["2"]. *)
Definition resp_insert : execResponse :=
  ok (with_rows statementTypeIDInsert ["number of rows inserted"] [[Some "2"]] data0).
Definition w_insert : World :=
  open_world (transport (Some resp_insert, None) no_children None).

(** The identifier 0x1000 with a first column that is not the marker. *)
Definition resp_other_name : execResponse :=
  ok (with_rows statementTypeIDMulti ["x"] [[Some "5"]] data0).
Definition w_other_name : World :=
  open_world (transport (Some resp_other_name, None) no_children None).

(** Scenario D: two children; the transport serves the first and fails
    on the second. *)
Definition resp_multi : execResponse :=
  ok (with_children "a,b" "INSERT,INSERT"
        (with_rows statementTypeIDMulti [multiStmtMarker] [] data0)).
Definition get_both (path : string) : option string * option error :=
  if String.eqb path "/queries/a/result" then (Some "3", None) else (Some "4", None).
Definition get_second_fails (path : string) : option string * option error :=
  if String.eqb path "/queries/a/result" then (Some "3", None)
  else (None, Some (ErrExternal "timeout")).
Definition w_multi : World :=
  open_world (transport (Some resp_multi, None) get_both None).
Definition w_multi_fail : World :=
  open_world (transport (Some resp_multi, None) get_second_fails None).

(** A failed statement, with a status code, without one, and with one
    that is not a number. *)
Definition resp_failed : execResponse :=
  {| Data := data0; Message := "SQL compilation error"; Code := "001003";
     Success := false |}.
Definition resp_failed_no_code : execResponse :=
  {| Data := data0; Message := "failure"; Code := ""; Success := false |}.
Definition resp_bad_code : execResponse :=
  {| Data := data0; Message := "failure"; Code := "12x"; Success := false |}.
Definition w_failed : World :=
  open_world (transport (Some resp_failed, None) no_children None).
Definition w_failed_no_code : World :=
  open_world (transport (Some resp_failed_no_code, None) no_children None).
Definition w_bad_code : World :=
  open_world (transport (Some resp_bad_code, None) no_children None).

(** A successful statement that returns session parameters. *)
Definition resp_params : execResponse :=
  ok (with_parameters
        [mkParam "TIMEZONE" (IString "UTC");
         mkParam "CLIENT_SESSION_KEEP_ALIVE" (IBool true);
         mkParam "Rows_Per_Resultset" (IInt64 0);
         mkParam "timezone" (IString "Europe/Paris")] data0).
Definition w_params : World :=
  open_world (transport (Some resp_params, None) no_children None).

(** The request [exec] builds for a statement without bind values on a
    fresh connection. *)
Definition request1 (query : string) : execRequest :=
  {| SQLText := query; AsyncExec := false; req_IsInternal := false;
     SequenceID := 1; req_Parameters := None; Bindings := None |}.

(** A statement that succeeds without rows, as BEGIN does. *)
Definition w_begin : World :=
  open_world (transport (Some (ok data0), None) no_children None).

(** A session with keep-alive enabled and its heartbeat running, on a
    transport whose session-close call fails. *)
Definition w_keepalive : World :=
  {| conn := {| cfg := Some {| Database := "DB0"; Schema := "S0"; Warehouse := "W0";
                               Role := "R0";
                               Params := {[ sessionClientSessionKeepAlive := "true" ]} |};
                rest := Some {| Token := "token"; RequestTimeout := 60;
                                HeartBeat := Some mkHeartbeat;
                                FuncPostQuery := fun _ _ _ => (Some (ok data0), None);
                                FuncGet := fun _ path _ => no_children path;
                                FuncCloseSession := fun _ =>
                                  Some (ErrExternal "connection reset") |};
                SequenceCounter := 7; sc_QueryID := "q-0"; sc_SQLState := "00000" |};
     trace := [] |}.

Definition read_only : TxOptions := {| Isolation := 0; ReadOnly := true |}.
Definition default_options : TxOptions := {| Isolation := 0; ReadOnly := false |}.

(** Three calls; the bind value of the second has no wire representation,
    so that call issues no request. *)
Definition three_calls : list execCall :=
  [mkCall context_TODO "INSERT INTO t VALUES (1),(2)" false false [];
   mkCall context_TODO "SELECT ?" false false [mkNamedValue "" 1 (IFloat64 0)];
   mkCall context_TODO "INSERT INTO t VALUES (3)" false false []].

(** A connection that has used every sequence number but the last. *)
Definition w_last_number : World :=
  {| conn := {| cfg := Some cfg0;
                rest := Some (transport (Some (ok data0), None) no_children None);
                SequenceCounter := maxUint64 - 1; sc_QueryID := ""; sc_SQLState := "" |};
     trace := [] |}.

(** Bind values: an integer, a timestamp-mode marker, a string, an array. *)
Definition bind_values : list NamedValue :=
  [mkNamedValue "" 1 (IInt64 42);
   mkNamedValue "" 2 (IOther "TIMESTAMP_LTZ");
   mkNamedValue "" 3 (IString "abc");
   mkNamedValue "" 4 (ISlice [IInt64 1; IInt64 2])].

Definition bind_entries : list execBindParameter :=
  [mkBind "FIXED" (IString "42");
   mkBind "TEXT" (IString "abc");
   mkBind "ARRAY" (IString "1,2")].

End Scenario.

(** ** Further scenarios *)

Module MoreScenarios.
Import Doubles.

(** An INSERT whose second count is not a number. *)
Definition resp_bad_cell : execResponse :=
  ok (with_rows statementTypeIDInsert ["inserted"; "updated"] [[Some "2"; Some "x"]] data0).
Definition w_bad_cell : World :=
  open_world (transport (Some resp_bad_cell, None) no_children None).

(** A transport that fails, with and without a response, and one that
    returns nothing at all. *)
Definition w_transport_error : World :=
  open_world (transport (None, Some (ErrExternal "timeout")) no_children None).
Definition w_response_and_error : World :=
  open_world (transport (Some Scenario.resp_failed, Some (ErrExternal "bad gateway"))
                no_children None).
Definition w_silent : World :=
  open_world (transport (None, None) no_children None).

(** A bind value without a wire representation. *)
Definition bad_bindings : list NamedValue := [mkNamedValue "" 1 (IFloat64 0)].

(** The two children of [Scenario.resp_multi]. *)
Definition two_children : list childResult :=
  [mkChild "a" "INSERT"; mkChild "b" "INSERT"].

(** A context whose internal flag is a string. *)
Definition ctx_bad_flag : Context :=
  context_WithValue context_TODO IsInternal (IString "yes").

(** A successful statement that returns a service name. *)
Definition resp_service : execResponse :=
  ok (with_parameters [mkParam "SERVICE_NAME" (IString "svc-1")] data0).
Definition w_service : World :=
  open_world (transport (Some resp_service, None) no_children None).

(** The transport of [Scenario.w_begin]. *)
Definition r_begin : snowflakeRestful :=
  transport (Some (ok data0), None) no_children None.

(** The text of an array element: its decimal or literal text. *)
Definition element_text (e : iface) : string :=
  match toText e "" with
  | (IString s, _) => s
  | _ => ""
  end.

End MoreScenarios.

(** * Properties *)

(** ** Reasoning about the monad and the machine integers *)

Ltac go_unfold :=
  unfold mbind, mret, Go_bind, Go_ret, outcome_bind, outcome_ret, lift,
    get_conn, put_conn, get_trace, emit, sc_cfg, sc_rest, put_cfg, put_rest,
    deref, index in *.

Ltac go := repeat (progress go_unfold); cbn in *.

Lemma wrap_int64_range z : in_int64 (wrap_int64 z).
Proof.
  unfold in_int64, wrap_int64, minInt64, maxInt64.
  pose proof (Z.mod_pos_bound (z + 2 ^ 63) (2 ^ 64)). lia.
Qed.

Lemma wrap_int64_id z : in_int64 z -> wrap_int64 z = z.
Proof.
  unfold in_int64, wrap_int64, minInt64, maxInt64. intros Hz.
  rewrite Z.mod_small; lia.
Qed.

Lemma wrap_int64_add_l a b : wrap_int64 (wrap_int64 a + b) = wrap_int64 (a + b).
Proof.
  unfold wrap_int64. f_equal.
  replace (((a + 2 ^ 63) mod 2 ^ 64 - 2 ^ 63) + b + 2 ^ 63)
    with ((a + 2 ^ 63) mod 2 ^ 64 + b) by lia.
  rewrite Zplus_mod_idemp_l. f_equal. lia.
Qed.

Lemma wrap_uint64_id z : in_uint64 z -> wrap_uint64 z = z.
Proof.
  unfold in_uint64, wrap_uint64, maxUint64. intros Hz.
  rewrite Z.mod_small; lia.
Qed.

(** ** The library models on small inputs *)

Example ParseInt_decimal :
  ParseInt "2" = inl 2 /\ ParseInt "-17" = inl (-17) /\ ParseInt "+5" = inl 5 /\
  ParseInt "007" = inl 7.
Proof. repeat split. Qed.

Example ParseInt_syntax :
  ParseInt "" = inr ErrSyntax /\ ParseInt "-" = inr ErrSyntax /\
  ParseInt "1x" = inr ErrSyntax /\ ParseInt " 1" = inr ErrSyntax /\
  ParseInt "1_000" = inr ErrSyntax.
Proof. repeat split. Qed.

Example ParseInt_range :
  ParseInt "9223372036854775807" = inl maxInt64 /\
  ParseInt "9223372036854775808" = inr ErrRange /\
  ParseInt "-9223372036854775808" = inl minInt64 /\
  ParseInt "-9223372036854775809" = inr ErrRange /\
  ParseInt "18446744073709551616" = inr ErrRange.
Proof. repeat split. Qed.

Example Itoa_decimal : Itoa 1 = "1" /\ Itoa 12 = "12" /\ Itoa 0 = "0" /\ Itoa (-3) = "-3".
Proof. repeat split. Qed.

Example Split_comma_fields :
  Split_comma "a,b" = ["a"; "b"] /\ Split_comma "a," = ["a"; ""] /\
  Split_comma "" = [""] /\ Split_comma ",ab,c" = [""; "ab"; "c"].
Proof. repeat split. Qed.

Lemma ParseUint_digits_nonneg s : forall n un,
  0 <= n -> ParseUint_digits n s = inl un -> 0 <= un <= maxUint64 \/ (s = "" /\ un = n).
Proof.
  induction s as [|c s IH]; intros n un Hn; cbn.
  - intros [= <-]. right. split; reflexivity.
  - destruct (digit_value c) as [d|] eqn:Hd; [|discriminate].
    assert (0 <= d) as Hd0.
    { unfold digit_value in Hd.
      destruct ((48 <=? Z.of_nat (nat_of_ascii c)) && (Z.of_nat (nat_of_ascii c) <=? 57))
        eqn:Hc; [|discriminate].
      injection Hd as <-. apply andb_prop in Hc as [Hlo _]. lia. }
    destruct (maxUint64 / 10 + 1 <=? n); [discriminate|].
    destruct (maxUint64 <? n * 10 + d) eqn:Hmax; [discriminate|].
    intros Hrun. apply Z.ltb_ge in Hmax.
    destruct (IH (n * 10 + d) un) as [Hun|[_ ->]]; [lia | exact Hrun | |]; left; lia.
Qed.

(** A parsed integer is an [int64]. *)
Lemma ParseInt_in_int64 s v : ParseInt s = inl v -> in_int64 v.
Proof.
  unfold ParseInt, ParseUint. destruct s as [|c r]; [discriminate|].
  set (neg := Ascii.eqb c "-").
  destruct (if (Ascii.eqb c "+" || neg)%bool then r else String c r) as [|c1 r1] eqn:Hs1;
    [discriminate|].
  destruct (ParseUint_digits 0 (String c1 r1)) as [un|e] eqn:Hrun; [|discriminate].
  assert (0 <= un) as Hun.
  { destruct (ParseUint_digits_nonneg _ _ _ (Z.le_refl 0) Hrun) as [?|[? _]];
      [lia | discriminate]. }
  unfold in_int64, minInt64, maxInt64.
  destruct neg; cbn.
  - destruct (2 ^ 63 <? un) eqn:Hcut; [discriminate|].
    apply Z.ltb_ge in Hcut. intros [= <-]. lia.
  - destruct (2 ^ 63 <=? un) eqn:Hcut; [discriminate|].
    apply Z.leb_gt in Hcut. intros [= <-]. lia.
Qed.

(** ** Classification *)

Lemma isDml_multi : isDml statementTypeIDMulti = false.
Proof. reflexivity. Qed.

Lemma isMultiStmt_panics_iff (data : execResponseData) :
  isMultiStmt data = Panic IndexOutOfRange <->
  StatementTypeID data = statementTypeIDMulti /\ RowType data = [].
Proof.
  unfold isMultiStmt. destruct (Z.eqb_spec (StatementTypeID data) statementTypeIDMulti) as [Heq|Hne].
  - destruct (RowType data) as [|c cols]; cbn.
    + split; [auto | reflexivity].
    + split; [discriminate | intros [_ ?]; discriminate].
  - cbn. split; [discriminate | intros [? _]; contradiction].
Qed.

Lemma isMultiStmt_first_column (data : execResponseData) c cols :
  StatementTypeID data = statementTypeIDMulti ->
  RowType data = c :: cols ->
  isMultiStmt data = Ret (String.eqb (Name c) multiStmtMarker).
Proof.
  intros Hid Hrt. unfold isMultiStmt. rewrite Hid, Hrt. reflexivity.
Qed.

Section Dispatch.
Context `{E : Externals}.

(** What [ExecContext] does once [exec] has returned a response and no error. *)
Lemma ExecContext_exec_ok ctx query args w w' d internal noResult :
  rest (conn w) <> None ->
  isInternal ctx = (internal, None) ->
  isAsyncMode ctx = (noResult, None) ->
  exec ctx query noResult internal args w = Done (Some d, None) w' ->
  ExecContext ctx query args w = ExecContext_dispatch ctx (Data d) w'.
Proof.
  intros Hrest Hint Hasync Hexec. unfold ExecContext.
  unfold mbind at 1, Go_bind, get_conn.
  destruct (rest (conn w)); [|contradiction].
  rewrite Hint, Hasync. unfold mbind at 1, Go_bind. rewrite Hexec.
  reflexivity.
Qed.

Lemma QueryContext_exec_ok_panic ctx query args w w' d internal noResult p :
  rest (conn w) <> None ->
  isInternal ctx = (internal, None) ->
  isAsyncMode ctx = (noResult, None) ->
  exec ctx query noResult internal args w = Done (Some d, None) w' ->
  isMultiStmt (Data d) = Panic p ->
  QueryContext ctx query args w = Panicked p w'.
Proof.
  intros Hrest Hint Hasync Hexec Hmulti. unfold QueryContext.
  unfold mbind at 1, Go_bind, get_conn.
  destruct (rest (conn w)); [|contradiction].
  rewrite Hint, Hasync. unfold mbind at 1, Go_bind. rewrite Hexec.
  go. rewrite Hmulti. reflexivity.
Qed.

End Dispatch.

(** C10: [isMultiStmt] panics with an index out of range exactly on the
    responses that carry the multi-statement identifier 0x1000 and an
    empty column schema; when [exec] has returned such a response, both
    [ExecContext] and [QueryContext] panic instead of returning. *)
Theorem isMultiStmt_empty_schema `{E : Externals}
    ctx query args w w' d internal noResult :
  rest (conn w) <> None ->
  isInternal ctx = (internal, None) ->
  isAsyncMode ctx = (noResult, None) ->
  exec ctx query noResult internal args w = Done (Some d, None) w' ->
  StatementTypeID (Data d) = statementTypeIDMulti ->
  RowType (Data d) = [] ->
  (forall data, isMultiStmt data = Panic IndexOutOfRange <->
                StatementTypeID data = statementTypeIDMulti /\ RowType data = []) /\
  isMultiStmt (Data d) = Panic IndexOutOfRange /\
  ExecContext ctx query args w = Panicked IndexOutOfRange w' /\
  QueryContext ctx query args w = Panicked IndexOutOfRange w'.
Proof.
  intros Hrest Hint Hasync Hexec Hid Hrt.
  assert (Hp : isMultiStmt (Data d) = Panic IndexOutOfRange)
    by (apply isMultiStmt_panics_iff; auto).
  split; [apply isMultiStmt_panics_iff|]. split; [exact Hp|]. split.
  - rewrite (ExecContext_exec_ok _ _ _ _ _ _ _ _ Hrest Hint Hasync Hexec).
    unfold ExecContext_dispatch. rewrite Hid, isDml_multi.
    go. rewrite Hp. reflexivity.
  - eapply QueryContext_exec_ok_panic; eauto.
Qed.

(** ** Affected rows of a DML response *)

Lemma updateRows_from_sum (data : execResponseData) (vs : list Z) :
  forall (i : nat) (count : Z),
    (forall (j : nat) v, vs !! j = Some v -> cell_value data (i + j) v) ->
    wrap_int64 count = count ->
    updateRows_from data (length vs) i count
    = Ret (wrap_int64 (count + sum_list vs), None).
Proof.
  induction vs as [|v vs IH]; intros i count Hcells Hcount; cbn.
  - rewrite Z.add_0_r, Hcount. reflexivity.
  - destruct (Hcells 0%nat v eq_refl) as (row & s & Hrow & Hcell & Hparse).
    rewrite Nat.add_0_r in Hcell.
    unfold mbind, outcome_bind, index, deref. rewrite Hrow, Hcell, Hparse.
    rewrite IH.
    + rewrite wrap_int64_add_l. do 2 f_equal. unfold sum_list. cbn [foldr]. f_equal. lia.
    + intros j v' Hj. replace (S i + j)%nat with (i + S j)%nat by lia.
      apply Hcells. exact Hj.
    + apply wrap_int64_id, wrap_int64_range.
Qed.

Lemma updateRows_sum (data : execResponseData) (vs : list Z) :
  length vs = length (RowType data) ->
  (forall (i : nat) v, vs !! i = Some v -> cell_value data i v) ->
  updateRows data = Ret (wrap_int64 (sum_list vs), None).
Proof.
  intros Hlen Hcells. unfold updateRows. rewrite <- Hlen.
  rewrite (updateRows_from_sum data vs 0 0); [reflexivity | exact Hcells | reflexivity].
Qed.

(** C3: when [exec] has returned a response whose statement type is in the
    DML band and whose first row holds, for each declared column, the text
    of an integer, [ExecContext] returns a result whose affected-row count
    is the [int64] sum of those integers (their sum when it fits [int64])
    and whose insert id is -1. *)
Theorem ExecContext_dml_affected_rows `{E : Externals}
    ctx query args w w' d internal noResult (vs : list Z) :
  rest (conn w) <> None ->
  isInternal ctx = (internal, None) ->
  isAsyncMode ctx = (noResult, None) ->
  exec ctx query noResult internal args w = Done (Some d, None) w' ->
  isDml (StatementTypeID (Data d)) = true ->
  length vs = length (RowType (Data d)) ->
  (forall (i : nat) v, vs !! i = Some v -> cell_value (Data d) i v) ->
  ExecContext ctx query args w
  = Done (Some (snowflakeResult (wrap_int64 (sum_list vs)) (-1) (sc_QueryID (conn w'))),
          None) w' /\
  (in_int64 (sum_list vs) -> wrap_int64 (sum_list vs) = sum_list vs).
Proof.
  intros Hrest Hint Hasync Hexec Hdml Hlen Hcells.
  split; [|apply wrap_int64_id].
  rewrite (ExecContext_exec_ok _ _ _ _ _ _ _ _ Hrest Hint Hasync Hexec).
  unfold ExecContext_dispatch. rewrite Hdml.
  unfold ExecContext_dml. rewrite (updateRows_sum _ vs Hlen Hcells).
  reflexivity.
Qed.

(** ** The multi-statement identifier *)

(** C2, as the code has it: when [exec] has returned a response whose
    statement type is 0x1000 and whose schema has a first column,
    [ExecContext] runs the multi-statement branch if that column is named
    "multiple statement execution"; otherwise, 0x1000 lying outside the
    DML band, it returns [driver.ResultNoRows] as for DDL. *)
Theorem ExecContext_multi_sentinel `{E : Externals}
    ctx query args w w' d internal noResult c cols :
  rest (conn w) <> None ->
  isInternal ctx = (internal, None) ->
  isAsyncMode ctx = (noResult, None) ->
  exec ctx query noResult internal args w = Done (Some d, None) w' ->
  StatementTypeID (Data d) = statementTypeIDMulti ->
  RowType (Data d) = c :: cols ->
  (Name c = multiStmtMarker ->
   isMultiStmt (Data d) = Ret true /\
   ExecContext ctx query args w = ExecContext_multi ctx (Data d) w') /\
  (Name c <> multiStmtMarker ->
   isMultiStmt (Data d) = Ret false /\
   isDml (StatementTypeID (Data d)) = false /\
   ExecContext ctx query args w = Done (Some ResultNoRows, None) w').
Proof.
  intros Hrest Hint Hasync Hexec Hid Hrt.
  rewrite (ExecContext_exec_ok _ _ _ _ _ _ _ _ Hrest Hint Hasync Hexec).
  unfold ExecContext_dispatch. rewrite Hid, isDml_multi.
  rewrite (isMultiStmt_first_column _ _ _ Hid Hrt).
  split; intros Hname.
  - apply String.eqb_eq in Hname. rewrite Hname. split; reflexivity.
  - apply String.eqb_neq in Hname. rewrite Hname. repeat split; reflexivity.
Qed.

(** ** [exec]: from the request to the transport's answer *)

Section Exec.
Context `{E : Externals}.

Lemma exec_run ctx query noResult isInternal bindings w data err w1 :
  exec_receives ctx query noResult isInternal bindings w data err w1 ->
  exec ctx query noResult isInternal bindings w = exec_response data err w1.
Proof.
  intros (c & r & bs & body & Hcfg & Hrest & Hbind & Hjson & Hpost & ->).
  unfold exec, atomic_AddUint64_SequenceCounter, PostQuery. go.
  rewrite Hbind. go. rewrite Hcfg. go. rewrite Hjson. go.
  rewrite Hrest. go. rewrite Hpost. unfold conn_next. rewrite Hcfg, Hrest.
  reflexivity.
Qed.

Lemma populateSessionParameters_run parameters : forall w c,
  cfg (conn w) = Some c ->
  populateSessionParameters parameters w
  = Done tt {| conn := {| cfg := Some {| Database := Database c; Schema := Schema c;
                                         Warehouse := Warehouse c; Role := Role c;
                                         Params := merge_parameters parameters (Params c) |};
                          rest := rest (conn w);
                          SequenceCounter := SequenceCounter (conn w);
                          sc_QueryID := sc_QueryID (conn w);
                          sc_SQLState := sc_SQLState (conn w) |};
               trace := trace w |}.
Proof.
  induction parameters as [|param parameters IH]; intros w c Hcfg.
  - cbn. go. destruct w as [[? ? ? ? ?] ?], c; cbn in *. subst. reflexivity.
  - cbn [populateSessionParameters]. go. rewrite Hcfg. go.
    erewrite IH by reflexivity. reflexivity.
Qed.

Lemma exec_receives_cfg ctx query noResult isInternal bindings w data err w1 c :
  exec_receives ctx query noResult isInternal bindings w data err w1 ->
  cfg (conn w) = Some c ->
  cfg (conn w1) = Some c /\ rest (conn w1) = rest (conn w) /\
  SequenceCounter (conn w1) = wrap_uint64 (SequenceCounter (conn w) + 1) /\
  exists req headers body,
    trace w1 = trace w ++ [EvPostQuery req headers body] /\
    SQLText req = query /\
    SequenceID req = wrap_uint64 (SequenceCounter (conn w) + 1).
Proof.
  intros (c0 & r & bs & body & Hcfg & Hrest & Hbind & Hjson & Hpost & ->) Hc.
  cbn. split; [congruence|]. split; [reflexivity|]. split; [reflexivity|].
  eexists _, _, _. split; [reflexivity|]. split; reflexivity.
Qed.

Lemma exec_response_unparsable d e w1 :
  Code d <> "" ->
  Atoi (Code d) = inr e ->
  exec_response (Some d) None w1
  = Done (Some d, Some (ErrNum "Atoi" (Code d) e)) w1.
Proof.
  intros Hne Hatoi. unfold exec_response. go.
  apply String.eqb_neq in Hne. rewrite Hne, Hatoi. reflexivity.
Qed.

Lemma exec_response_failed d n w1 :
  Success d = false ->
  (Code d = "" /\ n = -1) \/ (Code d <> "" /\ Atoi (Code d) = inl n) ->
  exec_response (Some d) None w1
  = Done (None, Some (ErrSnowflake
            {| Number := n; err_SQLState := SQLState (Data d);
               err_Message := Message d; err_QueryID := QueryID (Data d) |})) w1.
Proof.
  intros Hfail Hcode. unfold exec_response. go.
  destruct Hcode as [[Hempty ->]|[Hne Hatoi]].
  - apply String.eqb_eq in Hempty. rewrite Hempty, Hfail. reflexivity.
  - apply String.eqb_neq in Hne. rewrite Hne, Hatoi, Hfail. reflexivity.
Qed.

Lemma exec_response_success d c w1 :
  Success d = true ->
  code_accepted d ->
  cfg (conn w1) = Some c ->
  exec_response (Some d) None w1 = Done (Some d, None) (world_after_success c d w1).
Proof.
  intros Hok Hcode Hcfg. unfold exec_response. go.
  assert (Hparsed : exists n,
    (if String.eqb (Code d) "" then inl (-1) else Atoi (Code d)) = @inl Z numErr n).
  { destruct Hcode as [Hempty|[n Hatoi]].
    - apply String.eqb_eq in Hempty. rewrite Hempty. eauto.
    - destruct (String.eqb (Code d) ""); eauto. }
  destruct Hparsed as [n ->]. rewrite Hok. go. rewrite Hcfg. go.
  erewrite populateSessionParameters_run by reflexivity. reflexivity.
Qed.

Lemma exec_success ctx query noResult isInternal bindings w w1 d c :
  exec_receives ctx query noResult isInternal bindings w (Some d) None w1 ->
  Success d = true ->
  code_accepted d ->
  cfg (conn w) = Some c ->
  exec ctx query noResult isInternal bindings w
  = Done (Some d, None) (world_after_success c d w1).
Proof.
  intros Hrecv Hok Hcode Hcfg. rewrite (exec_run _ _ _ _ _ _ _ _ _ Hrecv).
  apply exec_response_success; auto.
  apply (exec_receives_cfg _ _ _ _ _ _ _ _ _ _ Hrecv Hcfg).
Qed.

Lemma merge_parameters_cons param parameters (m : gmap string string) :
  merge_parameters (param :: parameters) m
  = merge_parameters parameters
      (<[strings_ToLower (param_Name param) := paramValueString (param_Value param)]> m).
Proof. reflexivity. Qed.

Lemma merge_parameters_untouched parameters : forall (m : gmap string string) k,
  (forall p, p ∈ parameters -> strings_ToLower (param_Name p) <> k) ->
  merge_parameters parameters m !! k = m !! k.
Proof.
  induction parameters as [|param parameters IH]; intros m k Hk; [reflexivity|].
  rewrite merge_parameters_cons, IH.
  - apply lookup_insert_ne, Hk. left.
  - intros p Hp. apply Hk. right. exact Hp.
Qed.

Lemma merge_parameters_last parameters : forall (m : gmap string string) (i : nat) p,
  parameters !! i = Some p ->
  (forall (j : nat) q, (i < j)%nat -> parameters !! j = Some q ->
             strings_ToLower (param_Name q) <> strings_ToLower (param_Name p)) ->
  merge_parameters parameters m !! strings_ToLower (param_Name p)
  = Some (paramValueString (param_Value p)).
Proof.
  induction parameters as [|param parameters IH]; intros m i p Hi Hlater; [discriminate|].
  rewrite merge_parameters_cons. destruct i as [|i]; cbn in Hi.
  - injection Hi as ->. rewrite merge_parameters_untouched.
    + apply lookup_insert_eq.
    + intros q Hq. apply list_elem_of_lookup in Hq as [j Hj].
      apply (Hlater (S j)); [lia | exact Hj].
  - apply (IH _ i); [exact Hi|].
    intros j q Hij Hj. apply (Hlater (S j)); [lia | exact Hj].
Qed.

End Exec.

(** C5, as the code has it: when the transport has answered [exec] with a
    response and no error, a status code that is not empty and is not the
    text of an integer makes [exec] return the parse error together with
    the response; otherwise a response whose success flag is false makes
    [exec] return no response and a [SnowflakeError] carrying the parsed
    code (-1 when the code is empty), the SQL state, the message and the
    query id of the response. *)
Theorem exec_failure_response `{E : Externals}
    ctx query noResult isInternal bindings w w1 d :
  exec_receives ctx query noResult isInternal bindings w (Some d) None w1 ->
  (forall e, Code d <> "" -> Atoi (Code d) = inr e ->
     exec ctx query noResult isInternal bindings w
     = Done (Some d, Some (ErrNum "Atoi" (Code d) e)) w1) /\
  (forall n, Success d = false -> Code d <> "" -> Atoi (Code d) = inl n ->
     exec ctx query noResult isInternal bindings w
     = Done (None, Some (ErrSnowflake
               {| Number := n; err_SQLState := SQLState (Data d);
                  err_Message := Message d; err_QueryID := QueryID (Data d) |})) w1) /\
  (Success d = false -> Code d = "" ->
     exec ctx query noResult isInternal bindings w
     = Done (None, Some (ErrSnowflake
               {| Number := -1; err_SQLState := SQLState (Data d);
                  err_Message := Message d; err_QueryID := QueryID (Data d) |})) w1).
Proof.
  intros Hrecv. rewrite (exec_run _ _ _ _ _ _ _ _ _ Hrecv).
  split; [|split].
  - intros e Hne Hatoi. apply exec_response_unparsable; auto.
  - intros n Hfail Hne Hatoi. apply exec_response_failed; auto.
  - intros Hfail Hempty. apply exec_response_failed; auto.
Qed.

(** C7: when the transport has answered [exec] with a response whose
    success flag is true and whose status code is accepted, [exec] returns
    the response and leaves a session whose database, schema, role and
    warehouse are the final names of the response and whose last query id
    and SQL state are those of the response; every returned session
    parameter is in the parameter map under its lower-cased name (the last
    one when several share that name), as the canonical text of an int64,
    float64 or boolean value and as the string itself for a string;
    entries under other names are kept. *)
Theorem exec_success_updates_session `{E : Externals}
    ctx query noResult isInternal bindings w w1 d c :
  exec_receives ctx query noResult isInternal bindings w (Some d) None w1 ->
  Success d = true ->
  code_accepted d ->
  cfg (conn w) = Some c ->
  exists w' c',
    exec ctx query noResult isInternal bindings w = Done (Some d, None) w' /\
    cfg (conn w') = Some c' /\
    Database c' = FinalDatabaseName (Data d) /\
    Schema c' = FinalSchemaName (Data d) /\
    Role c' = FinalRoleName (Data d) /\
    Warehouse c' = FinalWarehouseName (Data d) /\
    sc_QueryID (conn w') = QueryID (Data d) /\
    sc_SQLState (conn w') = SQLState (Data d) /\
    (forall (i : nat) p,
       Parameters (Data d) !! i = Some p ->
       (forall (j : nat) q, (i < j)%nat -> Parameters (Data d) !! j = Some q ->
          strings_ToLower (param_Name q) <> strings_ToLower (param_Name p)) ->
       Params c' !! strings_ToLower (param_Name p)
       = Some (match param_Value p with
               | IInt64 v => FormatInt v
               | IFloat64 bits => FormatFloat bits
               | IBool b => FormatBool b
               | IString s => s
               | _ => ""
               end)) /\
    (forall k,
       (forall p, p ∈ Parameters (Data d) -> strings_ToLower (param_Name p) <> k) ->
       Params c' !! k = Params c !! k).
Proof.
  intros Hrecv Hok Hcode Hcfg.
  eexists _, _. split; [apply (exec_success _ _ _ _ _ _ _ _ _ Hrecv Hok Hcode Hcfg)|].
  cbn. repeat split.
  - intros i p Hi Hlater. apply (merge_parameters_last _ _ i); assumption.
  - intros k Hk. apply merge_parameters_untouched. exact Hk.
Qed.

(** ** Transactions *)

(** C6: [BeginTx] with the read-only option, and [BeginTx] with an
    isolation level other than the default, return a feature-not-supported
    [SnowflakeError] and leave the world as it was: no sequence number is
    taken and no call reaches the transport. Otherwise, on an open
    connection, [BeginTx] runs [exec] on the statement BEGIN: when the
    transport answers with a successful response the request recorded is
    that BEGIN and a transaction handle is returned, and when [exec]
    returns an error so does [BeginTx]. *)
Theorem BeginTx_options `{E : Externals} ctx opts w :
  (ReadOnly opts = true ->
     BeginTx ctx opts w
     = Done (None, Some (feature_not_supported ErrNoReadOnlyTransaction
                           errMsgNoReadOnlyTransaction)) w) /\
  (Isolation opts <> LevelDefault ->
     exists number message,
       BeginTx ctx opts w
       = Done (None, Some (feature_not_supported number message)) w /\
       (ReadOnly opts = false ->
          number = ErrNoDefaultTransactionIsolationLevel /\
          message = errMsgNoDefaultTransactionIsolationLevel)) /\
  (ReadOnly opts = false -> Isolation opts = LevelDefault ->
     (forall d w1 c,
        exec_receives ctx "BEGIN" false false [] w (Some d) None w1 ->
        Success d = true -> code_accepted d -> cfg (conn w) = Some c ->
        BeginTx ctx opts w = Done (Some mkTx, None) (world_after_success c d w1) /\
        exists req headers body,
          trace (world_after_success c d w1) = trace w ++ [EvPostQuery req headers body] /\
          SQLText req = "BEGIN") /\
     (forall data e w',
        rest (conn w) <> None ->
        exec ctx "BEGIN" false false [] w = Done (data, Some e) w' ->
        BeginTx ctx opts w = Done (None, Some e) w')).
Proof.
  split; [|split].
  - intros Hro. unfold BeginTx. rewrite Hro. reflexivity.
  - intros Hiso. unfold BeginTx. destruct (ReadOnly opts) eqn:Hro.
    + eexists _, _. split; [reflexivity | discriminate].
    + apply Z.eqb_neq in Hiso. rewrite Hiso. cbn.
      eexists _, _. split; [reflexivity | auto].
  - intros Hro Hiso. split.
    + intros d w1 c Hrecv Hok Hcode Hcfg.
      pose proof (exec_success _ _ _ _ _ _ _ _ _ Hrecv Hok Hcode Hcfg) as Hexec.
      destruct (exec_receives_cfg _ _ _ _ _ _ _ _ _ _ Hrecv Hcfg)
        as (_ & _ & _ & req & headers & body & Htrace & Hsql & _).
      split; [|exists req, headers, body; split; [exact Htrace | exact Hsql]].
      destruct Hrecv as (_ & r & _ & _ & _ & Hrest & _).
      unfold BeginTx. rewrite Hro, Hiso. cbn. go. rewrite Hrest.
      rewrite Hexec. reflexivity.
    + intros data e w' Hrest Hexec.
      unfold BeginTx. rewrite Hro, Hiso. cbn. go.
      destruct (rest (conn w)); [|contradiction].
      rewrite Hexec. reflexivity.
Qed.

(** ** Closing the connection *)

Section Closed.
Context `{E : Externals}.

Lemma ExecContext_closed ctx query args w :
  rest (conn w) = None ->
  ExecContext ctx query args w = Done (None, Some ErrBadConn) w.
Proof. intros Hrest. unfold ExecContext. go. rewrite Hrest. reflexivity. Qed.

Lemma QueryContext_closed ctx query args w :
  rest (conn w) = None ->
  QueryContext ctx query args w = Done (None, Some ErrBadConn) w.
Proof. intros Hrest. unfold QueryContext. go. rewrite Hrest. reflexivity. Qed.

Lemma PrepareContext_closed ctx query w :
  rest (conn w) = None ->
  PrepareContext ctx query w = Done (None, Some ErrBadConn) w.
Proof. intros Hrest. unfold PrepareContext. go. rewrite Hrest. reflexivity. Qed.

Lemma Ping_closed ctx w :
  rest (conn w) = None ->
  Ping ctx w = Done (Some ErrBadConn) w.
Proof. intros Hrest. unfold Ping. go. rewrite Hrest. reflexivity. Qed.

Lemma BeginTx_closed ctx opts w :
  rest (conn w) = None ->
  ReadOnly opts = false ->
  Isolation opts = LevelDefault ->
  BeginTx ctx opts w = Done (None, Some ErrBadConn) w.
Proof.
  intros Hrest Hro Hiso. unfold BeginTx. rewrite Hro, Hiso. cbn. go.
  rewrite Hrest. reflexivity.
Qed.

Lemma Close_run w c r :
  cfg (conn w) = Some c ->
  rest (conn w) = Some r ->
  (keepalive_enabled c = true -> HeartBeat r <> None) ->
  Close w
  = Done None
      {| conn := conn_closed (conn w);
         trace := trace w
                  ++ (if keepalive_enabled c then [EvHeartBeatStop] else [])
                  ++ [EvCloseSession] |}.
Proof.
  intros Hcfg Hrest Hhb.
  unfold Close, stopHeartBeat, isClientSessionKeepAliveEnabled, heartbeat_stop,
    cleanup, conn_closed. go. rewrite Hcfg. go.
  unfold keepalive_enabled in *.
  destruct (Params c !! sessionClientSessionKeepAlive) as [v|]; go.
  - destruct (String.eqb v "true"); go.
    + rewrite Hrest. go. destruct (HeartBeat r); [|exfalso; apply Hhb; reflexivity].
      go. rewrite Hrest. go. rewrite <- app_assoc. reflexivity.
    + rewrite Hrest. go. reflexivity.
  - rewrite Hrest. go. reflexivity.
Qed.

End Closed.

(** C9, as the code has it: [Close] on an open connection (whose
    heartbeat exists when the session has keep-alive enabled) stops the
    heartbeat, then issues the session-close call, drops the transport
    and the configuration and returns nil, whatever the session-close
    call answers. Afterwards [ExecContext], [QueryContext],
    [PrepareContext] and [Ping] fail with [driver.ErrBadConn], and so does
    [BeginTx] when its options are the default ones; [BeginTx] checks its
    options first. *)
Theorem Close_then_bad_connection `{E : Externals} w c r :
  cfg (conn w) = Some c ->
  rest (conn w) = Some r ->
  (keepalive_enabled c = true -> HeartBeat r <> None) ->
  exists w',
    Close w = Done None w' /\
    trace w' = trace w ++ (if keepalive_enabled c then [EvHeartBeatStop] else [])
                       ++ [EvCloseSession] /\
    cfg (conn w') = None /\ rest (conn w') = None /\
    (forall ctx query args,
       ExecContext ctx query args w' = Done (None, Some ErrBadConn) w') /\
    (forall ctx query args,
       QueryContext ctx query args w' = Done (None, Some ErrBadConn) w') /\
    (forall ctx query,
       PrepareContext ctx query w' = Done (None, Some ErrBadConn) w') /\
    (forall ctx, Ping ctx w' = Done (Some ErrBadConn) w') /\
    (forall ctx opts, ReadOnly opts = false -> Isolation opts = LevelDefault ->
       BeginTx ctx opts w' = Done (None, Some ErrBadConn) w').
Proof.
  intros Hcfg Hrest Hhb. eexists. split; [apply (Close_run w c r); assumption|].
  cbn. do 3 (split; [reflexivity|]).
  split; [intros; apply ExecContext_closed; reflexivity|].
  split; [intros; apply QueryContext_closed; reflexivity|].
  split; [intros; apply PrepareContext_closed; reflexivity|].
  split; [intros; apply Ping_closed; reflexivity|].
  intros. apply BeginTx_closed; auto.
Qed.

(** ** Children of a multi-statement response *)

Section Children.
Context `{E : Externals}.

(** [getQueryResult] returns no response with an error. *)
Lemma getQueryResult_error_nil ctx resultPath w data e w1 :
  getQueryResult ctx resultPath w = Done (data, Some e) w1 ->
  data = None.
Proof.
  unfold getQueryResult. go.
  destruct (cfg (conn w)); go; [|discriminate].
  destruct (rest (conn w)) as [r|]; go; [|discriminate].
  destruct (FuncGet r _ _ _) as [res [err|]]; go.
  - intros [= <- _ _]. reflexivity.
  - destruct res as [body|]; go; [|discriminate].
    destruct (json_Decode body) as [respd [err|]]; go.
    + intros [= <- _ _]. reflexivity.
    + discriminate.
Qed.

(** The sibling loop of [QueryContext] checks the response for nil first
    and returns the error of the fetch. *)
Lemma QueryContext_child_fetch_failure ctx child childResults acc w data e w1 :
  getQueryResult ctx (resultPath_of child) w = Done (data, Some e) w1 ->
  QueryContext_children ctx (child :: childResults) acc w = Done (inr e) w1.
Proof.
  intros Hget. pose proof (getQueryResult_error_nil _ _ _ _ _ _ Hget) as ->.
  cbn [QueryContext_children]. go. rewrite Hget. reflexivity.
Qed.

End Children.

(** C1, what the code does: at whichever turn of the loop of
    [ExecContext] over the children the fetch of the child's result
    returns an error, that fetch has returned a nil response, and the
    loop reads the status code through it before testing it for nil:
    [ExecContext] panics with a nil dereference instead of returning the
    child's error. *)
Theorem ExecContext_child_fetch_failure `{E : Externals}
    ctx child childResults updatedRows w data e w1 :
  getQueryResult ctx (resultPath_of child) w = Done (data, Some e) w1 ->
  data = None /\
  ExecContext_children ctx (child :: childResults) updatedRows w
  = Panicked NilDereference w1.
Proof.
  intros Hget. pose proof (getQueryResult_error_nil _ _ _ _ _ _ Hget) as ->.
  split; [reflexivity|].
  cbn [ExecContext_children]. go. rewrite Hget. reflexivity.
Qed.

(** ** Sequence numbers *)

Section Sequence.
Context `{E : Externals}.

Lemma populateSessionParameters_frame parameters : forall w,
  SequenceCounter (conn (world_of (populateSessionParameters parameters w)))
  = SequenceCounter (conn w) /\
  trace (world_of (populateSessionParameters parameters w)) = trace w.
Proof.
  induction parameters as [|param parameters IH]; intros w; [split; reflexivity|].
  cbn [populateSessionParameters]. go.
  destruct (cfg (conn w)) as [c|]; go; [|split; reflexivity].
  match goal with |- context [populateSessionParameters parameters ?w0] =>
    destruct (IH w0) as [Hc Ht]; destruct (populateSessionParameters parameters w0)
  end; cbn in *; split; assumption.
Qed.

Lemma exec_response_frame data err w1 :
  SequenceCounter (conn (world_of (exec_response data err w1)))
  = SequenceCounter (conn w1) /\
  trace (world_of (exec_response data err w1)) = trace w1.
Proof.
  unfold exec_response. destruct err as [e|]; go; [split; reflexivity|].
  destruct data as [d|]; go; [|split; reflexivity].
  destruct (if String.eqb (Code d) "" then inl (-1) else Atoi (Code d)) as [code|ne];
    go; [|split; reflexivity].
  destruct (Success d); go; [|split; reflexivity].
  destruct (cfg (conn w1)) as [c|]; go; [|split; reflexivity].
  match goal with |- context [populateSessionParameters ?ps ?w0] =>
    destruct (populateSessionParameters_frame ps w0) as [Hc Ht];
    destruct (populateSessionParameters ps w0)
  end; cbn in *; split; assumption.
Qed.

(** One call: the counter advances by one, and a request, if one is
    issued, carries the new value. *)
Lemma exec_step ctx query noResult isInternal bindings w :
  let w' := world_of (exec ctx query noResult isInternal bindings w) in
  let n := wrap_uint64 (SequenceCounter (conn w) + 1) in
  SequenceCounter (conn w') = n /\
  exists evs, trace w' = trace w ++ evs /\
              (posted_ids evs = [] \/ posted_ids evs = [n]).
Proof.
  cbv zeta. unfold exec, atomic_AddUint64_SequenceCounter, PostQuery. go.
  destruct (exec_bind bindings) as [bs|err]; go.
  2:{ split; [reflexivity|]. exists []. rewrite app_nil_r. auto. }
  destruct (cfg (conn w)) as [c|]; go.
  2:{ split; [reflexivity|]. exists []. rewrite app_nil_r. auto. }
  destruct (json_Marshal _) as [body [err|]] eqn:Hjson; go.
  { split; [reflexivity|]. exists []. rewrite app_nil_r. auto. }
  destruct (rest (conn w)) as [r|]; go.
  2:{ split; [reflexivity|]. exists []. rewrite app_nil_r. auto. }
  destruct (FuncPostQuery r (trace w) (exec_headers c) body) as [data err].
  match goal with |- context [exec_response data err ?w1] =>
    destruct (exec_response_frame data err w1) as [Hc Ht];
    destruct (exec_response data err w1)
  end; cbn in *; (split; [exact Hc|]); eexists; (split; [exact Ht|]); right; reflexivity.
Qed.

Lemma posted_ids_app tr1 tr2 :
  posted_ids (tr1 ++ tr2) = posted_ids tr1 ++ posted_ids tr2.
Proof. apply omap_app. Qed.

(** Per-call identifiers [c0 + k + 1] are increasing along the calls. *)
Lemma posted_ids_sorted (evss : list (list Event)) : forall c0,
  (forall (k : nat) evs, evss !! k = Some evs ->
     posted_ids evs = [] \/ posted_ids evs = [c0 + Z.of_nat k + 1]) ->
  Forall (fun id => c0 < id) (posted_ids (concat evss)) /\
  StronglySorted Z.lt (posted_ids (concat evss)) /\
  NoDup (posted_ids (concat evss)).
Proof.
  induction evss as [|evs evss IH]; intros c0 Hids; cbn.
  - repeat split; constructor.
  - rewrite posted_ids_app.
    destruct (IH (c0 + 1)) as (Hgt & Hsorted & Hnodup).
    { intros k evs' Hk. specialize (Hids (S k) evs' Hk).
      replace (c0 + 1 + Z.of_nat k + 1) with (c0 + Z.of_nat (S k) + 1) by lia.
      exact Hids. }
    destruct (Hids 0%nat evs eq_refl) as [->| ->]; cbn.
    + repeat split; [|assumption..].
      eapply Forall_impl; [exact Hgt|]. cbn. intros; lia.
    + rewrite Z.add_0_r. repeat split.
      * constructor; [lia|]. eapply Forall_impl; [exact Hgt|]. cbn. intros; lia.
      * constructor; [assumption|]. eapply Forall_impl; [exact Hgt|]. cbn. intros; lia.
      * constructor; [|assumption]. intros Hin.
        rewrite Forall_forall in Hgt. specialize (Hgt _ Hin). lia.
Qed.

Lemma exec_calls_spec calls : forall w,
  0 <= SequenceCounter (conn w) ->
  SequenceCounter (conn w) + Z.of_nat (length calls) <= maxUint64 ->
  SequenceCounter (conn (exec_calls calls w).2)
  = SequenceCounter (conn w) + Z.of_nat (length calls) /\
  trace (exec_calls calls w).2 = trace w ++ concat (exec_calls calls w).1 /\
  length (exec_calls calls w).1 = length calls /\
  (forall (k : nat) evs, (exec_calls calls w).1 !! k = Some evs ->
     posted_ids evs = [] \/
     posted_ids evs = [SequenceCounter (conn w) + Z.of_nat k + 1]).
Proof.
  induction calls as [|call calls IH]; intros w Hpos Hbound.
  - cbn. rewrite Z.add_0_r, app_nil_r. repeat split. intros k evs Hk. discriminate.
  - cbn [exec_calls].
    destruct (exec_step (call_ctx call) (call_query call) (call_noResult call)
                (call_isInternal call) (call_bindings call) w)
      as (Hcounter & evs1 & Htrace & Hids).
    set (w1 := world_of (exec (call_ctx call) (call_query call) (call_noResult call)
                           (call_isInternal call) (call_bindings call) w)) in *.
    cbn [length] in Hbound.
    rewrite wrap_uint64_id in Hcounter, Hids by (unfold in_uint64; lia).
    destruct (IH w1) as (Hc & Ht & Hlen & Hk); [lia | lia |].
    destruct (exec_calls calls w1) as [evss w2]. cbn [fst snd] in *.
    rewrite Htrace, drop_app_length. cbn [length concat].
    split; [rewrite Hc, Hcounter; lia|].
    split; [rewrite Ht, Htrace, <- app_assoc; reflexivity|].
    split; [rewrite Hlen; reflexivity|].
    intros [|k] evs Hlk; cbn in Hlk.
    + injection Hlk as <-. rewrite Z.add_0_r. exact Hids.
    + specialize (Hk k evs Hlk). rewrite Hcounter in Hk.
      replace (SequenceCounter (conn w) + Z.of_nat (S k) + 1)
        with (SequenceCounter (conn w) + 1 + Z.of_nat k + 1) by lia.
      exact Hk.
Qed.

End Sequence.

(** C4: for every sequence of [exec] calls on a connection whose counter
    does not pass the largest [uint64] during it, call number [k] (from 0)
    leaves the counter at the initial value plus [k + 1] and the request
    it issues, if any, carries that number: from one call to the next the
    sequence number grows by one, and the numbers of the issued requests
    are strictly increasing, hence never repeated. *)
Theorem exec_sequence_numbers `{E : Externals} calls w :
  0 <= SequenceCounter (conn w) ->
  SequenceCounter (conn w) + Z.of_nat (length calls) <= maxUint64 ->
  SequenceCounter (conn (exec_calls calls w).2)
  = SequenceCounter (conn w) + Z.of_nat (length calls) /\
  trace (exec_calls calls w).2 = trace w ++ concat (exec_calls calls w).1 /\
  length (exec_calls calls w).1 = length calls /\
  (forall (k : nat) evs, (exec_calls calls w).1 !! k = Some evs ->
     posted_ids evs = [] \/
     posted_ids evs = [SequenceCounter (conn w) + Z.of_nat k + 1]) /\
  StronglySorted Z.lt (posted_ids (concat (exec_calls calls w).1)) /\
  NoDup (posted_ids (concat (exec_calls calls w).1)).
Proof.
  intros Hpos Hbound.
  destruct (exec_calls_spec calls w Hpos Hbound) as (Hc & Ht & Hlen & Hk).
  repeat (split; [assumption|]).
  apply (posted_ids_sorted _ _ Hk).
Qed.

(** ** Bind values *)

Lemma Itoa_inj a b : Itoa a = Itoa b -> a = b.
Proof. unfold Itoa. apply (inj pretty). Qed.

Section Bindings.
Context `{E : Externals}.

(** The loop fills the slots [idx], [idx + 1], ... with the entries, in
    order, and touches no other key. *)
Lemma exec_bindings_slots bindings tsmode entries :
  encodes bindings tsmode entries ->
  forall idx (m : gmap string execBindParameter), exists m',
    exec_bindings bindings tsmode idx m = inl m' /\
    (forall (k : nat) e, entries !! k = Some e ->
       m' !! Itoa (idx + Z.of_nat k) = Some e) /\
    (forall key, (forall k : nat, (k < length entries)%nat ->
                    key <> Itoa (idx + Z.of_nat k)) ->
       m' !! key = m !! key).
Proof.
  assert (Hcons : forall idx (m m' : gmap string execBindParameter) e entries',
    (forall (k : nat) e', entries' !! k = Some e' ->
       m' !! Itoa (idx + 1 + Z.of_nat k) = Some e') ->
    (forall key, (forall k : nat, (k < length entries')%nat ->
                    key <> Itoa (idx + 1 + Z.of_nat k)) ->
       m' !! key = <[Itoa idx := e]> m !! key) ->
    (forall (k : nat) e', (e :: entries') !! k = Some e' ->
       m' !! Itoa (idx + Z.of_nat k) = Some e') /\
    (forall key, (forall k : nat, (k < length (e :: entries'))%nat ->
                    key <> Itoa (idx + Z.of_nat k)) ->
       m' !! key = m !! key)).
  { intros idx m m' e entries' Hslots Hother. split.
    - intros [|k] e' Hk; cbn in Hk.
      + injection Hk as <-. rewrite Z.add_0_r, Hother.
        * apply lookup_insert_eq.
        * intros k _ Heq. apply Itoa_inj in Heq. lia.
      + replace (idx + Z.of_nat (S k)) with (idx + 1 + Z.of_nat k) by lia.
        apply Hslots. exact Hk.
    - intros key Hkey. rewrite Hother.
      + apply lookup_insert_ne. intros Heq. apply (Hkey 0%nat); [cbn; lia|].
        rewrite Z.add_0_r. symmetry. exact Heq.
      + intros k Hk. replace (idx + 1 + Z.of_nat k) with (idx + Z.of_nat (S k)) by lia.
        apply Hkey. cbn. lia. }
  induction 1 as [tsmode
                 |b bindings tsmode tsmode' entries Ht Hmode _ IH
                 |b bindings tsmode t v1 entries Ht Harr _ IH
                 |b bindings tsmode v1 entries Hsig Harr Hval _ IH];
    intros idx m; cbn [exec_bindings].
  - exists m. split; [reflexivity|]. split; [intros k e Hk; discriminate | auto].
  - rewrite Ht, Hmode. cbn. apply IH.
  - rewrite Ht, Harr. cbn.
    destruct (IH (idx + 1) (<[Itoa idx := mkBind t v1]> m)) as (m' & Hrun & Hslots & Hother).
    exists m'. split; [exact Hrun|]. apply Hcons; assumption.
  - apply String.eqb_neq in Hsig, Harr. rewrite Hsig, Harr, Hval.
    destruct (IH (idx + 1)
                (<[Itoa idx := mkBind (goTypeToSnowflake (Value b) tsmode) v1]> m))
      as (m' & Hrun & Hslots & Hother).
    exists m'. split; [exact Hrun|]. apply Hcons; assumption.
Qed.

End Bindings.

Section ArrayEntry.
Context `{E : Externals}.

(** With the array converter of the specification in place, the encoding
    the specification describes is the one the loop computes. *)
Lemma encodes_spec_encodes delimiter elementText bindings tsmode entries :
  encodes_spec delimiter elementText bindings tsmode entries ->
  encodes (E := with_arrayToString_spec E delimiter elementText) bindings tsmode entries.
Proof.
  induction 1 as [tsmode
                 |b bindings tsmode tsmode' entries Ht Hmode _ IH
                 |b bindings tsmode elems entries Ht Hslice _ IH
                 |b bindings tsmode v1 entries Hsig Harr Hval _ IH].
  - apply encodes_nil.
  - apply (encodes_signal (E := with_arrayToString_spec E delimiter elementText)
             b bindings tsmode tsmode'); [exact Ht | exact Hmode | exact IH].
  - apply (encodes_array (E := with_arrayToString_spec E delimiter elementText)
             b bindings tsmode "ARRAY"
             (IString (String.concat delimiter (elementText <$> elems))));
      [exact Ht | cbn; rewrite Hslice; reflexivity | exact IH].
  - apply (encodes_value (E := with_arrayToString_spec E delimiter elementText)
             b bindings tsmode v1); [exact Hsig | exact Harr | exact Hval | exact IH].
Qed.

(** An array among the bind values has its entry among the entries. *)
Lemma encodes_spec_array_entry delimiter elementText bindings tsmode entries :
  encodes_spec delimiter elementText bindings tsmode entries ->
  forall (i : nat) b elems,
    bindings !! i = Some b ->
    Value b = ISlice elems ->
    (forall mode, goTypeToSnowflake (Value b) mode = "ARRAY") ->
    exists k : nat,
      entries !! k
      = Some (mkBind "ARRAY" (IString (String.concat delimiter (elementText <$> elems)))).
Proof.
  induction 1 as [tsmode
                 |b0 bindings tsmode tsmode' entries Ht Hmode _ IH
                 |b0 bindings tsmode elems0 entries Ht Hslice _ IH
                 |b0 bindings tsmode v1 entries Hsig Harr Hval _ IH];
    intros i b elems Hi Hb Harray.
  - discriminate.
  - destruct i as [|i]; cbn in Hi.
    + injection Hi as <-. rewrite Harray in Ht. discriminate.
    + apply (IH i b elems Hi Hb Harray).
  - destruct i as [|i]; cbn in Hi.
    + injection Hi as <-. rewrite Hslice in Hb. injection Hb as <-.
      exists 0%nat. reflexivity.
    + destruct (IH i b elems Hi Hb Harray) as [k Hk]. exists (S k). exact Hk.
  - destruct i as [|i]; cbn in Hi.
    + injection Hi as <-. contradiction (Harr (Harray tsmode)).
    + destruct (IH i b elems Hi Hb Harray) as [k Hk]. exists (S k). exact Hk.
Qed.

End ArrayEntry.

(** C8: with the array converter as the specification describes it,
    when the bind values given to [exec] encode to [entries] (a value
    whose inferred type is CHANGE_TYPE resolves the timestamp mode for the
    values after it and gives no entry; an array gives a single entry with
    the array tag and the texts of its elements joined by the delimiter;
    any other value gives its type and its text under the current mode),
    the bind map of the request holds exactly these entries under the
    keys "1", "2", ... in input order; in particular every array among
    the values has one of these keys, with the array tag and the
    delimited string. *)
Theorem exec_bind_slots `{E : Externals} delimiter elementText bindings entries :
  bindings <> [] ->
  encodes_spec delimiter elementText bindings "TIMESTAMP_NTZ" entries ->
  exists m : gmap string execBindParameter,
    exec_bind (E := with_arrayToString_spec E delimiter elementText) bindings
    = inl (Some m) /\
    (forall (k : nat) e, entries !! k = Some e ->
       m !! Itoa (Z.of_nat k + 1) = Some e) /\
    (forall key, is_Some (m !! key) <->
       exists k : nat, (k < length entries)%nat /\ key = Itoa (Z.of_nat k + 1)) /\
    (forall (i : nat) b elems,
       bindings !! i = Some b ->
       Value b = ISlice elems ->
       (forall mode, goTypeToSnowflake (Value b) mode = "ARRAY") ->
       exists k : nat,
         (k < length entries)%nat /\
         m !! Itoa (Z.of_nat k + 1)
         = Some (mkBind "ARRAY"
                   (IString (String.concat delimiter (elementText <$> elems))))).
Proof.
  intros Hne Hspec. pose proof (encodes_spec_encodes _ _ _ _ _ Hspec) as Henc.
  destruct (exec_bindings_slots (E := with_arrayToString_spec E delimiter elementText)
              _ _ _ Henc 1 ∅) as (m & Hrun & Hslots & Hother).
  exists m. split; [|split; [|split]].
  - unfold exec_bind. destruct bindings; [contradiction|]. rewrite Hrun. reflexivity.
  - intros k e Hk. rewrite Z.add_comm. apply Hslots. exact Hk.
  - intros key. split.
    + intros Hsome.
      destruct (decide (key ∈ (fun k : nat => Itoa (1 + Z.of_nat k)) <$> seq 0 (length entries)))
        as [Hin|Hnotin].
      * apply list_elem_of_fmap in Hin as (k & -> & Hk).
        apply elem_of_seq in Hk. exists k. split; [lia|]. f_equal. lia.
      * rewrite Hother in Hsome.
        -- rewrite lookup_empty in Hsome. destruct Hsome as [? ?]. discriminate.
        -- intros k Hk ->. apply Hnotin. apply list_elem_of_fmap.
           exists k. split; [reflexivity|]. apply elem_of_seq. lia.
    + intros (k & Hk & ->).
      destruct (lookup_lt_is_Some_2 entries k Hk) as [e He].
      exists e. rewrite Z.add_comm. apply Hslots. exact He.
  - intros i b elems Hi Hb Harray.
    destruct (encodes_spec_array_entry _ _ _ _ _ Hspec i b elems Hi Hb Harray) as [k Hk].
    exists k. split; [apply (lookup_lt_Some _ _ _ Hk)|].
    rewrite Z.add_comm. apply Hslots. exact Hk.
Qed.

(** * Further properties of the code *)

(** ** Child results *)

Lemma Split_comma_nonempty s : Split_comma s <> [].
Proof.
  destruct s as [|c s]; cbn; [discriminate|].
  destruct (Ascii.eqb c ","); [discriminate|].
  destruct (Split_comma s); discriminate.
Qed.

Lemma concat_cons2 sep (x y : string) l :
  String.concat sep (x :: y :: l) = x +:+ sep +:+ String.concat sep (y :: l).
Proof. reflexivity. Qed.

Lemma Split_comma_concat s : String.concat "," (Split_comma s) = s.
Proof.
  induction s as [|c s IH]; [reflexivity|]. cbn [Split_comma].
  pose proof (Split_comma_nonempty s) as Hne.
  destruct (Split_comma s) as [|w ws]; [contradiction|].
  destruct (Ascii.eqb_spec c ",") as [->|Hc].
  - rewrite concat_cons2, IH. reflexivity.
  - destruct ws as [|w' ws].
    + cbn in *. rewrite IH. reflexivity.
    + rewrite concat_cons2 in *. rewrite <- IH. reflexivity.
Qed.

Lemma getChildResults_from_enough queryIDs : forall (i : nat) resultTypes,
  (i + length queryIDs <= length resultTypes)%nat ->
  getChildResults_from queryIDs i resultTypes
  = Ret (zip_with mkChild queryIDs (drop i resultTypes)).
Proof.
  induction queryIDs as [|id queryIDs IH]; intros i resultTypes Hlen; [reflexivity|].
  cbn [getChildResults_from length] in *.
  destruct (lookup_lt_is_Some_2 resultTypes i) as [t Ht]; [lia|].
  unfold index, mbind, outcome_bind. rewrite Ht.
  rewrite IH by lia. cbn.
  rewrite (drop_S _ _ _ Ht). reflexivity.
Qed.

Lemma getChildResults_from_short queryIDs : forall (i : nat) resultTypes,
  (i <= length resultTypes)%nat ->
  (length resultTypes < i + length queryIDs)%nat ->
  getChildResults_from queryIDs i resultTypes = Panic IndexOutOfRange.
Proof.
  induction queryIDs as [|id queryIDs IH]; intros i resultTypes Hi Hlen;
    cbn [getChildResults_from length] in *; [lia|].
  unfold index, mbind, outcome_bind.
  destruct (resultTypes !! i) as [t|] eqn:Ht; [|reflexivity].
  apply lookup_lt_Some in Ht. rewrite IH by lia. reflexivity.
Qed.

(** X1: [getChildResults] pairs the comma-separated child ids with the
    comma-separated child types, position by position and in order; with
    no ids there are no children, and joining the ids of the children with
    commas gives the id list back. *)
Theorem getChildResults_pairs (IDs types : string) :
  (length (Split_comma IDs) <= length (Split_comma types))%nat ->
  exists res,
    getChildResults IDs types = Ret res /\
    res = (if String.eqb IDs "" then []
           else zip_with mkChild (Split_comma IDs) (Split_comma types)) /\
    String.concat "," (child_id <$> res) = IDs /\
    (IDs <> "" -> length res = length (Split_comma IDs)).
Proof.
  intros Hlen. unfold getChildResults.
  destruct (String.eqb_spec IDs "") as [->|Hne].
  - exists []. repeat split. intros []. reflexivity.
  - rewrite (getChildResults_from_enough _ 0 _ Hlen). rewrite drop_0.
    exists (zip_with mkChild (Split_comma IDs) (Split_comma types)).
    split; [reflexivity|]. split; [reflexivity|].
    assert (Hids : child_id <$> zip_with mkChild (Split_comma IDs) (Split_comma types)
                   = Split_comma IDs).
    { revert Hlen. generalize (Split_comma types). generalize (Split_comma IDs).
      induction l as [|id l IH]; intros [|t l0] Hlen; cbn in *; try reflexivity; try lia.
      f_equal. apply IH. lia. }
    split; [rewrite Hids; apply Split_comma_concat|].
    intros _. rewrite length_zip_with. lia.
Qed.

(** X2: when the child ids are not empty and the child types have fewer
    comma-separated fields than the child ids, [getChildResults] indexes
    past the end of the types and panics. *)
Theorem getChildResults_fewer_types (IDs types : string) :
  IDs <> "" ->
  (length (Split_comma types) < length (Split_comma IDs))%nat ->
  getChildResults IDs types = Panic IndexOutOfRange.
Proof.
  intros Hne Hlen. unfold getChildResults.
  apply String.eqb_neq in Hne. rewrite Hne.
  apply getChildResults_from_short; lia.
Qed.

(** ** Where [updateRows] stops *)

Lemma updateRows_from_prefix (data : execResponseData) (vs : list Z) :
  forall (i : nat) (count : Z) (fuel : nat),
    (forall (j : nat) v, vs !! j = Some v -> cell_value data (i + j) v) ->
    wrap_int64 count = count ->
    updateRows_from data (length vs + fuel) i count
    = updateRows_from data fuel (i + length vs) (wrap_int64 (count + sum_list vs)).
Proof.
  induction vs as [|v vs IH]; intros i count fuel Hcells Hcount; cbn [length].
  - cbn. rewrite Nat.add_0_r, Z.add_0_r, Hcount. reflexivity.
  - destruct (Hcells 0%nat v eq_refl) as (row & s & Hrow & Hcell & Hparse).
    rewrite Nat.add_0_r in Hcell. cbn [Nat.add updateRows_from].
    unfold mbind, outcome_bind, index, deref. rewrite Hrow, Hcell, Hparse.
    rewrite IH.
    + rewrite wrap_int64_add_l. replace (S i + length vs)%nat with (i + S (length vs))%nat by lia.
      do 2 f_equal. unfold sum_list. cbn [foldr]. lia.
    + intros j v' Hj. replace (S i + j)%nat with (i + S j)%nat by lia.
      apply Hcells. exact Hj.
    + apply wrap_int64_id, wrap_int64_range.
Qed.

(** X3: [updateRows] reads the first row of the row set column by column,
    up to the number of declared columns, and stops at the first cell it
    cannot use: with no declared column it returns 0 without reading the
    row set; an absent first row or an absent cell is an index out of
    range, a nil cell a nil dereference (both panics); a cell that is not
    the text of an [int64] makes it return -1 and the parse error. *)
Theorem updateRows_stops (data : execResponseData) (vs : list Z) :
  (forall (j : nat) v, vs !! j = Some v -> cell_value data j v) ->
  (length vs < length (RowType data))%nat ->
  (RowSet data = [] -> updateRows data = Panic IndexOutOfRange) /\
  (forall row, RowSet data !! 0%nat = Some row ->
     (row !! length vs = None -> updateRows data = Panic IndexOutOfRange) /\
     (row !! length vs = Some None -> updateRows data = Panic NilDereference) /\
     (forall s e, row !! length vs = Some (Some s) -> ParseInt s = inr e ->
        updateRows data = Ret (-1, Some (ErrNum "ParseInt" s e)))) /\
  (forall data0, RowType data0 = [] -> updateRows data0 = Ret (0, None)).
Proof.
  intros Hcells Hlt.
  assert (Hrun : updateRows data
                 = updateRows_from data (length (RowType data) - length vs) (length vs)
                     (wrap_int64 (sum_list vs))).
  { unfold updateRows.
    replace (length (RowType data))
      with (length vs + (length (RowType data) - length vs))%nat at 1 by lia.
    rewrite (updateRows_from_prefix data vs 0 0); [reflexivity | exact Hcells | reflexivity]. }
  destruct (length (RowType data) - length vs)%nat as [|fuel] eqn:Hfuel; [lia|].
  cbn [updateRows_from] in Hrun. unfold mbind, outcome_bind, index, deref in Hrun.
  split; [|split].
  - intros Hempty. rewrite Hrun, Hempty. reflexivity.
  - intros row Hrow. rewrite Hrow in Hrun. split; [|split].
    + intros Hcell. rewrite Hrun, Hcell. reflexivity.
    + intros Hcell. rewrite Hrun, Hcell. reflexivity.
    + intros s e Hcell Hparse. rewrite Hrun, Hcell, Hparse. reflexivity.
  - intros data0 Hnone. unfold updateRows. rewrite Hnone. reflexivity.
Qed.

(** The first cell that is not the text of an [int64] ends the count. *)
Lemma updateRows_unparsable (data : execResponseData) (vs : list Z) row s e :
  (forall (j : nat) v, vs !! j = Some v -> cell_value data j v) ->
  (length vs < length (RowType data))%nat ->
  RowSet data !! 0%nat = Some row ->
  row !! length vs = Some (Some s) ->
  ParseInt s = inr e ->
  updateRows data = Ret (-1, Some (ErrNum "ParseInt" s e)).
Proof.
  intros Hcells Hlt Hrow Hcell Hparse.
  assert (Hrun : updateRows data
                 = updateRows_from data (length (RowType data) - length vs) (length vs)
                     (wrap_int64 (sum_list vs))).
  { unfold updateRows.
    replace (length (RowType data))
      with (length vs + (length (RowType data) - length vs))%nat at 1 by lia.
    rewrite (updateRows_from_prefix data vs 0 0); [reflexivity | exact Hcells | reflexivity]. }
  destruct (length (RowType data) - length vs)%nat as [|fuel] eqn:Hfuel; [lia|].
  cbn [updateRows_from] in Hrun. unfold mbind, outcome_bind, index, deref in Hrun.
  rewrite Hrun, Hrow, Hcell, Hparse. reflexivity.
Qed.

(** X4: when [exec] has returned a DML response whose first row has a
    cell, among the declared columns, that is not the text of an [int64]
    (the cells before it being such texts), [ExecContext] returns no
    result and the parse error of that cell. *)
Theorem ExecContext_dml_unparsable_cell `{E : Externals}
    ctx query args w w' d internal noResult (vs : list Z) row s e :
  rest (conn w) <> None ->
  isInternal ctx = (internal, None) ->
  isAsyncMode ctx = (noResult, None) ->
  exec ctx query noResult internal args w = Done (Some d, None) w' ->
  isDml (StatementTypeID (Data d)) = true ->
  (forall (j : nat) v, vs !! j = Some v -> cell_value (Data d) j v) ->
  (length vs < length (RowType (Data d)))%nat ->
  RowSet (Data d) !! 0%nat = Some row ->
  row !! length vs = Some (Some s) ->
  ParseInt s = inr e ->
  ExecContext ctx query args w = Done (None, Some (ErrNum "ParseInt" s e)) w'.
Proof.
  intros Hrest Hint Hasync Hexec Hdml Hcells Hlt Hrow Hcell Hparse.
  rewrite (ExecContext_exec_ok _ _ _ _ _ _ _ _ Hrest Hint Hasync Hexec).
  unfold ExecContext_dispatch. rewrite Hdml. unfold ExecContext_dml.
  rewrite (updateRows_unparsable (Data d) vs row s e Hcells Hlt Hrow Hcell Hparse).
  reflexivity.
Qed.

(** X5: when [exec] has returned a response whose statement type is
    neither in the DML band nor the multi-statement identifier,
    [ExecContext] returns [driver.ResultNoRows] without looking at the
    schema or the rows: an empty schema is no panic there. *)
Theorem ExecContext_other_statement `{E : Externals}
    ctx query args w w' d internal noResult :
  rest (conn w) <> None ->
  isInternal ctx = (internal, None) ->
  isAsyncMode ctx = (noResult, None) ->
  exec ctx query noResult internal args w = Done (Some d, None) w' ->
  isDml (StatementTypeID (Data d)) = false ->
  StatementTypeID (Data d) <> statementTypeIDMulti ->
  isMultiStmt (Data d) = Ret false /\
  ExecContext ctx query args w = Done (Some ResultNoRows, None) w'.
Proof.
  intros Hrest Hint Hasync Hexec Hdml Hid.
  assert (Hmulti : isMultiStmt (Data d) = Ret false).
  { unfold isMultiStmt. apply Z.eqb_neq in Hid. rewrite Hid. reflexivity. }
  split; [exact Hmulti|].
  rewrite (ExecContext_exec_ok _ _ _ _ _ _ _ _ Hrest Hint Hasync Hexec).
  unfold ExecContext_dispatch. rewrite Hdml. go. rewrite Hmulti. reflexivity.
Qed.

(** ** [exec]: the ways out before and at the transport *)

Section ExecErrors.
Context `{E : Externals}.

(** The loop over the bind values returns a map only for values that encode. *)
Lemma exec_bindings_encodes bindings : forall tsmode idx m m',
  exec_bindings bindings tsmode idx m = inl m' ->
  exists entries, encodes bindings tsmode entries.
Proof.
  induction bindings as [|b bindings IH]; intros tsmode idx m m' Hrun.
  - exists []. constructor.
  - cbn [exec_bindings] in Hrun.
    destruct (String.eqb_spec (goTypeToSnowflake (Value b) tsmode) "CHANGE_TYPE")
      as [Hsig|Hsig].
    + destruct (dataTypeMode (Value b)) as [tsmode' [err|]] eqn:Hmode; [discriminate|].
      destruct (IH _ _ _ _ Hrun) as [entries Henc].
      exists entries. eapply encodes_signal; eauto.
    + destruct (String.eqb_spec (goTypeToSnowflake (Value b) tsmode) "ARRAY")
        as [Harr|Harr].
      * destruct (arrayToString (Value b)) as [t v1] eqn:Hconv.
        destruct (IH _ _ _ _ Hrun) as [entries Henc].
        eexists. eapply encodes_array; eauto.
      * destruct (valueToString (Value b) tsmode) as [v1 [err|]] eqn:Hconv;
          [discriminate|].
        destruct (IH _ _ _ _ Hrun) as [entries Henc].
        eexists. eapply encodes_value; eauto.
Qed.

Lemma exec_bind_error_run ctx query noResult isInternal bindings w err :
  exec_bind bindings = inr err ->
  exec ctx query noResult isInternal bindings w
  = Done (None, Some err) {| conn := conn_next (conn w); trace := trace w |}.
Proof.
  intros Hbind. unfold exec, atomic_AddUint64_SequenceCounter. go.
  rewrite Hbind. reflexivity.
Qed.

End ExecErrors.

(** X6: when the bind values do not encode (a converter refuses one of
    them), [exec] returns the converter's error and no response; it has
    taken a sequence number, issued no request and left the session as it
    was. *)
Theorem exec_bind_failure `{E : Externals} bindings :
  (forall entries, ~ encodes bindings "TIMESTAMP_NTZ" entries) ->
  exists err,
    exec_bind bindings = inr err /\
    forall ctx query noResult isInternal w,
      exec ctx query noResult isInternal bindings w
      = Done (None, Some err) {| conn := conn_next (conn w); trace := trace w |}.
Proof.
  intros Hno. destruct (exec_bind bindings) as [bs|err] eqn:Hbind.
  - exfalso. unfold exec_bind in Hbind. destruct bindings as [|b bindings].
    + apply (Hno []). constructor.
    + destruct (exec_bindings (b :: bindings) "TIMESTAMP_NTZ" 1 ∅) as [m|err] eqn:Hrun;
        [|discriminate].
      destruct (exec_bindings_encodes _ _ _ _ _ Hrun) as [entries Henc].
      apply (Hno entries Henc).
  - exists err. split; [reflexivity|]. intros. apply exec_bind_error_run. exact Hbind.
Qed.

(** X7: a bind map is built exactly for the bind values that encode: when
    [exec] builds one, the values encode to some entries. *)
Theorem exec_bind_encodes `{E : Externals} bindings m :
  exec_bind bindings = inl (Some m) ->
  bindings <> [] /\ exists entries, encodes bindings "TIMESTAMP_NTZ" entries.
Proof.
  unfold exec_bind. destruct bindings as [|b bindings]; [discriminate|].
  destruct (exec_bindings (b :: bindings) "TIMESTAMP_NTZ" 1 ∅) as [m'|err] eqn:Hrun;
    [|discriminate].
  intros _. split; [discriminate|]. apply (exec_bindings_encodes _ _ _ _ _ Hrun).
Qed.

(** X8: when the transport answers [exec] with an error, [exec] returns
    what the transport returned, response and error, unchanged; when the
    transport returns neither a response nor an error, [exec] reads the
    status code through the nil response and panics. In both cases the
    request has been issued and the session is as it was. *)
Theorem exec_transport_answer `{E : Externals}
    ctx query noResult isInternal bindings w data err w1 :
  exec_receives ctx query noResult isInternal bindings w data err w1 ->
  (forall e, err = Some e ->
     exec ctx query noResult isInternal bindings w = Done (data, Some e) w1) /\
  (data = None -> err = None ->
     exec ctx query noResult isInternal bindings w = Panicked NilDereference w1) /\
  session_of (conn w1) = session_of (conn w).
Proof.
  intros Hrecv. rewrite (exec_run _ _ _ _ _ _ _ _ _ Hrecv).
  split; [|split].
  - intros e ->. reflexivity.
  - intros -> ->. reflexivity.
  - destruct Hrecv as (c & r & bs & body & _ & _ & _ & _ & _ & ->). reflexivity.
Qed.

(** X9: when [exec] gives back a response together with an error,
    [ExecContext] and [QueryContext] never return the error they were
    about to build from them: if the status code of the response is the
    text of an integer they call [Error] on a nil error and panic, and
    otherwise they return the parse error of the status code. *)
Theorem exec_failed_with_response `{E : Externals}
    ctx query args w w' d e internal noResult :
  rest (conn w) <> None ->
  isInternal ctx = (internal, None) ->
  isAsyncMode ctx = (noResult, None) ->
  exec ctx query noResult internal args w = Done (Some d, Some e) w' ->
  (forall code, Atoi (Code d) = inl code ->
     ExecContext ctx query args w = Panicked NilDereference w' /\
     QueryContext ctx query args w = Panicked NilDereference w') /\
  (forall ne, Atoi (Code d) = inr ne ->
     ExecContext ctx query args w = Done (None, Some (ErrNum "Atoi" (Code d) ne)) w' /\
     QueryContext ctx query args w = Done (None, Some (ErrNum "Atoi" (Code d) ne)) w').
Proof.
  intros Hrest Hint Hasync Hexec.
  assert (Hec : ExecContext ctx query args w = exec_failed (Some d) e w').
  { unfold ExecContext. unfold mbind at 1, Go_bind, get_conn.
    destruct (rest (conn w)); [|contradiction].
    rewrite Hint, Hasync. unfold mbind at 1, Go_bind. rewrite Hexec. reflexivity. }
  assert (Hqc : QueryContext ctx query args w = exec_failed (Some d) e w').
  { unfold QueryContext. unfold mbind at 1, Go_bind, get_conn.
    destruct (rest (conn w)); [|contradiction].
    rewrite Hint, Hasync. unfold mbind at 1, Go_bind. rewrite Hexec. reflexivity. }
  rewrite Hec, Hqc. unfold exec_failed.
  split; intros x Hx; rewrite Hx; split; reflexivity.
Qed.

(** X10: when [exec] returns no response and an error, every operation
    built on it returns that error unchanged: [ExecContext] and
    [QueryContext] with no result, [Ping] as its error, and [BeginTx]
    (with the default options) with no transaction. *)
Theorem exec_error_is_returned `{E : Externals}
    ctx query args w w' e internal noResult :
  rest (conn w) <> None ->
  isInternal ctx = (internal, None) ->
  isAsyncMode ctx = (noResult, None) ->
  (exec ctx query noResult internal args w = Done (None, Some e) w' ->
     ExecContext ctx query args w = Done (None, Some e) w' /\
     QueryContext ctx query args w = Done (None, Some e) w') /\
  (exec ctx "SELECT 1" noResult internal [] w = Done (None, Some e) w' ->
     Ping ctx w = Done (Some e) w') /\
  (forall opts, ReadOnly opts = false -> Isolation opts = LevelDefault ->
     exec ctx "BEGIN" false false [] w = Done (None, Some e) w' ->
     BeginTx ctx opts w = Done (None, Some e) w').
Proof.
  intros Hrest Hint Hasync. split; [|split].
  - intros Hexec. split.
    + unfold ExecContext. unfold mbind at 1, Go_bind, get_conn.
      destruct (rest (conn w)); [|contradiction].
      rewrite Hint, Hasync. unfold mbind at 1, Go_bind. rewrite Hexec. reflexivity.
    + unfold QueryContext. unfold mbind at 1, Go_bind, get_conn.
      destruct (rest (conn w)); [|contradiction].
      rewrite Hint, Hasync. unfold mbind at 1, Go_bind. rewrite Hexec. reflexivity.
  - intros Hexec. unfold Ping. unfold mbind at 1, Go_bind, get_conn.
    destruct (rest (conn w)); [|contradiction].
    rewrite Hint, Hasync. unfold mbind at 1, Go_bind. rewrite Hexec. reflexivity.
  - intros opts Hro Hiso Hexec. unfold BeginTx. rewrite Hro, Hiso. cbn.
    unfold mbind at 1, Go_bind, get_conn.
    destruct (rest (conn w)); [|contradiction].
    unfold mbind at 1, Go_bind. rewrite Hexec. reflexivity.
Qed.

(** X11: [exec] changes the session (configuration, last query id, last
    SQL state) only when it returns without an error: on every other way
    out, an error or a panic, the session is as it was before the call. *)
Theorem exec_failure_keeps_session `{E : Externals}
    ctx query noResult isInternal bindings w :
  (exists data w', exec ctx query noResult isInternal bindings w = Done (data, None) w') \/
  session_of (conn (world_of (exec ctx query noResult isInternal bindings w)))
  = session_of (conn w).
Proof.
  unfold exec, atomic_AddUint64_SequenceCounter, PostQuery. go.
  destruct (exec_bind bindings) as [bs|err]; go; [|right; reflexivity].
  destruct (cfg (conn w)) as [c|] eqn:Hcfg; go; [|right; unfold session_of; cbn; congruence].
  destruct (json_Marshal _) as [body [err|]]; go;
    [right; unfold session_of; cbn; congruence|].
  destruct (rest (conn w)) as [r|]; go; [|right; unfold session_of; cbn; congruence].
  destruct (FuncPostQuery r (trace w) (exec_headers c) body) as [data err].
  unfold exec_response. destruct err as [e|]; go;
    [right; unfold session_of; cbn; congruence|].
  destruct data as [d|]; go; [|right; unfold session_of; cbn; congruence].
  destruct (if String.eqb (Code d) "" then inl (-1) else Atoi (Code d)) as [code|ne];
    go; [|right; unfold session_of; cbn; congruence].
  destruct (Success d); go; [|right; unfold session_of; cbn; congruence].
  left. erewrite populateSessionParameters_run by reflexivity. eauto.
Qed.

(** ** Fetching the result of a child *)

Section Fetch.
Context `{E : Externals}.

Lemma getQueryResult_conn ctx resultPath w :
  conn (world_of (getQueryResult ctx resultPath w)) = conn w.
Proof.
  unfold getQueryResult. go.
  destruct (cfg (conn w)); go; [|reflexivity].
  destruct (rest (conn w)) as [r|]; go; [|reflexivity].
  destruct (FuncGet r _ _ _) as [res [err|]]; go; [reflexivity|].
  destruct res as [body|]; go; [|reflexivity].
  destruct (json_Decode body) as [respd [err|]]; reflexivity.
Qed.

Lemma getQueryResult_served ctx resultPath w c r cd :
  cfg (conn w) = Some c ->
  rest (conn w) = Some r ->
  serves r resultPath cd ->
  getQueryResult ctx resultPath w
  = Done (Some cd, None)
      {| conn := conn w;
         trace := trace w ++ [EvGet resultPath (getQueryResult_headers c r)] |}.
Proof.
  intros Hcfg Hrest Hserves. unfold getQueryResult, getQueryResult_headers. go.
  rewrite Hcfg. go. rewrite Hrest. go.
  destruct (Hserves (trace w)
              (if String.eqb (Token r) "" then exec_headers c
               else <[headerAuthorizationKey := headerSnowflakeToken (Token r)]>
                      (exec_headers c))) as (body & -> & Hdecode).
  go. rewrite Hdecode. reflexivity.
Qed.

End Fetch.

(** X12: on an open connection [getQueryResult] makes exactly one call to
    the transport, for the given path and with the headers of a query
    plus, when the transport holds a token, the authorization header; it
    leaves the connection as it was, and whenever it returns an error it
    returns no response with it. *)
Theorem getQueryResult_one_call `{E : Externals} ctx resultPath w c r :
  cfg (conn w) = Some c ->
  rest (conn w) = Some r ->
  conn (world_of (getQueryResult ctx resultPath w)) = conn w /\
  trace (world_of (getQueryResult ctx resultPath w))
  = trace w ++ [EvGet resultPath (getQueryResult_headers c r)] /\
  (Token r = "" -> getQueryResult_headers c r = exec_headers c) /\
  (Token r <> "" ->
   getQueryResult_headers c r !! headerAuthorizationKey
   = Some (headerSnowflakeToken (Token r))) /\
  (forall data e w1,
     getQueryResult ctx resultPath w = Done (data, Some e) w1 -> data = None).
Proof.
  intros Hcfg Hrest. split; [apply getQueryResult_conn|]. split; [|split; [|split]].
  - unfold getQueryResult, getQueryResult_headers. go. rewrite Hcfg. go. rewrite Hrest. go.
    destruct (FuncGet r _ _ _) as [res [err|]]; go; [reflexivity|].
    destruct res as [body|]; go; [|reflexivity].
    destruct (json_Decode body) as [respd [err|]]; reflexivity.
  - intros Htoken. unfold getQueryResult_headers. rewrite Htoken. reflexivity.
  - intros Htoken. unfold getQueryResult_headers.
    apply String.eqb_neq in Htoken. rewrite Htoken. apply lookup_insert_eq.
  - intros data e w1 Hget. apply (getQueryResult_error_nil _ _ _ _ _ _ Hget).
Qed.

(** ** The children of a multi-statement response, all served *)

Section ChildrenServed.
Context `{E : Externals}.

Lemma updateRows_child cd n :
  child_rows cd n ->
  isDml (StatementTypeID (Data cd)) = true ->
  updateRows (Data cd) = Ret (n, None).
Proof.
  intros [[Hno _]|(_ & vs & Hlen & Hcells & ->)] Hdml; [congruence|].
  apply updateRows_sum; assumption.
Qed.

Lemma ExecContext_children_served ctx c r children :
  forall (served : list (execResponse * Z)) updatedRows w,
    cfg (conn w) = Some c ->
    rest (conn w) = Some r ->
    Forall2 (fun child s => serves r (resultPath_of child) s.1 /\ child_rows s.1 s.2)
      children served ->
    wrap_int64 updatedRows = updatedRows ->
    ExecContext_children ctx children updatedRows w
    = Done (Some (snowflakeResult (wrap_int64 (updatedRows + sum_list (snd <$> served)))
                    (-1) (sc_QueryID (conn w))), None)
        {| conn := conn w; trace := trace w ++ fetches c r children |}.
Proof.
  induction children as [|child children IH]; intros served updatedRows w Hcfg Hrest Hall Hwrap.
  - apply Forall2_nil_inv_l in Hall as ->. cbn. go.
    rewrite Z.add_0_r, Hwrap, app_nil_r. destruct w; reflexivity.
  - apply Forall2_cons_inv_l in Hall as ([cd n] & served' & [Hserves Hrows] & Hall & ->).
    cbn [fst snd] in *. cbn [ExecContext_children].
    unfold mbind at 1, Go_bind.
    rewrite (getQueryResult_served ctx _ w c r cd Hcfg Hrest Hserves).
    go. unfold fetches. cbn [fmap list_fmap]. 
    destruct (isDml (StatementTypeID (Data cd))) eqn:Hdml.
    + rewrite (updateRows_child cd n Hrows Hdml). go.
      rewrite (IH served'); [|exact Hcfg | exact Hrest | exact Hall
                             | apply wrap_int64_id, wrap_int64_range].
      cbn. rewrite wrap_int64_add_l, <- app_assoc.
      unfold sum_list, fetches. cbn [foldr]. rewrite Z.add_assoc. reflexivity.
    + destruct Hrows as [[_ ->]|[Hyes _]]; [|congruence].
      rewrite (IH served'); [|exact Hcfg | exact Hrest | exact Hall | exact Hwrap].
      cbn. rewrite <- app_assoc. rewrite Z.add_0_l. reflexivity.
Qed.

Lemma QueryContext_children_served ctx c r children :
  forall (served : list execResponse) acc w,
    cfg (conn w) = Some c ->
    rest (conn w) = Some r ->
    Forall2 (fun child cd => serves r (resultPath_of child) cd) children served ->
    QueryContext_children ctx children acc w
    = Done (inl (acc ++ ((fun cd => populateChunkDownloader (Data cd)) <$> served)))
        {| conn := conn w; trace := trace w ++ fetches c r children |}.
Proof.
  induction children as [|child children IH]; intros served acc w Hcfg Hrest Hall.
  - apply Forall2_nil_inv_l in Hall as ->. cbn. go.
    rewrite !app_nil_r. destruct w; reflexivity.
  - apply Forall2_cons_inv_l in Hall as (cd & served' & Hserves & Hall & ->).
    cbn [QueryContext_children]. unfold mbind at 1, Go_bind.
    rewrite (getQueryResult_served ctx _ w c r cd Hcfg Hrest Hserves).
    go. rewrite (IH served'); [|exact Hcfg | exact Hrest | exact Hall].
    cbn. rewrite <- !app_assoc. reflexivity.
Qed.

Lemma chain_rowsets_link first ds :
  NextDownloader first = None ->
  Forall (fun d => NextDownloader d = None) ds ->
  chain_rowsets (link_downloaders first ds) = cd_RowSet <$> (first :: ds).
Proof.
  revert first. induction ds as [|d ds IH]; intros first Hfirst Hall.
  - cbn. destruct first; cbn in *. rewrite Hfirst. reflexivity.
  - apply Forall_cons in Hall as [Hd Hall]. cbn [link_downloaders].
    destruct first; cbn in *. rewrite (IH d Hd Hall). reflexivity.
Qed.

End ChildrenServed.

Section QueryRows.
Context `{E : Externals}.

Lemma QueryContext_children_prefix ctx c r pre rest' :
  forall (served : list execResponse) acc w,
    cfg (conn w) = Some c ->
    rest (conn w) = Some r ->
    Forall2 (fun child cd => serves r (resultPath_of child) cd) pre served ->
    QueryContext_children ctx (pre ++ rest') acc w
    = QueryContext_children ctx rest'
        (acc ++ ((fun cd => populateChunkDownloader (Data cd)) <$> served))
        {| conn := conn w; trace := trace w ++ fetches c r pre |}.
Proof.
  induction pre as [|child pre IH]; intros served acc w Hcfg Hrest Hall.
  - apply Forall2_nil_inv_l in Hall as ->. cbn.
    rewrite !app_nil_r. destruct w; reflexivity.
  - apply Forall2_cons_inv_l in Hall as (cd & served' & Hserves & Hall & ->).
    cbn [app QueryContext_children]. unfold mbind at 1, Go_bind.
    rewrite (getQueryResult_served ctx _ w c r cd Hcfg Hrest Hserves).
    go. rewrite (IH served'); [|exact Hcfg | exact Hrest | exact Hall].
    cbn. rewrite <- !app_assoc. reflexivity.
Qed.

Lemma getQueryResult_refused ctx resultPath w c r e :
  cfg (conn w) = Some c ->
  rest (conn w) = Some r ->
  refuses r resultPath e ->
  getQueryResult ctx resultPath w
  = Done (None, Some e)
      {| conn := conn w;
         trace := trace w ++ [EvGet resultPath (getQueryResult_headers c r)] |}.
Proof.
  intros Hcfg Hrest Hrefuses. unfold getQueryResult, getQueryResult_headers. go.
  rewrite Hcfg. go. rewrite Hrest. go.
  destruct (Hrefuses (trace w)
              (if String.eqb (Token r) "" then exec_headers c
               else <[headerAuthorizationKey := headerSnowflakeToken (Token r)]>
                      (exec_headers c))) as (res & ->).
  reflexivity.
Qed.

(** What [QueryContext] does once [exec] has returned a response and no
    error and the response has been classified. *)
Lemma QueryContext_exec_ok ctx query args w w' d internal noResult multi :
  rest (conn w) <> None ->
  isInternal ctx = (internal, None) ->
  isAsyncMode ctx = (noResult, None) ->
  exec ctx query noResult internal args w = Done (Some d, None) w' ->
  isMultiStmt (Data d) = Ret multi ->
  QueryContext ctx query args w
  = (children ←
       (if multi then
          childResults ← lift (getChildResults (ResultIDs (Data d)) (ResultTypes (Data d)));
          QueryContext_children ctx childResults []
        else mret (inl []));
     match children with
     | inr err => mret (None, Some err)
     | inl ds =>
         let downloader :=
           match ds with
           | [] => populateChunkDownloader (Data d)
           | first :: ds' => link_downloaders first ds'
           end in
         ChunkDownloader_start downloader;;
         mret (Some {| rows_RowType := RowType (Data d);
                       ChunkDownloader := downloader;
                       rows_queryID := sc_QueryID (conn w') |}, None)
     end) w'.
Proof.
  intros Hrest Hint Hasync Hexec Hmulti. unfold QueryContext.
  unfold mbind at 1, Go_bind, get_conn.
  destruct (rest (conn w)); [|contradiction].
  rewrite Hint, Hasync. unfold mbind at 1, Go_bind. rewrite Hexec.
  unfold mbind at 1, Go_bind, lift, deref.
  unfold mbind at 1, Go_bind, get_conn.
  unfold mbind at 1, Go_bind, lift. rewrite Hmulti. reflexivity.
Qed.

End QueryRows.

(** X13: when [exec] has returned a multi-statement response and the
    transport serves the result of every child, [ExecContext] fetches the
    children in the order of the response's id list, one call each, and
    returns the [int64] sum, over the children whose statement type is
    DML, of the integers of their first rows; the other children count
    for nothing. *)
Theorem ExecContext_multi_sum `{E : Externals}
    ctx query args w w' d internal noResult c0 cols c r children
    (served : list (execResponse * Z)) :
  rest (conn w) <> None ->
  isInternal ctx = (internal, None) ->
  isAsyncMode ctx = (noResult, None) ->
  exec ctx query noResult internal args w = Done (Some d, None) w' ->
  StatementTypeID (Data d) = statementTypeIDMulti ->
  RowType (Data d) = c0 :: cols ->
  Name c0 = multiStmtMarker ->
  getChildResults (ResultIDs (Data d)) (ResultTypes (Data d)) = Ret children ->
  cfg (conn w') = Some c ->
  rest (conn w') = Some r ->
  Forall2 (fun child s => serves r (resultPath_of child) s.1 /\ child_rows s.1 s.2)
    children served ->
  ExecContext ctx query args w
  = Done (Some (snowflakeResult (wrap_int64 (sum_list (snd <$> served))) (-1)
                  (sc_QueryID (conn w'))), None)
      {| conn := conn w'; trace := trace w' ++ fetches c r children |}.
Proof.
  intros Hrest Hint Hasync Hexec Hid Hrt Hname Hchildren Hcfg Hrest' Hall.
  rewrite (ExecContext_exec_ok _ _ _ _ _ _ _ _ Hrest Hint Hasync Hexec).
  unfold ExecContext_dispatch. rewrite Hid, isDml_multi.
  rewrite (isMultiStmt_first_column _ _ _ Hid Hrt).
  apply String.eqb_eq in Hname. rewrite Hname. go.
  unfold ExecContext_multi. go. rewrite Hchildren.
  apply (ExecContext_children_served ctx c r children served 0 w' Hcfg Hrest' Hall).
  reflexivity.
Qed.

(** X14: when [exec] has returned a multi-statement response and the
    transport serves the result of every child, [QueryContext] fetches the
    children in the order of the response's id list and returns rows whose
    downloaders, followed from the first through [NextDownloader], hold
    the row sets of the children in that order; with no child the rows
    keep the downloader of the response itself. The downloader is started
    after the last fetch. *)
Theorem QueryContext_multi_chain `{E : Externals}
    ctx query args w w' d internal noResult c0 cols c r children
    (served : list execResponse) :
  rest (conn w) <> None ->
  isInternal ctx = (internal, None) ->
  isAsyncMode ctx = (noResult, None) ->
  exec ctx query noResult internal args w = Done (Some d, None) w' ->
  StatementTypeID (Data d) = statementTypeIDMulti ->
  RowType (Data d) = c0 :: cols ->
  Name c0 = multiStmtMarker ->
  getChildResults (ResultIDs (Data d)) (ResultTypes (Data d)) = Ret children ->
  cfg (conn w') = Some c ->
  rest (conn w') = Some r ->
  Forall2 (fun child cd => serves r (resultPath_of child) cd) children served ->
  exists rows,
    QueryContext ctx query args w
    = Done (Some rows, None)
        {| conn := conn w';
           trace := trace w' ++ fetches c r children ++ [EvDownloaderStart] |} /\
    rows_RowType rows = RowType (Data d) /\
    rows_queryID rows = sc_QueryID (conn w') /\
    chain_rowsets (ChunkDownloader rows)
    = match served with
      | [] => [rowset_of d]
      | _ => rowset_of <$> served
      end.
Proof.
  intros Hrest Hint Hasync Hexec Hid Hrt Hname Hchildren Hcfg Hrest' Hall.
  assert (Hmulti : isMultiStmt (Data d) = Ret true).
  { rewrite (isMultiStmt_first_column _ _ _ Hid Hrt).
    apply String.eqb_eq in Hname. rewrite Hname. reflexivity. }
  rewrite (QueryContext_exec_ok _ _ _ _ _ _ _ _ _ Hrest Hint Hasync Hexec Hmulti).
  unfold mbind at 1, Go_bind. unfold mbind at 1, Go_bind, lift. rewrite Hchildren.
  rewrite (QueryContext_children_served ctx c r children served [] w' Hcfg Hrest' Hall).
  cbn [app]. destruct served as [|cd served].
  - eexists. split.
    { cbn. unfold ChunkDownloader_start. go. rewrite <- app_assoc. reflexivity. }
    repeat split.
  - eexists. split.
    { cbn. unfold ChunkDownloader_start. go. rewrite <- app_assoc. reflexivity. }
    split; [reflexivity|]. split; [reflexivity|].
    cbn [ChunkDownloader fmap list_fmap].
    rewrite chain_rowsets_link.
    + cbn. f_equal. clear Hall. induction served as [|cd' served IH]; [reflexivity|].
      cbn. f_equal. exact IH.
    + reflexivity.
    + clear Hall. induction served as [|cd' served IH]; constructor;
        [reflexivity | exact IH].
Qed.

(** X15: when [exec] has returned a response that is not multi-statement,
    [QueryContext] returns rows over the response's own schema and row
    set, whatever the statement type (DML and DDL included), fetches
    nothing more and starts the downloader. *)
Theorem QueryContext_single `{E : Externals}
    ctx query args w w' d internal noResult :
  rest (conn w) <> None ->
  isInternal ctx = (internal, None) ->
  isAsyncMode ctx = (noResult, None) ->
  exec ctx query noResult internal args w = Done (Some d, None) w' ->
  isMultiStmt (Data d) = Ret false ->
  QueryContext ctx query args w
  = Done (Some {| rows_RowType := RowType (Data d);
                  ChunkDownloader := populateChunkDownloader (Data d);
                  rows_queryID := sc_QueryID (conn w') |}, None)
      {| conn := conn w'; trace := trace w' ++ [EvDownloaderStart] |} /\
  chain_rowsets (populateChunkDownloader (Data d)) = [rowset_of d] /\
  CellCount (populateChunkDownloader (Data d)) = length (RowType (Data d)).
Proof.
  intros Hrest Hint Hasync Hexec Hmulti.
  rewrite (QueryContext_exec_ok _ _ _ _ _ _ _ _ _ Hrest Hint Hasync Hexec Hmulti).
  repeat split.
Qed.

(** X16: when [exec] has returned a multi-statement response and the
    transport, having served some children, fails on the next one,
    [QueryContext] returns no rows and the error of that fetch; it fetches
    no later child and never starts a downloader. *)
Theorem QueryContext_child_refused `{E : Externals}
    ctx query args w w' d internal noResult c0 cols c r pre child post
    (served : list execResponse) e :
  rest (conn w) <> None ->
  isInternal ctx = (internal, None) ->
  isAsyncMode ctx = (noResult, None) ->
  exec ctx query noResult internal args w = Done (Some d, None) w' ->
  StatementTypeID (Data d) = statementTypeIDMulti ->
  RowType (Data d) = c0 :: cols ->
  Name c0 = multiStmtMarker ->
  getChildResults (ResultIDs (Data d)) (ResultTypes (Data d))
  = Ret (pre ++ child :: post) ->
  cfg (conn w') = Some c ->
  rest (conn w') = Some r ->
  Forall2 (fun child cd => serves r (resultPath_of child) cd) pre served ->
  refuses r (resultPath_of child) e ->
  QueryContext ctx query args w
  = Done (None, Some e)
      {| conn := conn w'; trace := trace w' ++ fetches c r (pre ++ [child]) |}.
Proof.
  intros Hrest Hint Hasync Hexec Hid Hrt Hname Hchildren Hcfg Hrest' Hall Hrefuses.
  assert (Hmulti : isMultiStmt (Data d) = Ret true).
  { rewrite (isMultiStmt_first_column _ _ _ Hid Hrt).
    apply String.eqb_eq in Hname. rewrite Hname. reflexivity. }
  rewrite (QueryContext_exec_ok _ _ _ _ _ _ _ _ _ Hrest Hint Hasync Hexec Hmulti).
  unfold mbind at 1, Go_bind. unfold mbind at 1, Go_bind, lift. rewrite Hchildren.
  rewrite (QueryContext_children_prefix ctx c r pre (child :: post) served [] w'
             Hcfg Hrest' Hall).
  cbn [QueryContext_children]. unfold mbind at 1, Go_bind.
  rewrite (getQueryResult_refused ctx _ _ c r e); [|exact Hcfg | exact Hrest' | exact Hrefuses].
  cbn. unfold fetches. rewrite fmap_app, <- app_assoc. reflexivity.
Qed.

(** ** Only [Close] releases the connection *)

Section StaysOpen.
Context `{E : Externals}.

Lemma stays_open_conn w w' : conn w' = conn w -> stays_open w w'.
Proof. intros Hconn. unfold stays_open. rewrite Hconn. auto. Qed.

Lemma stays_open_trans w1 w2 w3 :
  stays_open w1 w2 -> stays_open w2 w3 -> stays_open w1 w3.
Proof. intros [Hr1 Hc1] [Hr2 Hc2]. split; [congruence | auto]. Qed.

Lemma exec_response_stays_open data err w1 :
  stays_open w1 (world_of (exec_response data err w1)).
Proof.
  unfold exec_response. destruct err as [e|]; go; [apply stays_open_conn; reflexivity|].
  destruct data as [d|]; go; [|apply stays_open_conn; reflexivity].
  destruct (if String.eqb (Code d) "" then inl (-1) else Atoi (Code d)) as [code|ne];
    go; [|apply stays_open_conn; reflexivity].
  destruct (Success d); go; [|apply stays_open_conn; reflexivity].
  destruct (cfg (conn w1)) as [c|] eqn:Hcfg; go; [|apply stays_open_conn; reflexivity].
  erewrite populateSessionParameters_run by reflexivity.
  split; cbn; eauto.
Qed.

Lemma exec_stays_open ctx query noResult isInternal bindings w :
  stays_open w (world_of (exec ctx query noResult isInternal bindings w)).
Proof.
  unfold exec, atomic_AddUint64_SequenceCounter, PostQuery. go.
  destruct (exec_bind bindings) as [bs|err]; go; [|split; cbn; auto].
  destruct (cfg (conn w)) as [c|] eqn:Hcfg; go; [|split; cbn; [auto | rewrite Hcfg; auto]].
  destruct (json_Marshal _) as [body [err|]]; go; [split; cbn; [auto | rewrite Hcfg; auto]|].
  destruct (rest (conn w)) as [r|] eqn:Hrest; go;
    [|split; cbn; [auto | rewrite Hcfg; auto]].
  destruct (FuncPostQuery r (trace w) (exec_headers c) body) as [data err].
  match goal with |- context [exec_response data err ?w1] =>
    pose proof (exec_response_stays_open data err w1) as [Hr Hc];
    destruct (exec_response data err w1)
  end; cbn in *; (split; [congruence | rewrite Hcfg; intros _; apply Hc; eauto]).
Qed.

Lemma ExecContext_children_conn ctx children : forall updatedRows w,
  conn (world_of (ExecContext_children ctx children updatedRows w)) = conn w.
Proof.
  induction children as [|child children IH]; intros updatedRows w; [reflexivity|].
  cbn [ExecContext_children]. unfold mbind at 1, Go_bind.
  pose proof (getQueryResult_conn ctx (resultPath_of child) w) as Hconn.
  destruct (getQueryResult ctx (resultPath_of child) w) as [[childData err] w1|p w1];
    cbn [world_of] in Hconn; [|exact Hconn].
  destruct err as [e|], childData as [cd|]; go; try exact Hconn.
  - destruct (Atoi (Code cd)); exact Hconn.
  - destruct (isDml (StatementTypeID (Data cd))); go.
    + destruct (updateRows (Data cd)) as [[count [e|]]|p]; go; try exact Hconn.
      * destruct (Atoi (Code cd)); exact Hconn.
      * rewrite IH. exact Hconn.
    + rewrite IH. exact Hconn.
Qed.

Lemma QueryContext_children_conn ctx children : forall acc w,
  conn (world_of (QueryContext_children ctx children acc w)) = conn w.
Proof.
  induction children as [|child children IH]; intros acc w; [reflexivity|].
  cbn [QueryContext_children]. unfold mbind at 1, Go_bind.
  pose proof (getQueryResult_conn ctx (resultPath_of child) w) as Hconn.
  destruct (getQueryResult ctx (resultPath_of child) w) as [[childData err] w1|p w1];
    cbn [world_of] in Hconn; [|exact Hconn].
  destruct err as [e|], childData as [cd|]; go; try exact Hconn.
  - destruct (Atoi (Code cd)); exact Hconn.
  - rewrite IH. exact Hconn.
Qed.

Lemma ExecContext_dispatch_conn ctx data w :
  conn (world_of (ExecContext_dispatch ctx data w)) = conn w.
Proof.
  unfold ExecContext_dispatch, ExecContext_dml, ExecContext_multi.
  destruct (isDml (StatementTypeID data)); go.
  - destruct (updateRows data) as [[count [e|]]|p]; reflexivity.
  - destruct (isMultiStmt data) as [[|]|p]; go; try reflexivity.
    destruct (getChildResults (ResultIDs data) (ResultTypes data)) as [children|p];
      go; [|reflexivity].
    apply ExecContext_children_conn.
Qed.

Lemma exec_failed_conn {A} data e w :
  conn (world_of (exec_failed (A := A) data e w)) = conn w.
Proof.
  unfold exec_failed. destruct data as [d|]; go; [|reflexivity].
  destruct (Atoi (Code d)); reflexivity.
Qed.

Lemma ExecContext_stays_open ctx query args w :
  stays_open w (world_of (ExecContext ctx query args w)).
Proof.
  unfold ExecContext. unfold mbind at 1, Go_bind, get_conn.
  destruct (rest (conn w)); [|apply stays_open_conn; reflexivity].
  destruct (isInternal ctx) as [internal [e|]]; [apply stays_open_conn; reflexivity|].
  destruct (isAsyncMode ctx) as [noResult [e|]]; [apply stays_open_conn; reflexivity|].
  unfold mbind at 1, Go_bind.
  pose proof (exec_stays_open ctx query noResult internal args w) as Hopen.
  destruct (exec ctx query noResult internal args w) as [[data err] w1|p w1];
    cbn [world_of] in Hopen; [|exact Hopen].
  eapply stays_open_trans; [exact Hopen|]. apply stays_open_conn.
  destruct err as [e|]; [apply exec_failed_conn|].
  destruct data as [d|]; go; [|reflexivity].
  apply ExecContext_dispatch_conn.
Qed.

Lemma QueryContext_stays_open ctx query args w :
  stays_open w (world_of (QueryContext ctx query args w)).
Proof.
  unfold QueryContext. unfold mbind at 1, Go_bind, get_conn.
  destruct (rest (conn w)); [|apply stays_open_conn; reflexivity].
  destruct (isInternal ctx) as [internal [e|]]; [apply stays_open_conn; reflexivity|].
  destruct (isAsyncMode ctx) as [noResult [e|]]; [apply stays_open_conn; reflexivity|].
  unfold mbind at 1, Go_bind.
  pose proof (exec_stays_open ctx query noResult internal args w) as Hopen.
  destruct (exec ctx query noResult internal args w) as [[data err] w1|p w1];
    cbn [world_of] in Hopen; [|exact Hopen].
  eapply stays_open_trans; [exact Hopen|]. apply stays_open_conn.
  destruct err as [e|]; [apply exec_failed_conn|].
  destruct data as [d|]; go; [|reflexivity].
  destruct (isMultiStmt (Data d)) as [[|]|p]; go; try reflexivity.
  destruct (getChildResults (ResultIDs (Data d)) (ResultTypes (Data d)))
    as [children|p]; go; [|reflexivity].
  pose proof (QueryContext_children_conn ctx children [] w1) as Hconn.
  destruct (QueryContext_children ctx children [] w1) as [[ds|err] w2|p w2];
    cbn in Hconn |- *; try exact Hconn.
Qed.

End StaysOpen.

(** X17: no operation other than [Close] releases the connection:
    whatever they return, and also when they panic, [exec],
    [ExecContext], [QueryContext], [Ping], [BeginTx] and
    [PrepareContext] leave the transport reference as it was and do not
    drop the configuration. *)
Theorem only_Close_releases `{E : Externals} ctx query async hidden args opts w :
  stays_open w (world_of (exec ctx query async hidden args w)) /\
  stays_open w (world_of (ExecContext ctx query args w)) /\
  stays_open w (world_of (QueryContext ctx query args w)) /\
  stays_open w (world_of (Ping ctx w)) /\
  stays_open w (world_of (BeginTx ctx opts w)) /\
  stays_open w (world_of (PrepareContext ctx query w)).
Proof.
  split; [apply exec_stays_open|]. split; [apply ExecContext_stays_open|].
  split; [apply QueryContext_stays_open|]. split; [|split].
  - unfold Ping. unfold mbind at 1, Go_bind, get_conn.
    destruct (rest (conn w)); [|apply stays_open_conn; reflexivity].
    destruct (isInternal ctx) as [internal [e|]]; [apply stays_open_conn; reflexivity|].
    destruct (isAsyncMode ctx) as [noResult [e|]]; [apply stays_open_conn; reflexivity|].
    unfold mbind at 1, Go_bind.
    pose proof (exec_stays_open ctx "SELECT 1" noResult internal [] w) as Hopen.
    destruct (exec ctx "SELECT 1" noResult internal [] w) as [[data err] w1|p w1];
      exact Hopen.
  - unfold BeginTx. destruct (ReadOnly opts); [apply stays_open_conn; reflexivity|].
    destruct (negb (Isolation opts =? LevelDefault));
      [apply stays_open_conn; reflexivity|].
    unfold mbind at 1, Go_bind, get_conn.
    destruct (rest (conn w)); [|apply stays_open_conn; reflexivity].
    unfold mbind at 1, Go_bind.
    pose proof (exec_stays_open ctx "BEGIN" false false [] w) as Hopen.
    destruct (exec ctx "BEGIN" false false [] w) as [[data [e|]] w1|p w1]; exact Hopen.
  - unfold PrepareContext. go. destruct (rest (conn w)); apply stays_open_conn; reflexivity.
Qed.

(** ** After [exec], a statement leaves the connection alone *)

(** X18: on an open connection and with well-typed options, everything
    [ExecContext] and [QueryContext] change in the connection is changed
    by their one call of [exec]: counting rows, fetching children and
    building rows leave the connection as [exec] left it, so a call takes
    exactly one sequence number, however many children it fetches and
    whether it returns or panics. *)
Theorem statement_changes_are_those_of_exec `{E : Externals}
    ctx query args w internal noResult :
  rest (conn w) <> None ->
  isInternal ctx = (internal, None) ->
  isAsyncMode ctx = (noResult, None) ->
  conn (world_of (ExecContext ctx query args w))
  = conn (world_of (exec ctx query noResult internal args w)) /\
  conn (world_of (QueryContext ctx query args w))
  = conn (world_of (exec ctx query noResult internal args w)) /\
  SequenceCounter (conn (world_of (ExecContext ctx query args w)))
  = wrap_uint64 (SequenceCounter (conn w) + 1) /\
  SequenceCounter (conn (world_of (QueryContext ctx query args w)))
  = wrap_uint64 (SequenceCounter (conn w) + 1).
Proof.
  intros Hrest Hint Hasync.
  assert (Hexec : conn (world_of (ExecContext ctx query args w))
                  = conn (world_of (exec ctx query noResult internal args w))).
  { unfold ExecContext. unfold mbind at 1, Go_bind, get_conn.
    destruct (rest (conn w)); [|congruence]. rewrite Hint, Hasync.
    unfold mbind at 1, Go_bind.
    destruct (exec ctx query noResult internal args w) as [[data err] w1|p w1];
      [|reflexivity].
    destruct err as [e|]; [apply exec_failed_conn|].
    destruct data as [d|]; go; [|reflexivity].
    apply ExecContext_dispatch_conn. }
  assert (Hquery : conn (world_of (QueryContext ctx query args w))
                   = conn (world_of (exec ctx query noResult internal args w))).
  { unfold QueryContext. unfold mbind at 1, Go_bind, get_conn.
    destruct (rest (conn w)); [|congruence]. rewrite Hint, Hasync.
    unfold mbind at 1, Go_bind.
    destruct (exec ctx query noResult internal args w) as [[data err] w1|p w1];
      [|reflexivity].
    destruct err as [e|]; [apply exec_failed_conn|].
    destruct data as [d|]; go; [|reflexivity].
    destruct (isMultiStmt (Data d)) as [[|]|p]; go; try reflexivity.
    destruct (getChildResults (ResultIDs (Data d)) (ResultTypes (Data d)))
      as [children|p]; go; [|reflexivity].
    pose proof (QueryContext_children_conn ctx children [] w1) as Hconn.
    destruct (QueryContext_children ctx children [] w1) as [[ds|err] w2|p w2];
      cbn in Hconn |- *; exact Hconn. }
  split; [exact Hexec|]. split; [exact Hquery|].
  rewrite Hexec, Hquery.
  pose proof (exec_step ctx query noResult internal args w) as [Hcounter _].
  split; exact Hcounter.
Qed.

(** ** Request options *)

(** X19: the options set with [WithInternal], [WithAsyncMode] and
    [WithMultiStatement] are the ones [isInternal], [isAsyncMode] and
    the request parameters of [exec] read back; setting one leaves the
    other two as they were, and a context without them means not internal,
    not asynchronous, no parameters. *)
Theorem context_options_round_trip ctx (num : Z) :
  (isInternal (WithInternal ctx).1 = (true, None) /\
   isAsyncMode (WithInternal ctx).1 = isAsyncMode ctx /\
   exec_parameters (WithInternal ctx).1 = exec_parameters ctx) /\
  (isAsyncMode (WithAsyncMode ctx).1 = (true, None) /\
   isInternal (WithAsyncMode ctx).1 = isInternal ctx /\
   exec_parameters (WithAsyncMode ctx).1 = exec_parameters ctx) /\
  (exec_parameters (WithMultiStatement ctx num).1
   = Some {[ "MULTI_STATEMENT_COUNT" := IInt num ]} /\
   isInternal (WithMultiStatement ctx num).1 = isInternal ctx /\
   isAsyncMode (WithMultiStatement ctx num).1 = isAsyncMode ctx) /\
  (isInternal context_TODO = (false, None) /\
   isAsyncMode context_TODO = (false, None) /\
   exec_parameters context_TODO = None) /\
  (WithInternal ctx).2 = None /\ (WithAsyncMode ctx).2 = None /\
  (WithMultiStatement ctx num).2 = None.
Proof.
  unfold WithInternal, WithAsyncMode, WithMultiStatement, isInternal, isAsyncMode,
    exec_parameters, context_WithValue. cbn.
  repeat split; reflexivity.
Qed.

(** X20: an option whose value is set but is not a boolean stops
    [ExecContext], [QueryContext] and [Ping] before anything is sent: they
    return the cast error, take no sequence number and issue no request.
    The internal flag is read first, the asynchronous flag second. *)
Theorem option_of_wrong_type `{E : Externals} ctx query args w v :
  rest (conn w) <> None ->
  v <> INil ->
  (forall b, v <> IBool b) ->
  (ctx IsInternal = v \/ (isInternal ctx).2 = None /\ ctx AsyncMode = v) ->
  ExecContext ctx query args w = Done (None, Some (ErrCast v)) w /\
  QueryContext ctx query args w = Done (None, Some (ErrCast v)) w /\
  Ping ctx w = Done (Some (ErrCast v)) w.
Proof.
  intros Hrest Hnil Hbool Hv.
  assert (Hcast : isInternal ctx = (false, Some (ErrCast v)) \/
                  exists internal, isInternal ctx = (internal, None) /\
                                   isAsyncMode ctx = (false, Some (ErrCast v))).
  { destruct Hv as [Hv|[Hint Hv]].
    - left. unfold isInternal. rewrite Hv.
      destruct v; try reflexivity; [congruence | exfalso; eapply Hbool; reflexivity].
    - right. exists (isInternal ctx).1. split.
      + destruct (isInternal ctx) as [internal e]. cbn in *. subst e. reflexivity.
      + unfold isAsyncMode. rewrite Hv.
        destruct v; try reflexivity; [congruence | exfalso; eapply Hbool; reflexivity]. }
  unfold ExecContext, QueryContext, Ping. go.
  destruct (rest (conn w)); [|congruence].
  destruct Hcast as [->|(internal & -> & ->)]; repeat split; reflexivity.
Qed.

(** ** [Ping] *)

(** X21: on an open connection [Ping] issues exactly one request, the
    statement SELECT 1 without bind values, with the flags and parameters
    of its context and the next sequence number, and returns what [exec]
    returns as its error; when the statement succeeds the ping returns nil
    and has replaced the last query id and SQL state of the connection by
    those of the response. *)
Theorem Ping_selects_one `{E : Externals} ctx w c r internal noResult body :
  cfg (conn w) = Some c ->
  rest (conn w) = Some r ->
  isInternal ctx = (internal, None) ->
  isAsyncMode ctx = (noResult, None) ->
  json_Marshal {| SQLText := "SELECT 1"; AsyncExec := noResult;
                  req_IsInternal := internal;
                  SequenceID := wrap_uint64 (SequenceCounter (conn w) + 1);
                  req_Parameters := exec_parameters ctx; Bindings := None |}
  = (body, None) ->
  trace (world_of (Ping ctx w))
  = trace w ++ [EvPostQuery
                  {| SQLText := "SELECT 1"; AsyncExec := noResult;
                     req_IsInternal := internal;
                     SequenceID := wrap_uint64 (SequenceCounter (conn w) + 1);
                     req_Parameters := exec_parameters ctx; Bindings := None |}
                  (exec_headers c) body] /\
  (forall data err w', exec ctx "SELECT 1" noResult internal [] w = Done (data, err) w' ->
     Ping ctx w = Done err w') /\
  (forall d, FuncPostQuery r (trace w) (exec_headers c) body = (Some d, None) ->
     Success d = true -> code_accepted d ->
     exists w', Ping ctx w = Done None w' /\
                sc_QueryID (conn w') = QueryID (Data d) /\
                sc_SQLState (conn w') = SQLState (Data d)).
Proof.
  intros Hcfg Hrest Hint Hasync Hjson.
  assert (Hrecv : forall data err,
            FuncPostQuery r (trace w) (exec_headers c) body = (data, err) ->
            exec_receives ctx "SELECT 1" noResult internal [] w data err
              {| conn := conn_next (conn w);
                 trace := trace w ++ [EvPostQuery
                   {| SQLText := "SELECT 1"; AsyncExec := noResult;
                      req_IsInternal := internal;
                      SequenceID := wrap_uint64 (SequenceCounter (conn w) + 1);
                      req_Parameters := exec_parameters ctx; Bindings := None |}
                   (exec_headers c) body] |}).
  { intros data err Hpost. exists c, r, None, body. cbv zeta. repeat split; assumption. }
  assert (Hping : forall data err w',
            exec ctx "SELECT 1" noResult internal [] w = Done (data, err) w' ->
            Ping ctx w = Done err w').
  { intros data err w' Hexec. unfold Ping. unfold mbind at 1, Go_bind, get_conn.
    rewrite Hrest, Hint, Hasync. unfold mbind at 1, Go_bind. rewrite Hexec. reflexivity. }
  split; [|split; [exact Hping|]].
  - destruct (FuncPostQuery r (trace w) (exec_headers c) body) as [data err] eqn:Hpost.
    specialize (Hrecv data err eq_refl). apply exec_run in Hrecv.
    assert (Htrace : trace (world_of (Ping ctx w))
                     = trace (world_of (exec ctx "SELECT 1" noResult internal [] w))).
    { unfold Ping. unfold mbind at 1, Go_bind, get_conn.
      rewrite Hrest, Hint, Hasync. unfold mbind at 1, Go_bind.
      destruct (exec ctx "SELECT 1" noResult internal [] w) as [[data' err'] w1|p w1];
        reflexivity. }
    rewrite Htrace, Hrecv.
    match goal with |- context [exec_response data err ?w1] =>
      destruct (exec_response_frame data err w1) as [_ Ht]
    end. exact Ht.
  - intros d Hpost Hsuccess Hcode.
    pose proof (exec_success _ _ _ _ _ _ _ _ _ (Hrecv _ _ Hpost) Hsuccess Hcode Hcfg)
      as Hexec.
    eexists. split; [exact (Hping _ _ _ Hexec)|]. split; reflexivity.
Qed.

(** ** Keep-alive and the heartbeat *)

(** X22: the heartbeat is touched only when the session parameter
    client_session_keep_alive is exactly the text true: otherwise
    [startHeartBeat] and [stopHeartBeat] do nothing, even without a
    transport. When it is, both need the transport (a nil dereference
    without it), and [startHeartBeat] installs a new heartbeat in the
    transport and starts it. Without a configuration both panic. *)
Theorem heartbeat_only_with_keepalive `{E : Externals} w :
  (forall c, cfg (conn w) = Some c -> keepalive_enabled c = false ->
     startHeartBeat w = Done tt w /\ stopHeartBeat w = Done tt w) /\
  (forall c, cfg (conn w) = Some c -> keepalive_enabled c = true ->
     rest (conn w) = None ->
     startHeartBeat w = Panicked NilDereference w /\
     stopHeartBeat w = Panicked NilDereference w) /\
  (forall c r, cfg (conn w) = Some c -> keepalive_enabled c = true ->
     rest (conn w) = Some r ->
     exists r',
       startHeartBeat w
       = Done tt {| conn := {| cfg := cfg (conn w); rest := Some r';
                               SequenceCounter := SequenceCounter (conn w);
                               sc_QueryID := sc_QueryID (conn w);
                               sc_SQLState := sc_SQLState (conn w) |};
                    trace := trace w ++ [EvHeartBeatStart] |} /\
       HeartBeat r' = Some mkHeartbeat /\ Token r' = Token r /\
       FuncPostQuery r' = FuncPostQuery r /\ FuncGet r' = FuncGet r /\
       FuncCloseSession r' = FuncCloseSession r) /\
  (cfg (conn w) = None ->
     startHeartBeat w = Panicked NilDereference w /\
     stopHeartBeat w = Panicked NilDereference w) /\
  (forall c, keepalive_enabled c = true <->
             Params c !! sessionClientSessionKeepAlive = Some "true").
Proof.
  unfold startHeartBeat, stopHeartBeat, isClientSessionKeepAliveEnabled,
    heartbeat_start, heartbeat_stop, put_rest, keepalive_enabled.
  split; [|split; [|split; [|split]]].
  - intros c Hcfg Hoff. go. rewrite Hcfg. go.
    destruct (Params c !! sessionClientSessionKeepAlive) as [v|]; go;
      [rewrite Hoff|]; split; reflexivity.
  - intros c Hcfg Hon Hrest. go. rewrite Hcfg. go.
    destruct (Params c !! sessionClientSessionKeepAlive) as [v|]; [|discriminate].
    go. rewrite Hon. go. rewrite Hrest. split; reflexivity.
  - intros c r Hcfg Hon Hrest. go. rewrite Hcfg. go.
    destruct (Params c !! sessionClientSessionKeepAlive) as [v|]; [|discriminate].
    go. rewrite Hon. go. rewrite Hrest. go.
    eexists. split; [rewrite ?Hcfg; reflexivity|]. repeat split.
  - intros Hcfg. go. rewrite Hcfg. split; reflexivity.
  - intros c. destruct (Params c !! sessionClientSessionKeepAlive) as [v|]; split;
      try discriminate.
    + intros Heq. apply String.eqb_eq in Heq. congruence.
    + intros [= ->]. reflexivity.
Qed.

Lemma pretty_N_go_head x : forall s,
  (forall t, s <> String "t"%char t) ->
  forall t, pretty_N_go x s <> String "t"%char t.
Proof.
  induction (N.lt_wf_0 x) as [x _ IH]; intros s Hs.
  destruct (decide (x = 0)%N) as [->|Hx]; [rewrite pretty_N_go_0; exact Hs|].
  rewrite pretty_N_go_step by lia. apply IH; [apply N.div_lt; lia|].
  intros t. unfold pretty_N_char. repeat case_match; discriminate.
Qed.

(** The decimal text of an integer is never the word true. *)
Lemma FormatInt_not_true n : FormatInt n <> "true".
Proof.
  unfold FormatInt, pretty, pretty_Z. destruct n as [|p|p]; [discriminate| |discriminate].
  unfold pretty, pretty_positive, pretty, pretty_N.
  destruct (decide (N.pos p = 0)%N); [discriminate|].
  apply pretty_N_go_head. discriminate.
Qed.

(** X23: the session parameters a successful response returns decide
    keep-alive from then on: when the last returned parameter whose
    lower-cased name is client_session_keep_alive has the value [v],
    keep-alive is enabled after [exec] exactly when the text of [v] is
    true; so the boolean true and the string true enable it, and the
    boolean false, the string TRUE and any [int64] disable it, whatever
    the session had before. *)
Theorem keepalive_follows_response `{E : Externals}
    ctx query noResult isInternal bindings w w1 d c (i : nat) p :
  exec_receives ctx query noResult isInternal bindings w (Some d) None w1 ->
  Success d = true ->
  code_accepted d ->
  cfg (conn w) = Some c ->
  Parameters (Data d) !! i = Some p ->
  strings_ToLower (param_Name p) = sessionClientSessionKeepAlive ->
  (forall (j : nat) q, (i < j)%nat -> Parameters (Data d) !! j = Some q ->
     strings_ToLower (param_Name q) <> sessionClientSessionKeepAlive) ->
  exists w',
    exec ctx query noResult isInternal bindings w = Done (Some d, None) w' /\
    isClientSessionKeepAliveEnabled w'
    = Done (String.eqb (paramValueString (param_Value p)) "true") w' /\
    (param_Value p = IBool true \/ param_Value p = IString "true" ->
     isClientSessionKeepAliveEnabled w' = Done true w') /\
    (param_Value p = IBool false \/ param_Value p = IString "TRUE" \/
     (exists n, param_Value p = IInt64 n) ->
     isClientSessionKeepAliveEnabled w' = Done false w').
Proof.
  intros Hrecv Hsuccess Hcode Hcfg Hp Hname Hlast.
  exists (world_after_success c d w1).
  split; [apply (exec_success _ _ _ _ _ _ _ _ _ Hrecv Hsuccess Hcode Hcfg)|].
  assert (Hlookup : merge_parameters (Parameters (Data d)) (Params c)
                      !! sessionClientSessionKeepAlive
                    = Some (paramValueString (param_Value p))).
  { rewrite <- Hname. apply (merge_parameters_last _ _ i); [exact Hp|].
    intros j q Hj Hq. rewrite Hname. apply (Hlast j q Hj Hq). }
  assert (Hrun : isClientSessionKeepAliveEnabled (world_after_success c d w1)
                 = Done (String.eqb (paramValueString (param_Value p)) "true")
                     (world_after_success c d w1)).
  { unfold isClientSessionKeepAliveEnabled, world_after_success. go.
    rewrite Hlookup. reflexivity. }
  split; [exact Hrun|]. rewrite Hrun. split.
  - intros [->| ->]; reflexivity.
  - intros [->|[->|[n ->]]]; try reflexivity.
    cbn. destruct (String.eqb (FormatInt n) "true") eqn:Heq; [|reflexivity].
    apply String.eqb_eq in Heq. exfalso.
    exact (FormatInt_not_true n Heq).
Qed.

(** ** The service name *)

(** X24: every request carries the content type, the accepted type and
    the user agent, and the header X-Snowflake-Service exactly when the
    session parameters hold a service name; a service name returned by a
    successful response is sent with every request [exec] issues
    afterwards. *)
Theorem service_name_header `{E : Externals}
    ctx query noResult isInternal bindings w w1 d c (i : nat) p :
  exec_receives ctx query noResult isInternal bindings w (Some d) None w1 ->
  Success d = true ->
  code_accepted d ->
  cfg (conn w) = Some c ->
  Parameters (Data d) !! i = Some p ->
  strings_ToLower (param_Name p) = serviceName ->
  (forall (j : nat) q, (i < j)%nat -> Parameters (Data d) !! j = Some q ->
     strings_ToLower (param_Name q) <> serviceName) ->
  exists w' c',
    exec ctx query noResult isInternal bindings w = Done (Some d, None) w' /\
    cfg (conn w') = Some c' /\
    (forall ctx2 query2 noResult2 isInternal2 bindings2 data2 err2 w2,
       exec_receives ctx2 query2 noResult2 isInternal2 bindings2 w' data2 err2 w2 ->
       exists req body, trace w2 = trace w' ++ [EvPostQuery req (exec_headers c') body]) /\
    exec_headers c' !! "X-Snowflake-Service" = Some (paramValueString (param_Value p)) /\
    (forall c0 : Config,
       exec_headers c0 !! "Content-Type" = Some headerContentTypeApplicationJSON /\
       exec_headers c0 !! "accept" = Some headerAcceptTypeApplicationSnowflake /\
       exec_headers c0 !! "User-Agent" = Some userAgent /\
       exec_headers c0 !! "X-Snowflake-Service" = Params c0 !! serviceName /\
       forall k, k <> "Content-Type" -> k <> "accept" -> k <> "User-Agent" ->
                 k <> "X-Snowflake-Service" -> exec_headers c0 !! k = None).
Proof.
  intros Hrecv Hsuccess Hcode Hcfg Hp Hname Hlast.
  assert (Hheaders : forall c0 : Config,
    exec_headers c0 !! "Content-Type" = Some headerContentTypeApplicationJSON /\
    exec_headers c0 !! "accept" = Some headerAcceptTypeApplicationSnowflake /\
    exec_headers c0 !! "User-Agent" = Some userAgent /\
    exec_headers c0 !! "X-Snowflake-Service" = Params c0 !! serviceName /\
    forall k, k <> "Content-Type" -> k <> "accept" -> k <> "User-Agent" ->
              k <> "X-Snowflake-Service" -> exec_headers c0 !! k = None).
  { intros c0. unfold exec_headers.
    destruct (Params c0 !! serviceName) as [v|];
      repeat split;
      repeat (first [rewrite lookup_insert_eq; reflexivity
                    | rewrite lookup_insert_ne by (discriminate || congruence)]);
      try apply lookup_empty;
      intros k H1 H2 H3 H4;
      repeat (rewrite lookup_insert_ne by congruence); apply lookup_empty. }
  exists (world_after_success c d w1). eexists.
  split; [apply (exec_success _ _ _ _ _ _ _ _ _ Hrecv Hsuccess Hcode Hcfg)|].
  split; [reflexivity|]. split; [|split; [|exact Hheaders]].
  - intros ctx2 query2 noResult2 isInternal2 bindings2 data2 err2 w2
      (c2 & r2 & bs2 & body2 & Hcfg2 & _ & _ & _ & _ & ->).
    cbn in Hcfg2. injection Hcfg2 as <-. eexists _, body2. reflexivity.
  - destruct (Hheaders
                {| Database := FinalDatabaseName (Data d);
                   Schema := FinalSchemaName (Data d);
                   Warehouse := FinalWarehouseName (Data d);
                   Role := FinalRoleName (Data d);
                   Params := merge_parameters (Parameters (Data d)) (Params c) |})
      as (_ & _ & _ & -> & _).
    cbn [Params]. rewrite <- Hname. apply (merge_parameters_last _ _ i); [exact Hp|].
    intros j q Hj Hq. rewrite Hname. apply (Hlast j q Hj Hq).
Qed.

(** ** Closing twice, and statements prepared before the close *)

(** X25: [Close] needs an open connection: without a configuration or
    without a transport it dereferences nil and panics, changing nothing.
    So a second [Close] after a successful one panics. *)
Theorem Close_needs_open_connection `{E : Externals} w :
  (cfg (conn w) = None \/ rest (conn w) = None ->
   Close w = Panicked NilDereference w) /\
  (forall c r, cfg (conn w) = Some c -> rest (conn w) = Some r ->
     (keepalive_enabled c = true -> HeartBeat r <> None) ->
     exists w', Close w = Done None w' /\ Close w' = Panicked NilDereference w').
Proof.
  assert (Hclosed : forall w0, cfg (conn w0) = None \/ rest (conn w0) = None ->
                               Close w0 = Panicked NilDereference w0).
  { intros w0 Hnil.
    unfold Close, stopHeartBeat, isClientSessionKeepAliveEnabled, heartbeat_stop. go.
    destruct (cfg (conn w0)) as [c|] eqn:Hcfg; go; [|reflexivity].
    destruct Hnil as [Hnil|Hrest]; [discriminate|].
    destruct (Params c !! sessionClientSessionKeepAlive) as [v|]; go.
    - destruct (String.eqb v "true"); go; rewrite Hrest; reflexivity.
    - rewrite Hrest. reflexivity. }
  split; [apply Hclosed|].
  intros c r Hcfg Hrest Hhb. eexists. split; [apply (Close_run w c r Hcfg Hrest Hhb)|].
  apply Hclosed. left. reflexivity.
Qed.

(** X26: preparing a statement sends nothing and changes nothing; the
    statement runs its query text on the connection it was prepared on,
    so after that connection is closed a statement prepared before the
    close fails with [driver.ErrBadConn], as preparing a new one does. *)
Theorem prepared_statement_follows_connection `{E : Externals}
    ctx query w c r :
  cfg (conn w) = Some c ->
  rest (conn w) = Some r ->
  (keepalive_enabled c = true -> HeartBeat r <> None) ->
  exists stmt w',
    PrepareContext ctx query w = Done (Some stmt, None) w /\
    Prepare query w = Done (Some stmt, None) w /\
    (forall ctx2 args w2,
       Stmt_ExecContext stmt ctx2 args w2 = ExecContext ctx2 query args w2 /\
       Stmt_QueryContext stmt ctx2 args w2 = QueryContext ctx2 query args w2) /\
    Close w = Done None w' /\
    (forall ctx2 args,
       Stmt_ExecContext stmt ctx2 args w' = Done (None, Some ErrBadConn) w' /\
       Stmt_QueryContext stmt ctx2 args w' = Done (None, Some ErrBadConn) w') /\
    PrepareContext ctx query w' = Done (None, Some ErrBadConn) w'.
Proof.
  intros Hcfg Hrest Hhb.
  exists {| stmt_query := query |}. eexists.
  split; [unfold PrepareContext; go; rewrite Hrest; reflexivity|].
  split; [unfold Prepare, PrepareContext; go; rewrite Hrest; reflexivity|].
  split; [intros; split; reflexivity|].
  split; [apply (Close_run w c r Hcfg Hrest Hhb)|].
  split; [intros ctx2 args; split|].
  - apply ExecContext_closed. reflexivity.
  - apply QueryContext_closed. reflexivity.
  - apply PrepareContext_closed. reflexivity.
Qed.

(** * Concrete runs

    The theorems above applied to the scenarios, with the test doubles
    standing in for the collaborators. *)

Section Runs.
#[local] Existing Instance Doubles.ext.

(** [exec] reaches the transport in a scenario world. *)
Ltac run_receives r query :=
  exists Doubles.cfg0, r, None, query; cbv zeta;
  repeat split; vm_compute; reflexivity.

Lemma isMultiStmt_empty_schema_witness :
  ExecContext context_TODO "x" [] Scenario.w_empty_multi =
    Panicked IndexOutOfRange
      (world_of (exec context_TODO "x" false false [] Scenario.w_empty_multi)) /\
  QueryContext context_TODO "x" [] Scenario.w_empty_multi =
    Panicked IndexOutOfRange
      (world_of (exec context_TODO "x" false false [] Scenario.w_empty_multi)).
Proof.
  refine (proj2 (proj2 (isMultiStmt_empty_schema (E := Doubles.ext)
            context_TODO "x" [] Scenario.w_empty_multi _
            Scenario.resp_empty_multi false false _ _ _ _ _ _)));
    [discriminate | reflexivity | reflexivity | vm_compute; reflexivity
    | reflexivity | reflexivity].
Defined.

Lemma ExecContext_dml_affected_rows_witness :
  ExecContext context_TODO "INSERT INTO t VALUES (1),(2)" [] Scenario.w_insert
  = Done (Some (snowflakeResult 2 (-1) "q-1"), None)
      (world_of (exec context_TODO "INSERT INTO t VALUES (1),(2)" false false []
                   Scenario.w_insert)).
Proof.
  destruct (ExecContext_dml_affected_rows (E := Doubles.ext)
              context_TODO "INSERT INTO t VALUES (1),(2)" [] Scenario.w_insert
              (world_of (exec context_TODO "INSERT INTO t VALUES (1),(2)" false false []
                           Scenario.w_insert))
              Scenario.resp_insert false false [2]) as [Hrun _];
    [discriminate | reflexivity | reflexivity | vm_compute; reflexivity
    | reflexivity | reflexivity | | vm_compute in Hrun; vm_compute; exact Hrun].
  intros [|[|i]] v Hv; [|discriminate..].
  injection Hv as <-. exists [Some "2"], "2". repeat split.
Defined.

Lemma ExecContext_multi_sentinel_witness :
  ExecContext context_TODO "x" [] Scenario.w_other_name
  = Done (Some ResultNoRows, None)
      (world_of (exec context_TODO "x" false false [] Scenario.w_other_name)).
Proof.
  destruct (ExecContext_multi_sentinel (E := Doubles.ext)
              context_TODO "x" [] Scenario.w_other_name
              (world_of (exec context_TODO "x" false false [] Scenario.w_other_name))
              Scenario.resp_other_name false false (mkRowType "x" "fixed") [])
    as [_ Hother];
    [discriminate | reflexivity | reflexivity | vm_compute; reflexivity
    | reflexivity | reflexivity |].
  destruct Hother as (_ & _ & Hrun); [discriminate|]. exact Hrun.
Defined.

(** C2 as stated fails: the response carries 0x1000 and a first column
    named "x"; the DML branch would report 5 affected rows, [ExecContext]
    returns [driver.ResultNoRows]. *)
Lemma ExecContext_multi_sentinel_not_dml :
  let w' := world_of (exec context_TODO "x" false false [] Scenario.w_other_name) in
  exec context_TODO "x" false false [] Scenario.w_other_name
    = Done (Some Scenario.resp_other_name, None) w' /\
  StatementTypeID (Data Scenario.resp_other_name) = statementTypeIDMulti /\
  (Name <$> RowType (Data Scenario.resp_other_name)) = ["x"] /\
  ExecContext_dml (Data Scenario.resp_other_name) w'
    = Done (Some (snowflakeResult 5 (-1) "q-1"), None) w' /\
  ExecContext context_TODO "x" [] Scenario.w_other_name
    = Done (Some ResultNoRows, None) w' /\
  ExecContext context_TODO "x" [] Scenario.w_other_name
    <> ExecContext_dml (Data Scenario.resp_other_name) w'.
Proof.
  cbv zeta. repeat split; try (vm_compute; reflexivity).
  vm_compute. discriminate.
Qed.

Lemma exec_failure_response_witness :
  exec context_TODO "SELECT x" false false [] Scenario.w_failed
  = Done (None, Some (ErrSnowflake
            {| Number := 1003; err_SQLState := "00000";
               err_Message := "SQL compilation error"; err_QueryID := "q-1" |}))
      (world_of (exec context_TODO "SELECT x" false false [] Scenario.w_failed)).
Proof.
  destruct (exec_failure_response (E := Doubles.ext)
              context_TODO "SELECT x" false false [] Scenario.w_failed
              (world_of (exec context_TODO "SELECT x" false false [] Scenario.w_failed))
              Scenario.resp_failed) as (_ & Hfailed & _).
  - run_receives (Doubles.transport (Some Scenario.resp_failed, None)
                    Doubles.no_children None) "SELECT x".
  - apply (Hfailed 1003); [reflexivity | discriminate | reflexivity].
Defined.

(** C5 as stated fails: the empty status code is not the text of an
    integer, yet [exec] neither returns a parse error nor the response:
    it reports the failed statement with the number -1. *)
Lemma exec_empty_code_is_not_a_parse_error :
  let w1 := world_of (exec context_TODO "SELECT x" false false []
                        Scenario.w_failed_no_code) in
  Code Scenario.resp_failed_no_code = "" /\
  Atoi (Code Scenario.resp_failed_no_code) = inr ErrSyntax /\
  exec context_TODO "SELECT x" false false [] Scenario.w_failed_no_code
  = Done (None, Some (ErrSnowflake
            {| Number := -1; err_SQLState := "00000";
               err_Message := "failure"; err_QueryID := "q-1" |})) w1 /\
  exec context_TODO "SELECT x" false false [] Scenario.w_failed_no_code
  <> Done (Some Scenario.resp_failed_no_code,
           Some (ErrNum "Atoi" "" ErrSyntax)) w1.
Proof.
  cbv zeta. repeat split; try (vm_compute; reflexivity).
  vm_compute. discriminate.
Qed.

Lemma exec_success_updates_session_witness :
  exists w' c',
    exec context_TODO "ALTER SESSION SET TIMEZONE = 'Europe/Paris'" false false []
      Scenario.w_params = Done (Some Scenario.resp_params, None) w' /\
    cfg (conn w') = Some c' /\
    Database c' = "DB" /\ Schema c' = "PUBLIC" /\
    Role c' = "SYSADMIN" /\ Warehouse c' = "WH" /\
    sc_QueryID (conn w') = "q-1" /\
    Params c' !! "timezone" = Some "Europe/Paris" /\
    Params c' !! "client_session_keep_alive" = Some "true" /\
    Params c' !! "rows_per_resultset" = Some "0" /\
    Params c' !! "TIMEZONE" = None.
Proof.
  destruct (exec_success_updates_session (E := Doubles.ext)
              context_TODO "ALTER SESSION SET TIMEZONE = 'Europe/Paris'" false false []
              Scenario.w_params
              (world_of (PostQuery
                 (Scenario.request1 "ALTER SESSION SET TIMEZONE = 'Europe/Paris'")
                 (exec_headers Doubles.cfg0)
                 "ALTER SESSION SET TIMEZONE = 'Europe/Paris'"
                 {| conn := conn_next (conn Scenario.w_params); trace := [] |}))
              Scenario.resp_params Doubles.cfg0)
    as (w' & c' & Hexec & Hcfg & Hdb & Hschema & Hrole & Hwh & Hqid & _ & Hparams & Hkept).
  - run_receives (Doubles.transport (Some Scenario.resp_params, None)
                    Doubles.no_children None)
      "ALTER SESSION SET TIMEZONE = 'Europe/Paris'".
  - reflexivity.
  - left. reflexivity.
  - reflexivity.
  - exists w', c'. repeat split; try assumption.
    + apply (Hparams 3%nat (mkParam "timezone" (IString "Europe/Paris")));
        [reflexivity|].
      intros [|[|[|[|[|j]]]]] q Hj Hq; try lia; discriminate.
    + apply (Hparams 1%nat (mkParam "CLIENT_SESSION_KEEP_ALIVE" (IBool true)));
        [reflexivity|].
      intros [|[|[|[|[|j]]]]] q Hj Hq; try lia; try discriminate;
        injection Hq as <-; vm_compute; discriminate.
    + apply (Hparams 2%nat (mkParam "Rows_Per_Resultset" (IInt64 0)));
        [reflexivity|].
      intros [|[|[|[|[|j]]]]] q Hj Hq; try lia; try discriminate;
        injection Hq as <-; vm_compute; discriminate.
    + rewrite Hkept; [reflexivity|].
      intros p Hp. apply list_elem_of_lookup in Hp as [j Hj].
      destruct j as [|[|[|[|[|j]]]]]; try discriminate;
        injection Hj as <-; vm_compute; discriminate.
Defined.

Lemma BeginTx_options_witness :
  BeginTx context_TODO Scenario.read_only Scenario.w_begin
  = Done (None, Some (ErrSnowflake
            {| Number := 263101; err_SQLState := "0A000";
               err_Message := "no readonly mode is supported"; err_QueryID := "" |}))
      Scenario.w_begin /\
  BeginTx context_TODO Scenario.default_options Scenario.w_begin
  = Done (Some mkTx, None)
      (world_of (exec context_TODO "BEGIN" false false [] Scenario.w_begin)).
Proof.
  split.
  - apply (proj1 (BeginTx_options (E := Doubles.ext) context_TODO Scenario.read_only
                    Scenario.w_begin)). reflexivity.
  - destruct (BeginTx_options (E := Doubles.ext) context_TODO Scenario.default_options
                Scenario.w_begin) as (_ & _ & Hbegin).
    destruct Hbegin as [Hbegin _]; [reflexivity | reflexivity |].
    destruct (Hbegin (Doubles.ok Doubles.data0)
                (world_of (PostQuery (Scenario.request1 "BEGIN")
                             (exec_headers Doubles.cfg0) "BEGIN"
                             {| conn := conn_next (conn Scenario.w_begin); trace := [] |}))
                Doubles.cfg0) as [Hrun _].
    + run_receives (Doubles.transport (Some (Doubles.ok Doubles.data0), None)
                      Doubles.no_children None) "BEGIN".
    + reflexivity.
    + left. reflexivity.
    + reflexivity.
    + rewrite Hrun. vm_compute. reflexivity.
Defined.

Lemma Close_then_bad_connection_witness :
  exists w',
    Close Scenario.w_keepalive = Done None w' /\
    trace w' = [EvHeartBeatStop; EvCloseSession] /\
    cfg (conn w') = None /\ rest (conn w') = None /\
    ExecContext context_TODO "SELECT 1" [] w' = Done (None, Some ErrBadConn) w' /\
    Ping context_TODO w' = Done (Some ErrBadConn) w' /\
    BeginTx context_TODO Scenario.default_options w' = Done (None, Some ErrBadConn) w'.
Proof.
  destruct (Close_then_bad_connection (E := Doubles.ext) Scenario.w_keepalive
              {| Database := "DB0"; Schema := "S0"; Warehouse := "W0"; Role := "R0";
                 Params := {[ sessionClientSessionKeepAlive := "true" ]} |}
              {| Token := "token"; RequestTimeout := 60;
                 HeartBeat := Some mkHeartbeat;
                 FuncPostQuery := fun _ _ _ => (Some (Doubles.ok Doubles.data0), None);
                 FuncGet := fun _ path _ => Doubles.no_children path;
                 FuncCloseSession := fun _ => Some (ErrExternal "connection reset") |})
    as (w' & Hclose & Htrace & Hcfg & Hrest & Hexec & _ & _ & Hping & Hbegin);
    [reflexivity | reflexivity | discriminate |].
  exists w'. repeat split; auto.
Defined.

(** C9 as stated fails for [BeginTx]: on the closed connection a
    read-only transaction is refused for its option, not for the
    connection. *)
Lemma BeginTx_read_only_after_Close :
  let w' := world_of (Close Scenario.w_keepalive) in
  Close Scenario.w_keepalive = Done None w' /\
  rest (conn w') = None /\
  BeginTx context_TODO Scenario.read_only w'
  = Done (None, Some (ErrSnowflake
            {| Number := 263101; err_SQLState := "0A000";
               err_Message := "no readonly mode is supported"; err_QueryID := "" |})) w' /\
  BeginTx context_TODO Scenario.read_only w' <> Done (None, Some ErrBadConn) w'.
Proof.
  cbv zeta. repeat split; try (vm_compute; reflexivity).
  vm_compute. discriminate.
Qed.

Lemma ExecContext_child_fetch_failure_witness :
  let w1 := world_of (exec context_TODO "INSERT INTO t VALUES (1); INSERT INTO t VALUES (2)"
                        false false [] Scenario.w_multi_fail) in
  let w2 := world_of (getQueryResult context_TODO "/queries/a/result" w1) in
  let w3 := world_of (getQueryResult context_TODO "/queries/b/result" w2) in
  ExecContext_children context_TODO [mkChild "b" "INSERT"] 3 w2
  = Panicked NilDereference w3.
Proof.
  cbv zeta.
  refine (proj2 (ExecContext_child_fetch_failure (E := Doubles.ext)
                   context_TODO (mkChild "b" "INSERT") [] 3 _ None
                   (ErrExternal "timeout") _ _)).
  vm_compute. reflexivity.
Defined.

(** The whole call at the failing input: [ExecContext] panics where
    [QueryContext] returns the error of the fetch. *)
Lemma child_fetch_failure_at_failing_input :
  let query := "INSERT INTO t VALUES (1); INSERT INTO t VALUES (2)" in
  let w1 := world_of (exec context_TODO query false false [] Scenario.w_multi_fail) in
  let w2 := world_of (getQueryResult context_TODO "/queries/a/result" w1) in
  let w3 := world_of (getQueryResult context_TODO "/queries/b/result" w2) in
  getChildResults (ResultIDs (Data Scenario.resp_multi))
    (ResultTypes (Data Scenario.resp_multi))
  = Ret [mkChild "a" "INSERT"; mkChild "b" "INSERT"] /\
  getQueryResult context_TODO "/queries/b/result" w2
  = Done (None, Some (ErrExternal "timeout")) w3 /\
  ExecContext context_TODO query [] Scenario.w_multi_fail
  = Panicked NilDereference w3 /\
  QueryContext context_TODO query [] Scenario.w_multi_fail
  = Done (None, Some (ErrExternal "timeout")) w3 /\
  ExecContext context_TODO query [] Scenario.w_multi
  = Done (Some (snowflakeResult 7 (-1) "q-1"), None)
      (world_of (ExecContext context_TODO query [] Scenario.w_multi)).
Proof.
  cbv zeta. repeat split; vm_compute; reflexivity.
Qed.

Lemma exec_sequence_numbers_witness :
  SequenceCounter (conn (exec_calls Scenario.three_calls Scenario.w_insert).2) = 3 /\
  posted_ids (concat (exec_calls Scenario.three_calls Scenario.w_insert).1) = [1; 3] /\
  StronglySorted Z.lt [1; 3] /\
  NoDup [1; 3].
Proof.
  destruct (exec_sequence_numbers (E := Doubles.ext) Scenario.three_calls Scenario.w_insert)
    as (Hcounter & _ & _ & _ & Hsorted & Hnodup);
    [vm_compute; discriminate | vm_compute; discriminate |].
  assert (Hids : posted_ids (concat (exec_calls Scenario.three_calls Scenario.w_insert).1)
                 = [1; 3]) by (vm_compute; reflexivity).
  rewrite Hids in Hsorted, Hnodup.
  split; [exact Hcounter|]. split; [exact Hids|]. split; assumption.
Defined.

(** At the end of the range of [uint64] the counter starts again from 0. *)
Lemma exec_sequence_number_wraps :
  posted_ids (concat (exec_calls Scenario.three_calls Scenario.w_last_number).1)
  = [maxUint64; 1].
Proof. vm_compute. reflexivity. Qed.

Lemma exec_bind_slots_witness :
  exists m : gmap string execBindParameter,
    exec_bind (E := with_arrayToString_spec Doubles.ext "," MoreScenarios.element_text)
      Scenario.bind_values = inl (Some m) /\
    m !! "1" = Some (mkBind "FIXED" (IString "42")) /\
    m !! "2" = Some (mkBind "TEXT" (IString "abc")) /\
    m !! "3" = Some (mkBind "ARRAY" (IString "1,2")) /\
    m !! "4" = None.
Proof.
  destruct (exec_bind_slots (E := Doubles.ext) "," MoreScenarios.element_text
              Scenario.bind_values Scenario.bind_entries)
    as (m & Hrun & Hslots & Hdom & _).
  - discriminate.
  - unfold Scenario.bind_values, Scenario.bind_entries.
    apply (encodes_spec_value (E := Doubles.ext) "," MoreScenarios.element_text
             (mkNamedValue "" 1 (IInt64 42)) _ "TIMESTAMP_NTZ" (IString "42"));
      [vm_compute; discriminate | vm_compute; discriminate | reflexivity |].
    apply (encodes_spec_signal (E := Doubles.ext) "," MoreScenarios.element_text
             (mkNamedValue "" 2 (IOther "TIMESTAMP_LTZ")) _ "TIMESTAMP_NTZ"
             "TIMESTAMP_LTZ");
      [reflexivity | reflexivity |].
    apply (encodes_spec_value (E := Doubles.ext) "," MoreScenarios.element_text
             (mkNamedValue "" 3 (IString "abc")) _ "TIMESTAMP_LTZ" (IString "abc"));
      [vm_compute; discriminate | vm_compute; discriminate | reflexivity |].
    apply (encodes_spec_array (E := Doubles.ext) "," MoreScenarios.element_text
             (mkNamedValue "" 4 (ISlice [IInt64 1; IInt64 2])) [] "TIMESTAMP_LTZ"
             [IInt64 1; IInt64 2] []); [reflexivity | reflexivity |].
    apply encodes_spec_nil.
  - exists m. split; [exact Hrun|].
    split; [exact (Hslots 0%nat _ eq_refl)|].
    split; [exact (Hslots 1%nat _ eq_refl)|].
    split; [exact (Hslots 2%nat _ eq_refl)|].
    destruct (m !! "4") as [e|] eqn:H4; [exfalso | reflexivity].
    destruct (proj1 (Hdom "4") (ex_intro _ e H4)) as (k & Hk & Heq).
    destruct k as [|[|[|k]]]; [vm_compute in Heq; discriminate..|].
    cbn in Hk. lia.
Defined.

End Runs.

(** * Further concrete runs *)

Section MoreRuns.
#[local] Existing Instance Doubles.ext.

Ltac receives r query :=
  exists Doubles.cfg0, r, None, query; cbv zeta;
  repeat split; vm_compute; reflexivity.

Lemma getChildResults_pairs_witness :
  getChildResults "a,b" "INSERT,SELECT,UPDATE"
  = Ret [mkChild "a" "INSERT"; mkChild "b" "SELECT"].
Proof.
  destruct (getChildResults_pairs "a,b" "INSERT,SELECT,UPDATE") as (res & Hrun & -> & _);
    [cbn; lia|]. exact Hrun.
Defined.

Lemma getChildResults_fewer_types_witness :
  getChildResults "a,b" "INSERT" = Panic IndexOutOfRange.
Proof.
  apply getChildResults_fewer_types; [discriminate | cbn; lia].
Defined.

Lemma updateRows_stops_witness :
  updateRows (Data MoreScenarios.resp_bad_cell)
  = Ret (-1, Some (ErrNum "ParseInt" "x" ErrSyntax)).
Proof.
  destruct (updateRows_stops (Data MoreScenarios.resp_bad_cell) [2])
    as (_ & Hrow & _).
  - intros [|j] v Hv; [|discriminate].
    injection Hv as <-. exists [Some "2"; Some "x"], "2". repeat split.
  - cbn. lia.
  - destruct (Hrow [Some "2"; Some "x"] eq_refl) as (_ & _ & Hbad).
    apply Hbad; reflexivity.
Defined.

Lemma ExecContext_dml_unparsable_cell_witness :
  ExecContext context_TODO "INSERT INTO t SELECT * FROM s" [] MoreScenarios.w_bad_cell
  = Done (None, Some (ErrNum "ParseInt" "x" ErrSyntax))
      (world_of (exec context_TODO "INSERT INTO t SELECT * FROM s" false false []
                   MoreScenarios.w_bad_cell)).
Proof.
  apply (ExecContext_dml_unparsable_cell (E := Doubles.ext)
           context_TODO "INSERT INTO t SELECT * FROM s" [] MoreScenarios.w_bad_cell _
           MoreScenarios.resp_bad_cell false false [2] [Some "2"; Some "x"]);
    [discriminate | reflexivity | reflexivity | vm_compute; reflexivity | reflexivity
    | | cbn; lia | reflexivity | reflexivity | reflexivity].
  intros [|j] v Hv; [|discriminate].
  injection Hv as <-. exists [Some "2"; Some "x"], "2". repeat split.
Defined.

Lemma ExecContext_other_statement_witness :
  ExecContext context_TODO "CREATE TABLE t (a int)" [] Scenario.w_begin
  = Done (Some ResultNoRows, None)
      (world_of (exec context_TODO "CREATE TABLE t (a int)" false false []
                   Scenario.w_begin)).
Proof.
  refine (proj2 (ExecContext_other_statement (E := Doubles.ext)
                   context_TODO "CREATE TABLE t (a int)" [] Scenario.w_begin _
                   (Doubles.ok Doubles.data0) false false _ _ _ _ _ _));
    [discriminate | reflexivity | reflexivity | vm_compute; reflexivity
    | reflexivity | discriminate].
Defined.

Lemma exec_bind_failure_witness :
  exec context_TODO "SELECT ?" false false MoreScenarios.bad_bindings Scenario.w_insert
  = Done (None, Some (ErrExternal "unsupported type"))
      {| conn := conn_next (conn Scenario.w_insert); trace := [] |}.
Proof.
  destruct (exec_bind_failure (E := Doubles.ext) MoreScenarios.bad_bindings)
    as (err & Hbind & Hrun).
  - intros entries Hentries. inversion Hentries; subst; discriminate.
  - rewrite Hrun. vm_compute in Hbind. injection Hbind as <-. reflexivity.
Defined.

Lemma exec_bind_encodes_witness :
  exists entries, encodes Scenario.bind_values "TIMESTAMP_NTZ" entries.
Proof.
  refine (proj2 (exec_bind_encodes (E := Doubles.ext) Scenario.bind_values
                   (list_to_map (zip ["1"; "2"; "3"] Scenario.bind_entries)) _)).
  vm_compute. reflexivity.
Defined.

Lemma exec_transport_answer_witness :
  exec context_TODO "SELECT 1" false false [] MoreScenarios.w_response_and_error
  = Done (Some Scenario.resp_failed, Some (ErrExternal "bad gateway"))
      (world_of (exec context_TODO "SELECT 1" false false []
                   MoreScenarios.w_response_and_error)) /\
  exec context_TODO "SELECT 1" false false [] MoreScenarios.w_silent
  = Panicked NilDereference
      (world_of (exec context_TODO "SELECT 1" false false [] MoreScenarios.w_silent)).
Proof.
  split.
  - destruct (exec_transport_answer (E := Doubles.ext)
                context_TODO "SELECT 1" false false [] MoreScenarios.w_response_and_error
                (Some Scenario.resp_failed) (Some (ErrExternal "bad gateway"))
                (world_of (exec context_TODO "SELECT 1" false false []
                             MoreScenarios.w_response_and_error))) as (Herr & _ & _).
    + receives (Doubles.transport
                  (Some Scenario.resp_failed, Some (ErrExternal "bad gateway"))
                  Doubles.no_children None) "SELECT 1".
    + apply Herr. reflexivity.
  - destruct (exec_transport_answer (E := Doubles.ext)
                context_TODO "SELECT 1" false false [] MoreScenarios.w_silent None None
                (world_of (exec context_TODO "SELECT 1" false false []
                             MoreScenarios.w_silent))) as (_ & Hnil & _).
    + receives (Doubles.transport (None, None) Doubles.no_children None) "SELECT 1".
    + apply Hnil; reflexivity.
Defined.

Lemma exec_failed_with_response_witness :
  ExecContext context_TODO "SELECT 1" [] MoreScenarios.w_response_and_error
  = Panicked NilDereference
      (world_of (exec context_TODO "SELECT 1" false false []
                   MoreScenarios.w_response_and_error)) /\
  QueryContext context_TODO "SELECT 1" [] MoreScenarios.w_response_and_error
  = Panicked NilDereference
      (world_of (exec context_TODO "SELECT 1" false false []
                   MoreScenarios.w_response_and_error)).
Proof.
  destruct (exec_failed_with_response (E := Doubles.ext)
              context_TODO "SELECT 1" [] MoreScenarios.w_response_and_error
              (world_of (exec context_TODO "SELECT 1" false false []
                           MoreScenarios.w_response_and_error))
              Scenario.resp_failed (ErrExternal "bad gateway") false false)
    as [Hcode _];
    [discriminate | reflexivity | reflexivity | vm_compute; reflexivity|].
  apply (Hcode 1003). reflexivity.
Defined.

Lemma exec_error_is_returned_witness :
  ExecContext context_TODO "SELECT 1" [] MoreScenarios.w_transport_error
  = Done (None, Some (ErrExternal "timeout"))
      (world_of (exec context_TODO "SELECT 1" false false []
                   MoreScenarios.w_transport_error)) /\
  Ping context_TODO MoreScenarios.w_transport_error
  = Done (Some (ErrExternal "timeout"))
      (world_of (exec context_TODO "SELECT 1" false false []
                   MoreScenarios.w_transport_error)).
Proof.
  destruct (exec_error_is_returned (E := Doubles.ext)
              context_TODO "SELECT 1" [] MoreScenarios.w_transport_error
              (world_of (exec context_TODO "SELECT 1" false false []
                           MoreScenarios.w_transport_error))
              (ErrExternal "timeout") false false)
    as (Hexec & Hping & _); [discriminate | reflexivity | reflexivity |].
  split.
  - apply Hexec. vm_compute. reflexivity.
  - apply Hping. vm_compute. reflexivity.
Defined.

Lemma getQueryResult_one_call_witness :
  trace (world_of (getQueryResult context_TODO "/queries/a/result" Scenario.w_multi))
  = [EvGet "/queries/a/result"
       (getQueryResult_headers Doubles.cfg0
          (Doubles.transport (Some Scenario.resp_multi, None) Scenario.get_both None))] /\
  getQueryResult_headers Doubles.cfg0
    (Doubles.transport (Some Scenario.resp_multi, None) Scenario.get_both None)
    !! "Authorization" = Some "Snowflake Token=token".
Proof.
  destruct (getQueryResult_one_call (E := Doubles.ext)
              context_TODO "/queries/a/result" Scenario.w_multi Doubles.cfg0
              (Doubles.transport (Some Scenario.resp_multi, None) Scenario.get_both None))
    as (_ & Htrace & _ & Htoken & _); [reflexivity | reflexivity |].
  split; [exact Htrace|]. apply Htoken. discriminate.
Defined.

Lemma ExecContext_multi_sum_witness :
  ExecContext context_TODO "INSERT INTO t VALUES (1); INSERT INTO t VALUES (2)" []
    Scenario.w_multi
  = Done (Some (snowflakeResult 7 (-1) "q-1"), None)
      (world_of (ExecContext context_TODO
                   "INSERT INTO t VALUES (1); INSERT INTO t VALUES (2)" []
                   Scenario.w_multi)).
Proof.
  rewrite (ExecContext_multi_sum (E := Doubles.ext)
             context_TODO "INSERT INTO t VALUES (1); INSERT INTO t VALUES (2)" []
             Scenario.w_multi
             (world_of (exec context_TODO
                          "INSERT INTO t VALUES (1); INSERT INTO t VALUES (2)"
                          false false [] Scenario.w_multi))
             Scenario.resp_multi false false (mkRowType multiStmtMarker "fixed") []
             {| Database := "DB"; Schema := "PUBLIC"; Warehouse := "WH";
                Role := "SYSADMIN"; Params := ∅ |}
             (Doubles.transport (Some Scenario.resp_multi, None) Scenario.get_both None)
             MoreScenarios.two_children
             [(Doubles.child_response "3", 3); (Doubles.child_response "4", 4)]);
    [reflexivity | discriminate | reflexivity | reflexivity | vm_compute; reflexivity
    | reflexivity | reflexivity | reflexivity | reflexivity | reflexivity
    | reflexivity |].
  constructor; [|constructor; [|constructor]];
    (split; [intros tr headers; eexists; split; vm_compute; reflexivity|]).
  - right. split; [reflexivity|]. exists [3]. split; [reflexivity|]. split; [|reflexivity].
    intros [|i] v Hv; [|discriminate]. injection Hv as <-.
    exists [Some "3"], "3". repeat split.
  - right. split; [reflexivity|]. exists [4]. split; [reflexivity|]. split; [|reflexivity].
    intros [|i] v Hv; [|discriminate]. injection Hv as <-.
    exists [Some "4"], "4". repeat split.
Defined.

Lemma QueryContext_multi_chain_witness :
  exists rows w',
    QueryContext context_TODO "INSERT INTO t VALUES (1); INSERT INTO t VALUES (2)" []
      Scenario.w_multi = Done (Some rows, None) w' /\
    JSON <$> chain_rowsets (ChunkDownloader rows) = [[[Some "3"]]; [[Some "4"]]].
Proof.
  destruct (QueryContext_multi_chain (E := Doubles.ext)
             context_TODO "INSERT INTO t VALUES (1); INSERT INTO t VALUES (2)" []
             Scenario.w_multi
             (world_of (exec context_TODO
                          "INSERT INTO t VALUES (1); INSERT INTO t VALUES (2)"
                          false false [] Scenario.w_multi))
             Scenario.resp_multi false false (mkRowType multiStmtMarker "fixed") []
             {| Database := "DB"; Schema := "PUBLIC"; Warehouse := "WH";
                Role := "SYSADMIN"; Params := ∅ |}
             (Doubles.transport (Some Scenario.resp_multi, None) Scenario.get_both None)
             MoreScenarios.two_children
             [Doubles.child_response "3"; Doubles.child_response "4"])
    as (rows & Hrun & _ & _ & Hchain);
    [discriminate | reflexivity | reflexivity | vm_compute; reflexivity
    | reflexivity | reflexivity | reflexivity | reflexivity | reflexivity
    | reflexivity | |].
  - constructor; [|constructor; [|constructor]];
      intros tr headers; eexists; split; vm_compute; reflexivity.
  - exists rows. eexists. split; [exact Hrun|]. rewrite Hchain. reflexivity.
Defined.

Lemma QueryContext_single_witness :
  exists w',
    QueryContext context_TODO "INSERT INTO t VALUES (1),(2)" [] Scenario.w_insert
    = Done (Some {| rows_RowType := [mkRowType "number of rows inserted" "fixed"];
                    ChunkDownloader := populateChunkDownloader (Data Scenario.resp_insert);
                    rows_queryID := "q-1" |}, None) w' /\
    chain_rowsets (populateChunkDownloader (Data Scenario.resp_insert))
    = [rowset_of Scenario.resp_insert].
Proof.
  destruct (QueryContext_single (E := Doubles.ext)
              context_TODO "INSERT INTO t VALUES (1),(2)" [] Scenario.w_insert
              (world_of (exec context_TODO "INSERT INTO t VALUES (1),(2)" false false []
                           Scenario.w_insert))
              Scenario.resp_insert false false) as (Hrun & Hchain & _);
    [discriminate | reflexivity | reflexivity | vm_compute; reflexivity | reflexivity |].
  eexists. split; [exact Hrun | exact Hchain].
Defined.

Lemma QueryContext_child_refused_witness :
  exists w',
    QueryContext context_TODO "INSERT INTO t VALUES (1); INSERT INTO t VALUES (2)" []
      Scenario.w_multi_fail = Done (None, Some (ErrExternal "timeout")) w' /\
    omap (fun ev => match ev with EvGet path _ => Some path | _ => None end) (trace w')
    = ["/queries/a/result"; "/queries/b/result"].
Proof.
  eexists. split.
  - apply (QueryContext_child_refused (E := Doubles.ext)
             context_TODO "INSERT INTO t VALUES (1); INSERT INTO t VALUES (2)" []
             Scenario.w_multi_fail
             (world_of (exec context_TODO
                          "INSERT INTO t VALUES (1); INSERT INTO t VALUES (2)"
                          false false [] Scenario.w_multi_fail))
             Scenario.resp_multi false false (mkRowType multiStmtMarker "fixed") []
             {| Database := "DB"; Schema := "PUBLIC"; Warehouse := "WH";
                Role := "SYSADMIN"; Params := ∅ |}
             (Doubles.transport (Some Scenario.resp_multi, None)
                Scenario.get_second_fails None)
             [mkChild "a" "INSERT"] (mkChild "b" "INSERT") []
             [Doubles.child_response "3"]);
      [discriminate | reflexivity | reflexivity | vm_compute; reflexivity
      | reflexivity | reflexivity | reflexivity | reflexivity | reflexivity
      | reflexivity | | ].
    + constructor; [|constructor].
      intros tr headers. eexists. split; vm_compute; reflexivity.
    + intros tr headers. eexists. vm_compute. reflexivity.
  - vm_compute. reflexivity.
Defined.

Lemma statement_changes_are_those_of_exec_witness :
  SequenceCounter (conn (world_of
    (ExecContext context_TODO "INSERT INTO t VALUES (1); INSERT INTO t VALUES (2)" []
       Scenario.w_multi))) = 1 /\
  SequenceCounter (conn (world_of
    (QueryContext context_TODO "INSERT INTO t VALUES (1); INSERT INTO t VALUES (2)" []
       Scenario.w_multi))) = 1.
Proof.
  destruct (statement_changes_are_those_of_exec (E := Doubles.ext)
              context_TODO "INSERT INTO t VALUES (1); INSERT INTO t VALUES (2)" []
              Scenario.w_multi false false) as (_ & _ & Hexec & Hquery);
    [discriminate | reflexivity | reflexivity |].
  split; [exact Hexec | exact Hquery].
Defined.

Lemma option_of_wrong_type_witness :
  ExecContext MoreScenarios.ctx_bad_flag "SELECT 1" [] Scenario.w_insert
  = Done (None, Some (ErrCast (IString "yes"))) Scenario.w_insert /\
  Ping MoreScenarios.ctx_bad_flag Scenario.w_insert
  = Done (Some (ErrCast (IString "yes"))) Scenario.w_insert.
Proof.
  destruct (option_of_wrong_type (E := Doubles.ext)
              MoreScenarios.ctx_bad_flag "SELECT 1" [] Scenario.w_insert (IString "yes"))
    as (Hexec & _ & Hping);
    [discriminate | discriminate | discriminate | left; reflexivity |].
  split; [exact Hexec | exact Hping].
Defined.

Lemma Ping_selects_one_witness :
  trace (world_of (Ping context_TODO Scenario.w_begin))
  = [EvPostQuery (Scenario.request1 "SELECT 1") (exec_headers Doubles.cfg0) "SELECT 1"] /\
  exists w', Ping context_TODO Scenario.w_begin = Done None w' /\
             sc_QueryID (conn w') = "q-1" /\ sc_SQLState (conn w') = "00000".
Proof.
  destruct (Ping_selects_one (E := Doubles.ext) context_TODO Scenario.w_begin
              Doubles.cfg0 MoreScenarios.r_begin false false "SELECT 1")
    as (Htrace & _ & Hok);
    [reflexivity | reflexivity | reflexivity | reflexivity | reflexivity |].
  split; [exact Htrace|].
  apply (Hok (Doubles.ok Doubles.data0)); [reflexivity | reflexivity |].
  left. reflexivity.
Defined.

Lemma heartbeat_only_with_keepalive_witness :
  startHeartBeat Scenario.w_begin = Done tt Scenario.w_begin /\
  stopHeartBeat Scenario.w_begin = Done tt Scenario.w_begin /\
  trace (world_of (startHeartBeat Scenario.w_keepalive)) = [EvHeartBeatStart].
Proof.
  destruct (heartbeat_only_with_keepalive (E := Doubles.ext) Scenario.w_begin)
    as (Hoff & _).
  destruct (Hoff Doubles.cfg0 eq_refl eq_refl) as [Hstart Hstop].
  split; [exact Hstart|]. split; [exact Hstop|].
  destruct (heartbeat_only_with_keepalive (E := Doubles.ext) Scenario.w_keepalive)
    as (_ & _ & Hon & _).
  destruct (Hon _ _ eq_refl eq_refl eq_refl) as (r' & -> & _). reflexivity.
Defined.

Lemma keepalive_follows_response_witness :
  exists w',
    exec context_TODO "ALTER SESSION SET CLIENT_SESSION_KEEP_ALIVE = TRUE" false false []
      Scenario.w_params = Done (Some Scenario.resp_params, None) w' /\
    isClientSessionKeepAliveEnabled w' = Done true w'.
Proof.
  destruct (keepalive_follows_response (E := Doubles.ext)
              context_TODO "ALTER SESSION SET CLIENT_SESSION_KEEP_ALIVE = TRUE"
              false false [] Scenario.w_params
              (world_of (PostQuery
                 (Scenario.request1 "ALTER SESSION SET CLIENT_SESSION_KEEP_ALIVE = TRUE")
                 (exec_headers Doubles.cfg0)
                 "ALTER SESSION SET CLIENT_SESSION_KEEP_ALIVE = TRUE"
                 {| conn := conn_next (conn Scenario.w_params); trace := [] |}))
              Scenario.resp_params Doubles.cfg0 1%nat
              (mkParam "CLIENT_SESSION_KEEP_ALIVE" (IBool true)))
    as (w' & Hexec & _ & Htrue & _).
  - receives (Doubles.transport (Some Scenario.resp_params, None)
                Doubles.no_children None)
      "ALTER SESSION SET CLIENT_SESSION_KEEP_ALIVE = TRUE".
  - reflexivity.
  - left. reflexivity.
  - reflexivity.
  - reflexivity.
  - reflexivity.
  - intros [|[|[|[|[|j]]]]] q Hj Hq; try lia; try discriminate;
      injection Hq as <-; vm_compute; discriminate.
  - exists w'. split; [exact Hexec|]. apply Htrue. left. reflexivity.
Defined.

Lemma service_name_header_witness :
  exists w' c',
    exec context_TODO "SELECT 1" false false [] MoreScenarios.w_service
    = Done (Some MoreScenarios.resp_service, None) w' /\
    cfg (conn w') = Some c' /\
    exec_headers c' !! "X-Snowflake-Service" = Some "svc-1" /\
    exec_headers Doubles.cfg0 !! "X-Snowflake-Service" = None.
Proof.
  destruct (service_name_header (E := Doubles.ext)
              context_TODO "SELECT 1" false false [] MoreScenarios.w_service
              (world_of (PostQuery (Scenario.request1 "SELECT 1")
                           (exec_headers Doubles.cfg0) "SELECT 1"
                           {| conn := conn_next (conn MoreScenarios.w_service);
                              trace := [] |}))
              MoreScenarios.resp_service Doubles.cfg0 0%nat
              (mkParam "SERVICE_NAME" (IString "svc-1")))
    as (w' & c' & Hexec & Hcfg & _ & Hservice & Hheaders).
  - receives (Doubles.transport (Some MoreScenarios.resp_service, None)
                Doubles.no_children None) "SELECT 1".
  - reflexivity.
  - left. reflexivity.
  - reflexivity.
  - reflexivity.
  - reflexivity.
  - intros [|j] q Hj Hq; [lia | discriminate].
  - exists w', c'. split; [exact Hexec|]. split; [exact Hcfg|].
    split; [exact Hservice|].
    destruct (Hheaders Doubles.cfg0) as (_ & _ & _ & -> & _). reflexivity.
Defined.

Lemma Close_needs_open_connection_witness :
  exists w', Close Scenario.w_begin = Done None w' /\
             Close w' = Panicked NilDereference w'.
Proof.
  destruct (Close_needs_open_connection (E := Doubles.ext) Scenario.w_begin)
    as [_ Htwice].
  apply (Htwice Doubles.cfg0 MoreScenarios.r_begin); [reflexivity | reflexivity |].
  vm_compute. discriminate.
Defined.

Lemma prepared_statement_follows_connection_witness :
  exists stmt w',
    Prepare "SELECT 1" Scenario.w_begin = Done (Some stmt, None) Scenario.w_begin /\
    Close Scenario.w_begin = Done None w' /\
    Stmt_ExecContext stmt context_TODO [] w' = Done (None, Some ErrBadConn) w'.
Proof.
  destruct (prepared_statement_follows_connection (E := Doubles.ext)
              context_TODO "SELECT 1" Scenario.w_begin Doubles.cfg0 MoreScenarios.r_begin)
    as (stmt & w' & _ & Hprepare & _ & Hclose & Hafter & _);
    [reflexivity | reflexivity | vm_compute; discriminate |].
  exists stmt, w'. split; [exact Hprepare|]. split; [exact Hclose|].
  apply (Hafter context_TODO []).
Defined.

End MoreRuns.


